(** * anomalib: inference pipeline, datamodule splitting and the 3D folder dataset

    A shallow embedding of
    - [anomalib/deploy/inferencers/base_inferencer.py] (module [BaseInferencer]),
    - [anomalib/data/base/datamodule.py]               (module [DataModule]),
    - [anomalib/data/depth/folder_3d.py]               (module [Folder3D]).

    Python exceptions are values of [exn]; a call that may raise returns a
    [result].  Collaborators that live outside these three files (torch,
    pandas, pathlib, the anomalib utility functions) enter as section
    variables and are instantiated with small executable stand-ins in
    module [Examples]. *)

From Stdlib Require Import Strings.Ascii.
From Stdlib Require OrderedTypeEx.
From stdpp Require Import gmap strings list fin_maps sorting.

Set Default Proof Using "Type".
Local Open Scope string_scope.
Local Open Scope list_scope.

(** ** Exceptions and the error monad *)

Inductive exn :=
  | IndexError
  | KeyError (key : string)
  | AttributeError
  | TypeError
  | UnboundLocalError (name : string)
  | AssertionError (msg : string)
  | ValueError (msg : string)
  | RuntimeError (msg : string)
  | FileNotFoundError (msg : string)
  | PermissionError (msg : string).

Inductive result (A : Type) :=
  | Ok (a : A)
  | Raise (e : exn).
Arguments Ok {A} a.
Arguments Raise {A} e.

#[global] Instance result_ret : MRet result := λ A a, Ok a.
#[global] Instance result_bind : MBind result := λ A B f m,
  match m with
  | Ok a => f a
  | Raise e => Raise e
  end.
#[global] Instance result_fmap : FMap result := λ A B f m,
  match m with
  | Ok a => Ok (f a)
  | Raise e => Raise e
  end.

(** [assert cond, msg] *)
Definition assert (cond : bool) (msg : string) : result unit :=
  if cond then Ok tt else Raise (AssertionError msg).

(** [d[key]] on a [dict] with string keys. *)
Definition getitem {V : Type} (d : gmap string V) (key : string) : result V :=
  match d !! key with
  | Some v => Ok v
  | None => Raise (KeyError key)
  end.

(** [key in d] *)
Definition contains {V : Type} (d : gmap string V) (key : string) : bool :=
  bool_decide (is_Some (d !! key)).

(** * base_inferencer.py *)

Module BaseInferencer.

(** [image: str | Path | np.ndarray] *)
Inductive image_arg (ndarray : Type) :=
  | ImagePath (path : string)
  | ImageArray (arr : ndarray).
Arguments ImagePath {ndarray} path.
Arguments ImageArray {ndarray} arr.

(** [anomalib.utils.visualization.ImageResult], as the keyword arguments
    [predict] passes to its constructor. *)
Record ImageResult (ndarray Any : Type) := mkImageResult {
  image : ndarray;
  pred_score : Any;
  pred_label : Any;
  anomaly_map : Any;
  pred_mask : Any;
  pred_boxes : Any;
  box_labels : Any;
}.
Arguments mkImageResult {ndarray Any}.
Arguments image {ndarray Any}.
Arguments pred_score {ndarray Any}.
Arguments pred_label {ndarray Any}.
Arguments anomaly_map {ndarray Any}.
Arguments pred_mask {ndarray Any}.
Arguments pred_boxes {ndarray Any}.
Arguments box_labels {ndarray Any}.

(** The abstract methods of [class Inferencer(ABC)] together with the
    optional [metadata] attribute that [predict] probes with [hasattr].
    [Tensor] stands for [np.ndarray | torch.Tensor], [Any] for the values
    stored in the metadata and output dictionaries. *)
Class Inferencer (Self ndarray Tensor Any : Type) := {
  pre_process : Self → ndarray → Tensor;
  forward : Self → Tensor → Tensor;
  post_process : Self → Tensor → gmap string Any → gmap string Any;
  metadata_attr : Self → option (gmap string Any);
}.

Section predict.
Context {Self ndarray Tensor Any : Type}.
Context `{!Inferencer Self ndarray Tensor Any}.
(** [anomalib.data.utils.read_image] *)
Variable read_image : string → ndarray.
(** [arr.shape] and the embedding of a tuple of ints into [Any] *)
Variable shape : ndarray → list nat.
Variable of_shape : list nat → Any.

(** Lines 68-69: the dictionary bound to [metadata] after the default
    has been resolved. *)
Definition resolve_metadata (self : Self) (metadata : option (gmap string Any))
    : gmap string Any :=
  match metadata with
  | Some md => md
  | None =>
      match metadata_attr self with
      | Some md => md
      | None => ∅
      end
  end.

(** Lines 70-73 *)
Definition image_array (image : image_arg ndarray) : ndarray :=
  match image with
  | ImagePath path => read_image path
  | ImageArray arr => arr
  end.

Definition predict (self : Self) (image : image_arg ndarray)
    (metadata : option (gmap string Any)) : result (ImageResult ndarray Any) :=
  let metadata := resolve_metadata self metadata in
  let image_arr := image_array image in
  let metadata := <["image_shape" := of_shape (take 2 (shape image_arr))]> metadata in
  let processed_image := pre_process self image_arr in
  let predictions := forward self processed_image in
  let output := post_process self predictions metadata in
  pred_score ← getitem output "pred_score";
  pred_label ← getitem output "pred_label";
  anomaly_map ← getitem output "anomaly_map";
  pred_mask ← getitem output "pred_mask";
  pred_boxes ← getitem output "pred_boxes";
  box_labels ← getitem output "box_labels";
  Ok (mkImageResult image_arr pred_score pred_label anomaly_map pred_mask
        pred_boxes box_labels).

(** [__call__] *)
Definition call (self : Self) (image : ndarray) : result (ImageResult ndarray Any) :=
  predict self (ImageArray image) None.
End predict.

Section normalize.
Context {Any Float : Type}.
(** [anomalib.utils.normalization.min_max.normalize(targets, threshold, min_val, max_val)] *)
Variable normalize_min_max : Any → Any → Any → Any → Any.
(** the builtin [float] *)
Variable float : Any → Float.

Definition _normalize (pred_scores : Any) (metadata : gmap string Any)
    (anomaly_maps : option Any) : result (option Any * Float) :=
  if contains metadata "min" && contains metadata "max" then
    anomaly_maps ←
      match anomaly_maps with
      | Some maps =>
          pixel_threshold ← getitem metadata "pixel_threshold";
          min_val ← getitem metadata "min";
          max_val ← getitem metadata "max";
          Ok (Some (normalize_min_max maps pixel_threshold min_val max_val))
      | None => Ok None
      end;
    image_threshold ← getitem metadata "image_threshold";
    min_val ← getitem metadata "min";
    max_val ← getitem metadata "max";
    let pred_scores := normalize_min_max pred_scores image_threshold min_val max_val in
    Ok (anomaly_maps, float pred_scores)
  else
    Ok (anomaly_maps, float pred_scores).
End normalize.

Section load_metadata.
Context {Any : Type}.
(** [OmegaConf.load(path)], cast to a [DictConfig] *)
Variable OmegaConf_load : string → result (gmap string Any).

Definition _load_metadata (path : option string) : result (gmap string Any) :=
  match path with
  | Some path => OmegaConf_load path
  | None => Ok ∅
  end.
End load_metadata.

End BaseInferencer.


(** * datamodule.py *)

Module TestSplitMode.
(** Modelled from the spec: the enum [anomalib.data.utils.TestSplitMode] is
    declared outside the files at hand.  Its members are the ones
    [_create_test_split] and the class docstring name ("Options: [none,
    from_dir, synthetic]"); [Other] stands for any further member, the
    "unsupported split-mode enum values" the method guards against. *)
Inductive t :=
  | NONE
  | FROM_DIR
  | SYNTHETIC
  | Other (name : string).

#[global] Instance eq_dec : EqDecision t.
Proof. solve_decision. Defined.

(** [str(mode)] as interpolated into the error message. *)
Definition str (mode : t) : string :=
  match mode with
  | NONE => "none"
  | FROM_DIR => "from_dir"
  | SYNTHETIC => "synthetic"
  | Other name => name
  end.
End TestSplitMode.

Module ValSplitMode.
(** Modelled from the spec: the enum [anomalib.data.utils.ValSplitMode],
    declared outside the files at hand ("Options: [none, same_as_test,
    from_test, synthetic]"); [Other] stands for any further member. *)
Inductive t :=
  | NONE
  | SAME_AS_TEST
  | FROM_TEST
  | SYNTHETIC
  | Other (name : string).

#[global] Instance eq_dec : EqDecision t.
Proof. solve_decision. Defined.

Definition str (mode : t) : string :=
  match mode with
  | NONE => "none"
  | SAME_AS_TEST => "same_as_test"
  | FROM_TEST => "from_test"
  | SYNTHETIC => "synthetic"
  | Other name => name
  end.
End ValSplitMode.

Module DataModule.

(** ** [collate_fn]

    The batch is a Python list of objects; the dictionaries among them are
    mutable and may be shared, so they live in a heap and the batch holds
    references. *)

Definition loc := nat.

#[warnings="-register-all"]
Inductive pyval (Atom : Type) :=
  | VRef (l : loc)                      (* a [dict] object *)
  | VList (items : list (pyval Atom))    (* a [list] *)
  | VAtom (a : Atom).                    (* anything else: tensors, numbers, strings *)
Arguments VRef {Atom} l.
Arguments VList {Atom} items.
Arguments VAtom {Atom} a.

(** What [collate_fn] returns: the fresh [out_dict], or whatever
    [default_collate] made of the batch. *)
Inductive collated (Atom : Type) :=
  | OutDict (out_dict : gmap string (pyval Atom))
  | Collated (v : pyval Atom).
Arguments OutDict {Atom} out_dict.
Arguments Collated {Atom} v.

(** Computations that read and update a heap [H] and may raise; the heap
    reached when an exception escapes is kept. *)
Definition state (H A : Type) : Type := H → result A * H.

#[global] Instance state_ret {H : Type} : MRet (state H) := λ A a h, (Ok a, h).
#[global] Instance state_bind {H : Type} : MBind (state H) := λ A B f m h,
  match m h with
  | (Ok a, h') => f a h'
  | (Raise e, h') => (Raise e, h')
  end.

Definition raise {H A : Type} (e : exn) : state H A := λ h, (Raise e, h).
Definition get_heap {H : Type} : state H H := λ h, (Ok h, h).

Fixpoint mapM {H A B : Type} (f : A → state H B) (xs : list A) : state H (list B) :=
  match xs with
  | [] => mret []
  | x :: xs => y ← f x; ys ← mapM f xs; mret (y :: ys)
  end.

Section collate_fn.
Context {Atom : Type}.
Local Abbreviation value := (pyval Atom).
Local Abbreviation dict := (gmap string value).
Local Abbreviation heap := (gmap loc dict).
(** [torch.utils.data.dataloader.default_collate]; it may look into the
    dictionaries its arguments refer to. *)
Variable default_collate : heap → list value → value.

(** [isinstance(v, dict)], with the contents of the dictionary. *)
Definition as_dict (v : value) : state heap (option dict) := λ h,
  (Ok match v with
      | VRef l => h !! l
      | _ => None
      end, h).

(** [item.pop(key)] *)
Definition pop (item : value) (key : string) : state heap value := λ h,
  match item with
  | VRef l =>
      match h !! l with
      | Some d =>
          match d !! key with
          | Some v => (Ok v, <[l := delete key d]> h)
          | None => (Raise (KeyError key), h)
          end
      | None => (Raise AttributeError, h)
      end
  | VList _ => (Raise TypeError, h)
  | VAtom _ => (Raise AttributeError, h)
  end.

(** [item[key]] with a string key *)
Definition subscript (item : value) (key : string) : state heap value := λ h,
  match item with
  | VRef l =>
      match h !! l with
      | Some d => (getitem d key, h)
      | None => (Raise TypeError, h)
      end
  | _ => (Raise TypeError, h)
  end.

(** [for key in elem]: the keys [elem] has when the comprehension runs.
    Python visits them in insertion order, [map_to_list] in an order of its
    own; the order only decides which missing key a [KeyError] names. *)
Definition keys (elem : value) : state heap (list string) :=
  d ← as_dict elem;
  mret match d with
       | Some d => (map_to_list d).*1
       | None => []
       end.

Definition collate_fn (batch : list value) : state heap (collated Atom) :=
  match batch with
  | [] => raise IndexError
  | elem :: _ =>
      d ← as_dict elem;
      match d with
      | Some d =>
          out_dict ←
            (if contains d "boxes" then
               boxes ← mapM (λ item, pop item "boxes") batch;
               mret ({["boxes" := VList boxes]} : dict)
             else mret (∅ : dict));
          ks ← keys elem;
          others ← mapM (λ key,
                      vals ← mapM (λ item, subscript item key) batch;
                      h ← get_heap;
                      mret (key, default_collate h vals)) ks;
          mret (OutDict (list_to_map others ∪ out_dict))
      | None =>
          h ← get_heap;
          mret (Collated (default_collate h batch))
      end
  end.

(** The heap [h'] is [h] with "boxes" removed from the dictionaries at
    [locs], and nothing else changed. *)
Definition popped (locs : list loc) (h h' : heap) : Prop :=
  ∀ l, h' !! l = if decide (l ∈ locs) then delete "boxes" <$> h !! l else h !! l.
End collate_fn.

#[global] Instance pyval_inhabited {Atom : Type} : Inhabited (pyval Atom) :=
  populate (VList []).

(** ** [AnomalibDataModule] *)

(** What the datamodule uses of [AnomalibDataset] and of the splitting
    utilities in [anomalib.data.utils]: [setup()] and [is_setup],
    [has_normal], [+], [split_by_label(dataset)],
    [random_split(dataset, split_ratio, label_aware, seed)] and
    [SyntheticAnomalyDataset.from_dataset(dataset)].  [setup()] runs the
    subclass's [_setup] (for [Folder3DDataset], [make_folder3d_dataset]) and
    so may raise.  Datasets are values here: [setup()] returns the dataset
    it has set up, and no method below changes a dataset that two
    attributes share.

    The two sampling utilities draw random numbers: [random_split] permutes
    the samples with a generator that is seeded only when a seed is passed,
    and [from_dataset] is passed no seed at all.  [Entropy] is what a run
    finds in the global random generators; both utilities are functions of
    it and of the arguments the datamodule passes them. *)
Class AnomalibDataset (D Ratio : Type) := {
  Entropy : Type;
  ds_setup : D → result D;
  ds_is_setup : D → bool;
  has_normal : D → bool;
  ds_add : D → D → D;
  split_by_label : D → D * D;
  random_split : Entropy → D → Ratio → bool → option Z → D * D;
  from_dataset : Entropy → D → D;
}.

(** The attributes of a datamodule built by a concrete subclass:
    [__init__] stores the configuration, the subclass constructor assigns
    [train_data] and [test_data] (as [Folder3D.__init__] does), and
    [val_data] is only declared until a validation split assigns it. *)
Record AnomalibDataModule (D Ratio : Type) := mkDataModule {
  train_batch_size : Z;
  eval_batch_size : Z;
  num_workers : Z;
  test_split_mode : TestSplitMode.t;
  test_split_ratio : option Ratio;
  val_split_mode : ValSplitMode.t;
  val_split_ratio : Ratio;
  seed : option Z;
  train_data : D;
  val_data : option D;
  test_data : D;
}.
Arguments mkDataModule {D Ratio}.
Arguments train_batch_size {D Ratio}.
Arguments eval_batch_size {D Ratio}.
Arguments num_workers {D Ratio}.
Arguments test_split_mode {D Ratio}.
Arguments test_split_ratio {D Ratio}.
Arguments val_split_mode {D Ratio}.
Arguments val_split_ratio {D Ratio}.
Arguments seed {D Ratio}.
Arguments train_data {D Ratio}.
Arguments val_data {D Ratio}.
Arguments test_data {D Ratio}.

(** The keyword arguments a [DataLoader] is built from; [loader_collate_fn]
    tells whether [collate_fn=collate_fn] is passed. *)
Record DataLoader (D : Type) := mkDataLoader {
  loader_dataset : D;
  loader_shuffle : bool;
  loader_batch_size : Z;
  loader_num_workers : Z;
  loader_collate_fn : bool;
}.
Arguments mkDataLoader {D}.
Arguments loader_dataset {D}.
Arguments loader_shuffle {D}.
Arguments loader_batch_size {D}.
Arguments loader_num_workers {D}.
Arguments loader_collate_fn {D}.

Section datamodule.
Context {D Ratio : Type} `{!AnomalibDataset D Ratio}.
Local Abbreviation datamodule := (AnomalibDataModule D Ratio).

Definition set_train_data (self : datamodule) (d : D) : datamodule :=
  mkDataModule (train_batch_size self) (eval_batch_size self) (num_workers self)
    (test_split_mode self) (test_split_ratio self) (val_split_mode self)
    (val_split_ratio self) (seed self) d (val_data self) (test_data self).

Definition set_val_data (self : datamodule) (d : D) : datamodule :=
  mkDataModule (train_batch_size self) (eval_batch_size self) (num_workers self)
    (test_split_mode self) (test_split_ratio self) (val_split_mode self)
    (val_split_ratio self) (seed self) (train_data self) (Some d) (test_data self).

Definition set_test_data (self : datamodule) (d : D) : datamodule :=
  mkDataModule (train_batch_size self) (eval_batch_size self) (num_workers self)
    (test_split_mode self) (test_split_ratio self) (val_split_mode self)
    (val_split_ratio self) (seed self) (train_data self) (val_data self) d.

(** [__init__] of the base class followed by the subclass's assignment of
    [train_data] and [test_data]. *)
Definition init (train_batch_size eval_batch_size num_workers : Z)
    (val_split_mode : ValSplitMode.t) (val_split_ratio : Ratio)
    (test_split_mode : option TestSplitMode.t) (test_split_ratio : option Ratio)
    (seed : option Z) (train_data test_data : D) : datamodule :=
  mkDataModule train_batch_size eval_batch_size num_workers
    (default TestSplitMode.NONE test_split_mode) test_split_ratio
    val_split_mode val_split_ratio seed train_data None test_data.

(** Lines 129-140 of [_create_test_split]: the first conditional, which
    binds the local [normal_test_data] on some paths only. *)
Definition _create_test_split_sample (ω : Entropy) (self : datamodule)
    : datamodule * option D :=
  if has_normal (test_data self) then
    let '(normal_test_data, test_data) := split_by_label (test_data self) in
    (set_test_data self test_data, Some normal_test_data)
  else if bool_decide (test_split_mode self ≠ TestSplitMode.NONE) then
    match test_split_ratio self with
    | Some test_split_ratio =>
        let '(train_data, normal_test_data) :=
          random_split ω (train_data self) test_split_ratio false (seed self) in
        (set_train_data self train_data, Some normal_test_data)
    | None => (self, None)
    end
  else (self, None).

(** Reading the local [normal_test_data]. *)
Definition local_normal_test_data (normal_test_data : option D) : result D :=
  match normal_test_data with
  | Some d => Ok d
  | None => Raise (UnboundLocalError "normal_test_data")
  end.

(** Lines 142-148 of [_create_test_split]: the second conditional. *)
Definition _create_test_split_assign (ω : Entropy) (self : datamodule)
    (normal_test_data : option D) : result datamodule :=
  if bool_decide (test_split_mode self = TestSplitMode.FROM_DIR) then
    normal_test_data ← local_normal_test_data normal_test_data;
    Ok (set_test_data self (ds_add (test_data self) normal_test_data))
  else if bool_decide (test_split_mode self = TestSplitMode.SYNTHETIC) then
    normal_test_data ← local_normal_test_data normal_test_data;
    Ok (set_test_data self (from_dataset ω normal_test_data))
  else if bool_decide (test_split_mode self ≠ TestSplitMode.NONE) then
    Raise (ValueError ("Unsupported Test Split Mode: " +:+ TestSplitMode.str (test_split_mode self)))
  else Ok self.

Definition _create_test_split (ω : Entropy) (self : datamodule) : result datamodule :=
  let '(self, normal_test_data) := _create_test_split_sample ω self in
  _create_test_split_assign ω self normal_test_data.

Definition _create_val_split (ω : Entropy) (self : datamodule) : result datamodule :=
  if bool_decide (val_split_mode self = ValSplitMode.FROM_TEST) then
    let '(test_data, val_data) :=
      random_split ω (test_data self) (val_split_ratio self) true (seed self) in
    Ok (set_val_data (set_test_data self test_data) val_data)
  else if bool_decide (val_split_mode self = ValSplitMode.SAME_AS_TEST) then
    Ok (set_val_data self (test_data self))
  else if bool_decide (val_split_mode self = ValSplitMode.SYNTHETIC) then
    let '(train_data, normal_val_data) :=
      random_split ω (train_data self) (val_split_ratio self) false (seed self) in
    Ok (set_val_data (set_train_data self train_data) (from_dataset ω normal_val_data))
  else if bool_decide (val_split_mode self ≠ ValSplitMode.NONE) then
    Raise (ValueError ("Unknown validation split mode: " +:+ ValSplitMode.str (val_split_mode self)))
  else Ok self.

(** [_setup]; the two [is not None] assertions hold of every [datamodule]. *)
Definition _setup (ω : Entropy) (self : datamodule) (_stage : option string)
    : result datamodule :=
  train_data ← ds_setup (train_data self);
  let self := set_train_data self train_data in
  test_data ← ds_setup (test_data self);
  let self := set_test_data self test_data in
  self ← _create_test_split ω self;
  _create_val_split ω self.

(** The [is_setup] property: the loop over ("train_data", "val_data",
    "test_data"), [hasattr] being [Some]. *)
Definition is_setup (self : datamodule) : bool :=
  foldl (λ _is_setup data,
           match data with
           | Some data => if ds_is_setup data then true else _is_setup
           | None => _is_setup
           end)
        false [Some (train_data self); val_data self; Some (test_data self)].

(** [setup], over the [_setup] method of the instance ("may be overridden
    in subclass"). *)
Definition setup_with (_setup : datamodule → option string → result datamodule)
    (self : datamodule) (stage : option string) : result datamodule :=
  self ← (if negb (is_setup self) then _setup self stage else Ok self);
  _ ← assert (is_setup self) "";
  Ok self.

Definition setup (ω : Entropy) : datamodule → option string → result datamodule :=
  setup_with (_setup ω).

(** Two datamodules agree when they hold the same datasets and the same
    splitting configuration; batch sizes and worker counts are free. *)
Inductive agree (self1 self2 : datamodule) : Prop :=
  | Agree :
      test_split_mode self1 = test_split_mode self2 →
      test_split_ratio self1 = test_split_ratio self2 →
      val_split_mode self1 = val_split_mode self2 →
      val_split_ratio self1 = val_split_ratio self2 →
      seed self1 = seed self2 →
      train_data self1 = train_data self2 →
      val_data self1 = val_data self2 →
      test_data self1 = test_data self2 →
      agree self1 self2.

(** Two outcomes agree when both raise the same exception or both return
    agreeing datamodules. *)
Inductive outcomes_agree : result datamodule → result datamodule → Prop :=
  | OkAgree self1 self2 : agree self1 self2 → outcomes_agree (Ok self1) (Ok self2)
  | RaiseAgree e : outcomes_agree (Raise e) (Raise e).

(** [torch.utils.data.DataLoader(...)]: the constructor checks the keyword
    arguments it is given and raises on those it refuses (a batch size that
    is not positive, a negative number of workers). *)
Context {Loader : Type}.
Variable new_DataLoader : DataLoader D → result Loader.

(** [self.val_data], an attribute that may not have been assigned. *)
Definition get_val_data (self : datamodule) : result D :=
  match val_data self with
  | Some d => Ok d
  | None => Raise AttributeError
  end.

Definition train_dataloader (self : datamodule) : result Loader :=
  new_DataLoader
    (mkDataLoader (train_data self) true (train_batch_size self) (num_workers self) false).

Definition val_dataloader (self : datamodule) : result Loader :=
  val_data ← get_val_data self;
  new_DataLoader (mkDataLoader val_data false (eval_batch_size self) (num_workers self) true).

Definition test_dataloader (self : datamodule) : result Loader :=
  new_DataLoader
    (mkDataLoader (test_data self) false (eval_batch_size self) (num_workers self) true).

Definition predict_dataloader (self : datamodule) : result Loader :=
  test_dataloader self.
End datamodule.

End DataModule.


(** * folder_3d.py *)

Module DirType.
(** Modelled from the spec: the enum [anomalib.data.utils.DirType] is
    declared outside the files at hand; these are the members
    [make_folder3d_dataset] names. *)
Inductive t :=
  | NORMAL
  | ABNORMAL
  | NORMAL_TEST
  | NORMAL_DEPTH
  | ABNORMAL_DEPTH
  | NORMAL_TEST_DEPTH
  | MASK.

#[global] Instance eq_dec : EqDecision t.
Proof. solve_decision. Defined.
End DirType.

Module LabelName.
(** Modelled from the spec: [anomalib.data.utils.LabelName], "normal (0)
    and abnormal (1)". *)
Inductive t :=
  | NORMAL
  | ABNORMAL.

#[global] Instance eq_dec : EqDecision t.
Proof. solve_decision. Defined.

Definition value (l : t) : Z :=
  match l with
  | NORMAL => 0
  | ABNORMAL => 1
  end.
End LabelName.

Module Split.
(** Modelled from the spec: [anomalib.data.utils.Split], the string-valued
    enum of the "train/validation/test splits"; a member compares equal to
    its string value, which is why [split: str | Split | None] may be
    either. *)
Inductive t :=
  | TRAIN
  | VAL
  | TEST.

#[global] Instance eq_dec : EqDecision t.
Proof. solve_decision. Defined.

Definition value (s : t) : string :=
  match s with
  | TRAIN => "train"
  | VAL => "val"
  | TEST => "test"
  end.
End Split.

Module Folder3D.

(** A directory argument, [str | Path]. *)
Inductive path_arg (Path : Type) :=
  | Str (s : string)
  | PathObj (p : Path).
Arguments Str {Path} s.
Arguments PathObj {Path} p.

(** The [split] argument, [str | Split]. *)
Inductive split_arg :=
  | SplitMember (s : Split.t)
  | SplitStr (s : string).

(** Truth value of an optional argument: [None] and the empty string are
    false, every [Path] and every enum member is true. *)
Definition path_arg_truthy {Path : Type} (a : option (path_arg Path)) : bool :=
  match a with
  | None => false
  | Some (Str s) => negb (String.eqb s "")
  | Some (PathObj _) => true
  end.

Definition split_arg_truthy (a : option split_arg) : bool :=
  match a with
  | None => false
  | Some (SplitStr s) => negb (String.eqb s "")
  | Some (SplitMember _) => true
  end.

(** [cell == split] for a cell of the "split" column. *)
Definition split_eqb (cell : option Split.t) (split : split_arg) : bool :=
  match cell, split with
  | Some s, SplitMember s' => bool_decide (s = s')
  | Some s, SplitStr str => String.eqb (Split.value s) str
  | None, _ => false
  end.

(** A row of [samples] while the table is being assembled; [None] is a
    missing cell (NaN / <NA>). *)
Record row (Path : Type) := mkRow {
  r_image_path : Path;
  r_label : DirType.t;
  r_label_index : option LabelName.t;
  r_depth_path : option Path;
  r_mask_path : option Path;
}.
Arguments mkRow {Path}.
Arguments r_image_path {Path}.
Arguments r_label {Path}.
Arguments r_label_index {Path}.
Arguments r_depth_path {Path}.
Arguments r_mask_path {Path}.

(** A row of the returned table.  [depth_path] is [None] when the table
    has no such column. *)
Record sample := mkSample {
  image_path : string;
  label : DirType.t;
  label_index : option LabelName.t;
  depth_path : option string;
  mask_path : string;
  split : option Split.t;
}.

Section make_folder3d_dataset.
Context {Path : Type}.
(** [anomalib.data.utils.path]: both helpers validate what they are given
    and raise on what they refuse ([validate_and_resolve_path] on a path
    that does not exist, [_prepare_files_labels] on a directory without
    images). *)
Variable validate_and_resolve_path : path_arg Path → option (path_arg Path) → result Path.
Variable _prepare_files_labels :
  Path → DirType.t → option (list string) → result (list Path * list DirType.t).
(** [pathlib]: the file system, the order of paths, [str(p)], [Path(s)] and
    [Path(a).stem in Path(b).stem] *)
Variable is_dir : Path → bool.
Variable path_exists : Path → bool.
Variable path_leb : Path → Path → bool.
Variable path_str : Path → string.
Variable path_of_str : string → Path.
Variable stem_in : Path → Path → bool.
(** [samples.loc[mask, column] = values] writes the values to the selected
    rows by position when there are as many values as selected rows.
    Otherwise pandas raises or broadcasts, depending on the column and on
    the number of values; [setitem_mismatch selected values] is the list it
    writes, or the exception. *)
Variable setitem_mismatch : nat → list Path → result (list Path).

Local Abbreviation row := (row Path).

(** Lines 72-77: [validate_and_resolve_path(d, root) if d else None] *)
Definition resolve_optional (d root : option (path_arg Path)) : result (option Path) :=
  match d with
  | Some d' =>
      if path_arg_truthy d then Some <$> validate_and_resolve_path d' root else Ok None
  | None => Ok None
  end.

(** The seven directories as lines 71-77 rebind them. *)
Record resolved_dirs := mkDirs {
  d_normal : Path;
  d_abnormal : option Path;
  d_normal_test : option Path;
  d_mask : option Path;
  d_normal_depth : option Path;
  d_abnormal_depth : option Path;
  d_normal_test_depth : option Path;
}.

(** Lines 71-77, in the order of the source. *)
Definition resolve_dirs (normal_dir : path_arg Path)
    (root abnormal_dir normal_test_dir mask_dir normal_depth_dir abnormal_depth_dir
       normal_test_depth_dir : option (path_arg Path)) : result resolved_dirs :=
  normal_dir ← validate_and_resolve_path normal_dir root;
  abnormal_dir ← resolve_optional abnormal_dir root;
  normal_test_dir ← resolve_optional normal_test_dir root;
  mask_dir ← resolve_optional mask_dir root;
  normal_depth_dir ← resolve_optional normal_depth_dir root;
  abnormal_depth_dir ← resolve_optional abnormal_depth_dir root;
  normal_test_depth_dir ← resolve_optional normal_test_depth_dir root;
  Ok (mkDirs normal_dir abnormal_dir normal_test_dir mask_dir normal_depth_dir
        abnormal_depth_dir normal_test_depth_dir).

(** Lines 83-101: the [dirs] dictionary, in insertion order. *)
Definition dir_entry (dir_type : DirType.t) (path : option Path) : list (DirType.t * Path) :=
  match path with
  | Some path => [(dir_type, path)]
  | None => []
  end.

Definition collect_dirs (normal_dir : Path)
    (abnormal_dir normal_test_dir normal_depth_dir abnormal_depth_dir
       normal_test_depth_dir mask_dir : option Path) : list (DirType.t * Path) :=
  [(DirType.NORMAL, normal_dir)]
  ++ dir_entry DirType.ABNORMAL abnormal_dir
  ++ dir_entry DirType.NORMAL_TEST normal_test_dir
  ++ dir_entry DirType.NORMAL_DEPTH normal_depth_dir
  ++ dir_entry DirType.ABNORMAL_DEPTH abnormal_depth_dir
  ++ dir_entry DirType.NORMAL_TEST_DEPTH normal_test_depth_dir
  ++ dir_entry DirType.MASK mask_dir.

(** Lines 103-106: the loop stops at the first directory that
    [_prepare_files_labels] refuses. *)
Definition collect_files (dirs : list (DirType.t * Path)) (extensions : option (list string))
    : result (list Path * list DirType.t) :=
  foldl (λ listing '(dir_type, path),
           '(filenames, labels) ← listing;
           '(filename, label) ← _prepare_files_labels path dir_type extensions;
           Ok (filenames ++ filename, labels ++ label))
        (Ok ([], [])) dirs.

(** Lines 79-106: the assertion on [normal_dir], then the listing. *)
Definition list_files (dirs : resolved_dirs) (extensions : option (list string))
    : result (list Path * list DirType.t) :=
  _ ← assert (is_dir (d_normal dirs)) "A folder location must be provided in normal_dir.";
  collect_files
    (collect_dirs (d_normal dirs) (d_abnormal dirs) (d_normal_test dirs) (d_normal_depth dirs)
       (d_abnormal_depth dirs) (d_normal_test_depth dirs) (d_mask dirs))
    extensions.

(** Line 108: [DataFrame({"image_path": filenames, "label": labels})] *)
Definition DataFrame (filenames : list Path) (labels : list DirType.t) : result (list row) :=
  if bool_decide (length filenames = length labels) then
    Ok (zip_with (λ f l, mkRow f l None None None) filenames labels)
  else Raise (ValueError "All arrays must be of the same length").

(** Line 109: [sort_values(by="image_path", ignore_index=True)]; the index
    of a row is its position from here on. *)
Fixpoint insert_by_path (r : row) (rows : list row) : list row :=
  match rows with
  | [] => [r]
  | r' :: rows' =>
      if path_leb (r_image_path r) (r_image_path r') then r :: rows
      else r' :: insert_by_path r rows'
  end.

Definition sort_values (rows : list row) : list row :=
  foldr insert_by_path [] rows.

(** Lines 112-117 *)
Definition set_label_index (r : row) : row :=
  let r :=
    if bool_decide (r_label r = DirType.NORMAL) || bool_decide (r_label r = DirType.NORMAL_TEST)
    then mkRow (r_image_path r) (r_label r) (Some LabelName.NORMAL) (r_depth_path r) (r_mask_path r)
    else r in
  if bool_decide (r_label r = DirType.ABNORMAL)
  then mkRow (r_image_path r) (r_label r) (Some LabelName.ABNORMAL) (r_depth_path r) (r_mask_path r)
  else r.

Definition has_label (l : DirType.t) (r : row) : bool := bool_decide (r_label r = l).

(** The label index that lines 112-116 give a row of label [l]. *)
Definition label_index_of (l : DirType.t) : option LabelName.t :=
  match l with
  | DirType.NORMAL | DirType.NORMAL_TEST => Some LabelName.NORMAL
  | DirType.ABNORMAL => Some LabelName.ABNORMAL
  | _ => None
  end.

(** A row carries the label index of its label. *)
Definition indexed (r : row) : Prop := r_label_index r = label_index_of (r_label r).

Definition set_depth_path (r : row) (p : Path) : row :=
  mkRow (r_image_path r) (r_label r) (r_label_index r) (Some p) (r_mask_path r).

Definition set_mask_path (r : row) (p : Path) : row :=
  mkRow (r_image_path r) (r_label r) (r_label_index r) (r_depth_path r) (Some p).

(** [samples.loc[samples.label == l].image_path.to_numpy()] *)
Definition image_paths_of (l : DirType.t) (rows : list row) : list Path :=
  r_image_path <$> List.filter (has_label l) rows.

Fixpoint assign_by_position (sel : row → bool) (set : row → Path → row)
    (rows : list row) (values : list Path) : list row :=
  match rows with
  | [] => []
  | r :: rows' =>
      if sel r then
        match values with
        | v :: values' => set r v :: assign_by_position sel set rows' values'
        | [] => r :: assign_by_position sel set rows' []
        end
      else r :: assign_by_position sel set rows' values
  end.

(** [samples.loc[sel, column] = values] *)
Definition loc_setitem (sel : row → bool) (set : row → Path → row)
    (rows : list row) (values : list Path) : result (list row) :=
  let selected := length (List.filter sel rows) in
  if bool_decide (selected = length values) then
    Ok (assign_by_position sel set rows values)
  else
    values ← setitem_mismatch selected values;
    Ok (assign_by_position sel set rows values).

(** Lines 134-140: the stems of anomalous images against their depth images *)
Definition depth_stem_matches (r : row) : result bool :=
  match r_depth_path r with
  | Some depth => Ok (stem_in (r_image_path r) depth)
  | None => Raise TypeError
  end.

Fixpoint all_rows (check : row → result bool) (rows : list row) : result bool :=
  match rows with
  | [] => Ok true
  | r :: rows' => b ← check r; bs ← all_rows check rows'; Ok (b && bs)
  end.

(** Lines 142-144 *)
Definition depth_path_exists (r : row) : bool :=
  match r_depth_path r with
  | Some depth => path_exists depth
  | None => true
  end.

(** Lines 134-136: [samples.loc[...].apply(..., axis=1).all()].  On a
    selection without rows [apply] returns the empty frame, whose [.all()]
    is a Series with an entry per column, and the truth value that [assert]
    asks of it is a [ValueError]. *)
Definition stems_match (anomalous : list row) : result bool :=
  match anomalous with
  | [] => Raise (ValueError "The truth value of a Series is ambiguous. Use a.empty, a.bool(), a.item(), a.any() or a.all().")
  | _ => all_rows depth_stem_matches anomalous
  end.

(** Lines 133-144: the two assertions on the depth paths *)
Definition check_depth_paths (samples : list row) : result unit :=
  matches ← stems_match
              (List.filter (λ r, bool_decide (r_label_index r = Some LabelName.ABNORMAL)) samples);
  _ ← assert matches
        "Mismatch between anomalous images and depth images. Make sure the mask files in 'xyz'             folder follow the same naming convention as the anomalous images in the dataset             (e.g. image: '000.png', depth: '000.tiff').";
  assert (forallb depth_path_exists samples) "missing depth image files".

(** Lines 121-131: the depth paths are written to the image rows. *)
Definition assign_depth_paths (normal_test_dir : option Path) (samples : list row)
    : result (list row) :=
  samples ← loc_setitem (has_label DirType.NORMAL) set_depth_path samples
               (image_paths_of DirType.NORMAL_DEPTH samples);
  samples ← loc_setitem (has_label DirType.ABNORMAL) set_depth_path samples
               (image_paths_of DirType.ABNORMAL_DEPTH samples);
  if bool_decide (is_Some normal_test_dir) then
    loc_setitem (has_label DirType.NORMAL_TEST) set_depth_path samples
      (image_paths_of DirType.NORMAL_TEST_DEPTH samples)
  else Ok samples.

(** Lines 120-146: the body of [if normal_depth_dir:] *)
Definition add_depth_paths (normal_test_dir : option Path) (samples : list row)
    : result (list row) :=
  samples ← assign_depth_paths normal_test_dir samples;
  _ ← check_depth_paths samples;
  Ok samples.

(** Lines 153-154: [fillna("")] and [astype(str)] of a "mask_path" cell *)
Definition mask_path_str (r : row) : string :=
  match r_mask_path r with
  | Some mask => path_str mask
  | None => ""
  end.

(** Lines 157-159 *)
Definition mask_path_exists (x : string) : bool :=
  if negb (String.eqb x "") then path_exists (path_of_str x) else true.

(** Lines 156-159: the assertion on the mask paths *)
Definition check_mask_paths (mask_dir : Path) (samples : list row) : result unit :=
  assert (forallb (λ r, mask_path_exists (mask_path_str r)) samples)
    ("missing mask files, mask_dir=" +:+ path_str mask_dir).

(** Lines 150-152: the mask paths are written to the anomalous rows. *)
Definition assign_mask_paths (samples : list row) : result (list row) :=
  loc_setitem (has_label DirType.ABNORMAL) set_mask_path samples
    (image_paths_of DirType.MASK samples).

(** Lines 150-159: the body of [if mask_dir and abnormal_dir:] *)
Definition add_mask_paths (mask_dir : Path) (samples : list row) : result (list row) :=
  samples ← assign_mask_paths samples;
  _ ← check_mask_paths mask_dir samples;
  Ok samples.

(** Lines 164-166 *)
Definition is_image_row (r : row) : bool :=
  has_label DirType.NORMAL r || has_label DirType.ABNORMAL r || has_label DirType.NORMAL_TEST r.

(** Lines 175-176 *)
Definition split_of_label (l : DirType.t) : option Split.t :=
  let split := if bool_decide (l = DirType.NORMAL) then Some Split.TRAIN else None in
  if bool_decide (l = DirType.ABNORMAL) || bool_decide (l = DirType.NORMAL_TEST)
  then Some Split.TEST else split.

(** The returned form of a row: the [astype(str)] conversions of lines
    146, 154 and 170 (a missing depth cell reads "nan"), line 161 for
    tables without masks, and the "split" column. *)
Definition to_sample (has_depth has_mask : bool) (r : row) : sample :=
  mkSample
    (path_str (r_image_path r))
    (r_label r)
    (r_label_index r)
    (if has_depth then
       Some match r_depth_path r with
            | Some depth => path_str depth
            | None => "nan"
            end
     else None)
    (if has_mask then mask_path_str r else "")
    (split_of_label (r_label r)).

(** Lines 179-181: [samples[samples.split == split].reset_index(drop=True)]
    under [if split:] *)
Definition select_split (wanted : option split_arg) (samples : list (nat * sample))
    : list (nat * sample) :=
  match wanted with
  | Some wanted' =>
      if split_arg_truthy wanted then
        let samples := List.filter (λ s, split_eqb (split s.2) wanted') samples in
        zip (seq 0 (length samples)) samples.*2
      else samples
  | None => samples
  end.

(** Lines 71-117: the directories, the listing and the sorted table with
    its label index. *)
Definition labelled_table (normal_dir : path_arg Path)
    (root abnormal_dir normal_test_dir mask_dir normal_depth_dir abnormal_depth_dir
       normal_test_depth_dir : option (path_arg Path))
    (extensions : option (list string)) : result (resolved_dirs * list row) :=
  dirs ← resolve_dirs normal_dir root abnormal_dir normal_test_dir mask_dir
            normal_depth_dir abnormal_depth_dir normal_test_depth_dir;
  '(filenames, labels) ← list_files dirs extensions;
  samples ← DataFrame filenames labels;
  let samples := sort_values samples in
  Ok (dirs, set_label_index <$> samples).

(** Lines 119-146: the depth paths, when [normal_depth_dir] is given. *)
Definition depth_stage (dirs : resolved_dirs) (samples : list row) : result (list row) :=
  if bool_decide (is_Some (d_normal_depth dirs))
  then add_depth_paths (d_normal_test dirs) samples
  else Ok samples.

(** Lines 148-161: the mask paths, when [mask_dir] and [abnormal_dir] are
    given. *)
Definition mask_stage (dirs : resolved_dirs) (samples : list row) : result (list row) :=
  match d_mask dirs, d_abnormal dirs with
  | Some mask_dir, Some _ => add_mask_paths mask_dir samples
  | _, _ => Ok samples
  end.

(** The table as it stands after line 176, before the split is selected;
    rows are paired with their index. *)
Definition all_samples (normal_dir : path_arg Path)
    (root abnormal_dir normal_test_dir mask_dir normal_depth_dir abnormal_depth_dir
       normal_test_depth_dir : option (path_arg Path))
    (extensions : option (list string)) : result (list (nat * sample)) :=
  '(dirs, samples) ← labelled_table normal_dir root abnormal_dir normal_test_dir mask_dir
                       normal_depth_dir abnormal_depth_dir normal_test_depth_dir extensions;
  samples ← depth_stage dirs samples;
  samples ← mask_stage dirs samples;
  let has_depth := bool_decide (is_Some (d_normal_depth dirs)) in
  let has_mask :=
    bool_decide (is_Some (d_mask dirs)) && bool_decide (is_Some (d_abnormal dirs)) in
  let samples := List.filter (λ s, is_image_row s.2) (zip (seq 0 (length samples)) samples) in
  Ok (prod_map id (to_sample has_depth has_mask) <$> samples).

Definition make_folder3d_dataset (normal_dir : path_arg Path)
    (root abnormal_dir normal_test_dir mask_dir normal_depth_dir abnormal_depth_dir
       normal_test_depth_dir : option (path_arg Path))
    (split : option split_arg) (extensions : option (list string))
    : result (list (nat * sample)) :=
  samples ← all_samples normal_dir root abnormal_dir normal_test_dir mask_dir
               normal_depth_dir abnormal_depth_dir normal_test_depth_dir extensions;
  Ok (select_split split samples).
(** ** [Folder3DDataset] and [Folder3D] *)

Context {Task Transform : Type}.

(** The attributes [Folder3DDataset.__init__] stores, and the [samples]
    table that [_setup] assigns. *)
Record Folder3DDataset := mkFolder3DDataset {
  fd_task : Task;
  fd_transform : Transform;
  fd_split : option split_arg;
  fd_root : option (path_arg Path);
  fd_normal_dir : path_arg Path;
  fd_abnormal_dir : option (path_arg Path);
  fd_normal_test_dir : option (path_arg Path);
  fd_mask_dir : option (path_arg Path);
  fd_normal_depth_dir : option (path_arg Path);
  fd_abnormal_depth_dir : option (path_arg Path);
  fd_normal_test_depth_dir : option (path_arg Path);
  fd_extensions : option (list string);
  fd_samples : option (list (nat * sample));
}.

Definition Folder3DDataset_init (task : Task) (transform : Transform)
    (normal_dir : path_arg Path)
    (root abnormal_dir normal_test_dir mask_dir normal_depth_dir abnormal_depth_dir
       normal_test_depth_dir : option (path_arg Path))
    (split : option split_arg) (extensions : option (list string)) : Folder3DDataset :=
  mkFolder3DDataset task transform split root normal_dir abnormal_dir normal_test_dir
    mask_dir normal_depth_dir abnormal_depth_dir normal_test_depth_dir extensions None.

(** [Folder3DDataset._setup] *)
Definition Folder3DDataset_setup (self : Folder3DDataset) : result Folder3DDataset :=
  samples ← make_folder3d_dataset (fd_normal_dir self) (fd_root self) (fd_abnormal_dir self)
               (fd_normal_test_dir self) (fd_mask_dir self) (fd_normal_depth_dir self)
               (fd_abnormal_depth_dir self) (fd_normal_test_depth_dir self)
               (fd_split self) (fd_extensions self);
  Ok (mkFolder3DDataset (fd_task self) (fd_transform self) (fd_split self) (fd_root self)
        (fd_normal_dir self) (fd_abnormal_dir self) (fd_normal_test_dir self)
        (fd_mask_dir self) (fd_normal_depth_dir self) (fd_abnormal_depth_dir self)
        (fd_normal_test_depth_dir self) (fd_extensions self) (Some samples)).

Context {TaskArg NormArg Norm Config ImageSize Ratio : Type}.
(** The enum conversions [TaskType(task)] and
    [InputNormalizationMethod(normalization)], which raise on a value that
    names no member, and [anomalib.data.utils.get_transforms]. *)
Variable TaskType : TaskArg → result Task.
Variable InputNormalizationMethod : NormArg → result Norm.
Variable get_transforms : option Config → ImageSize → option ImageSize → Norm → Transform.

(** [Folder3D.__init__]: the base-class constructor, then the two datasets,
    which differ in their transform and in their split only. *)
Definition Folder3D_init (normal_dir : path_arg Path)
    (root abnormal_dir normal_test_dir mask_dir normal_depth_dir abnormal_depth_dir
       normal_test_depth_dir : option (path_arg Path))
    (extensions : option (list string))
    (image_size : ImageSize) (center_crop : option ImageSize) (normalization : NormArg)
    (train_batch_size eval_batch_size num_workers : Z) (task : TaskArg)
    (transform_config_train transform_config_eval : option Config)
    (test_split_mode : option TestSplitMode.t) (test_split_ratio : Ratio)
    (val_split_mode : ValSplitMode.t) (val_split_ratio : Ratio) (seed : option Z)
    : result (DataModule.AnomalibDataModule Folder3DDataset Ratio) :=
  task ← TaskType task;
  normalization_train ← InputNormalizationMethod normalization;
  let transform_train :=
    get_transforms transform_config_train image_size center_crop normalization_train in
  normalization_eval ← InputNormalizationMethod normalization;
  let transform_eval :=
    get_transforms transform_config_eval image_size center_crop normalization_eval in
  let train_data :=
    Folder3DDataset_init task transform_train normal_dir root abnormal_dir normal_test_dir
      mask_dir normal_depth_dir abnormal_depth_dir normal_test_depth_dir
      (Some (SplitMember Split.TRAIN)) extensions in
  let test_data :=
    Folder3DDataset_init task transform_eval normal_dir root abnormal_dir normal_test_dir
      mask_dir normal_depth_dir abnormal_depth_dir normal_test_depth_dir
      (Some (SplitMember Split.TEST)) extensions in
  Ok (DataModule.init train_batch_size eval_batch_size num_workers val_split_mode
        val_split_ratio test_split_mode (Some test_split_ratio) seed train_data test_data).
End make_folder3d_dataset.

End Folder3D.


(** * Executable stand-ins for the collaborators

    Small concrete instances of the section variables above, used to run
    the definitions on examples. *)

Module Examples.

(** ** Inference *)

Inductive any :=
  | ANum (z : Z)
  | AShape (dims : list nat)
  | AMap (pixels : list Z).

Definition ndarray : Type := list (list Z).

Definition shape (arr : ndarray) : list nat :=
  [length arr; length (default [] (head arr)); 3%nat].

Definition read_image (path : string) : ndarray :=
  if String.eqb path "good.png" then [[0; 1]; [1; 0]]%Z else [[9; 9]; [9; 9]; [9; 9]]%Z.

Definition sum_list (xs : list Z) : Z := foldr Z.add 0%Z xs.

(** A toy model: the anomaly map is the pre-processed image, the score its
    sum; the post-processing reports the shape it was given as the boxes. *)
#[global] Instance toy_inferencer : BaseInferencer.Inferencer unit ndarray (list Z) any := {|
  BaseInferencer.pre_process _ arr := concat arr;
  BaseInferencer.forward _ t := (λ x, 2 * x)%Z <$> t;
  BaseInferencer.post_process _ t md :=
    {[ "pred_score" := ANum (sum_list t);
       "pred_label" := ANum (if bool_decide (4 < sum_list t)%Z then 1 else 0);
       "anomaly_map" := AMap t;
       "pred_mask" := AMap ((λ x, if bool_decide (1 < x)%Z then 1 else 0)%Z <$> t);
       "pred_boxes" := default (AShape []) (md !! "image_shape");
       "box_labels" := AMap [] ]};
  BaseInferencer.metadata_attr _ := None;
|}.

(** A model whose post-processing forgets the anomaly map and the boxes. *)
Definition incomplete_inferencer : BaseInferencer.Inferencer unit ndarray (list Z) any := {|
  BaseInferencer.pre_process _ arr := concat arr;
  BaseInferencer.forward _ t := t;
  BaseInferencer.post_process _ t md :=
    {[ "pred_score" := ANum (sum_list t);
       "pred_label" := ANum 0;
       "pred_mask" := AMap t ]};
  BaseInferencer.metadata_attr _ := None;
|}.

(** Min-max normalisation in hundredths: [(t - threshold) / (max - min) + 0.5],
    clipped to [0, 1]. *)
Definition normalize_min_max (targets threshold min_val max_val : Z) : Z :=
  Z.min 100 (Z.max 0 ((targets - threshold) * 100 / (max_val - min_val) + 50)).

(** ** Collation *)

Definition default_collate (h : gmap DataModule.loc (gmap string (DataModule.pyval Z)))
    (vals : list (DataModule.pyval Z)) : DataModule.pyval Z :=
  DataModule.VList vals.

(** ** Datasets *)

Record dataset := mkDataset {
  is_set_up : bool;
  samples : list (string * LabelName.t);
}.

Definition is_normal (s : string * LabelName.t) : bool :=
  bool_decide (s.2 = LabelName.NORMAL).

(** A split at [ratio] percent of the samples, after a rotation by the
    seed or, when there is none, by a number drawn from the generator. *)
Definition rotate {A : Type} (n : nat) (xs : list A) : list A :=
  drop (n `mod` length xs) xs ++ take (n `mod` length xs) xs.

Definition split_at_ratio (drawn : nat) (d : dataset) (ratio : nat) (seed : option Z)
    : dataset * dataset :=
  let xs := rotate (match seed with
                    | Some seed => Z.to_nat seed
                    | None => drawn
                    end) (samples d) in
  let k := (length xs * ratio / 100)%nat in
  (mkDataset (is_set_up d) (drop k xs), mkDataset (is_set_up d) (take k xs)).

(** The directory the synthetic images are written to, named at random. *)
Definition synthetic_root (drawn : nat) : string :=
  ".tmp/synthetic_anomaly/" +:+ String (ascii_of_nat (97 + drawn `mod` 26)) "/".

#[global] Instance toy_dataset : DataModule.AnomalibDataset dataset nat := {|
  DataModule.Entropy := nat;
  DataModule.ds_setup d :=
    if bool_decide (samples d = []) then Raise (AssertionError "no images")
    else Ok (mkDataset true (samples d));
  DataModule.ds_is_setup := is_set_up;
  DataModule.has_normal d := existsb is_normal (samples d);
  DataModule.ds_add d1 d2 := mkDataset (is_set_up d1) (samples d1 ++ samples d2);
  DataModule.split_by_label d :=
    (mkDataset (is_set_up d) (List.filter is_normal (samples d)),
     mkDataset (is_set_up d) (List.filter (λ s, negb (is_normal s)) (samples d)));
  DataModule.random_split drawn d ratio label_aware seed := split_at_ratio drawn d ratio seed;
  DataModule.from_dataset drawn d :=
    mkDataset (is_set_up d)
      ((λ s, (synthetic_root drawn +:+ s.1, LabelName.ABNORMAL)) <$> samples d);
|}.

(** What two runs find in the random generators. *)
Definition run1 : DataModule.Entropy (AnomalibDataset := toy_dataset) := 1%nat.
Definition run2 : DataModule.Entropy (AnomalibDataset := toy_dataset) := 2%nat.

(** A [DataLoader] constructor that keeps the keyword arguments it accepts. *)
Definition new_DataLoader (args : DataModule.DataLoader dataset)
    : result (DataModule.DataLoader dataset) :=
  if bool_decide (DataModule.loader_num_workers args < 0)%Z then
    Raise (ValueError "num_workers option should be non-negative")
  else if bool_decide (DataModule.loader_batch_size args ≤ 0)%Z then
    Raise (ValueError "batch_size should be a positive integer value")
  else Ok args.

Definition train_set : dataset :=
  mkDataset false [("n0", LabelName.NORMAL); ("n1", LabelName.NORMAL);
                   ("n2", LabelName.NORMAL); ("n3", LabelName.NORMAL)].

Definition test_set : dataset :=
  mkDataset false [("t0", LabelName.NORMAL); ("a0", LabelName.ABNORMAL);
                   ("t1", LabelName.NORMAL); ("a1", LabelName.ABNORMAL)].

(** ** A file system for the folder dataset; paths are strings. *)

Definition tree : list (string * list string) :=
  [ ("data/normal", ["data/normal/000.png"; "data/normal/001.png"]);
    ("data/abnormal", ["data/abnormal/000.png"]);
    ("data/normal_test", ["data/normal_test/000.png"]);
    ("data/mask", ["data/mask/000.png"]);
    ("data/depth/normal", ["data/depth/normal/000.tiff"; "data/depth/normal/001.tiff"]);
    ("data/depth/abnormal", ["data/depth/abnormal/000.tiff"]);
    ("data/depth/normal_test", ["data/depth/normal_test/000.tiff"]) ].

Definition listdir (tree : list (string * list string)) (dir : string) : list string :=
  default [] (snd <$> List.find (λ e, String.eqb e.1 dir) tree).

Definition path_arg_str (d : Folder3D.path_arg string) : string :=
  match d with
  | Folder3D.Str s => s
  | Folder3D.PathObj p => p
  end.

Definition is_dir (tree : list (string * list string)) (p : string) : bool :=
  existsb (λ e, String.eqb e.1 p) tree.

Definition path_exists (tree : list (string * list string)) (p : string) : bool :=
  is_dir tree p || existsb (λ e, existsb (String.eqb p) e.2) tree.

(** The folder joined to the root; a path that does not exist is refused. *)
Definition validate_and_resolve_path (tree : list (string * list string))
    (folder : Folder3D.path_arg string) (root : option (Folder3D.path_arg string))
    : result string :=
  let path := match root with
              | Some root => path_arg_str root +:+ "/" +:+ path_arg_str folder
              | None => path_arg_str folder
              end in
  if path_exists tree path then Ok path
  else Raise (FileNotFoundError ("Folder does not exist: " +:+ path)).

(** The files of the directory, all with its label; a directory without
    files is refused. *)
Definition _prepare_files_labels (tree : list (string * list string))
    (path : string) (dir_type : DirType.t) (extensions : option (list string))
    : result (list string * list DirType.t) :=
  match listdir tree path with
  | [] => Raise (RuntimeError ("Found 0 images in " +:+ path))
  | files => Ok (files, replicate (length files) dir_type)
  end.

(** A file system in which the listed [dangling] paths are links to files
    that are gone: directory listings show them, [exists()] is false. *)
Definition path_exists_but (dangling : list string) (tree : list (string * list string))
    (p : string) : bool :=
  path_exists tree p && negb (existsb (String.eqb p) dangling).

Fixpoint after_last (c : ascii) (s acc : string) : string :=
  match s with
  | EmptyString => acc
  | String c' s' => if Ascii.eqb c c' then after_last c s' s' else after_last c s' acc
  end.

Fixpoint has_char (c : ascii) (s : string) : bool :=
  match s with
  | EmptyString => false
  | String c' s' => Ascii.eqb c c' || has_char c s'
  end.

Fixpoint before_last (c : ascii) (s : string) : string :=
  match s with
  | EmptyString => EmptyString
  | String c' s' =>
      if Ascii.eqb c c' && negb (has_char c s') then EmptyString
      else String c' (before_last c s')
  end.

Definition stem (p : string) : string := before_last "."%char (after_last "/"%char p p).

Fixpoint is_substring (a b : string) : bool :=
  String.prefix a b ||
  match b with
  | EmptyString => false
  | String _ b' => is_substring a b'
  end.

Definition stem_in (a b : string) : bool := is_substring (stem a) (stem b).

Definition setitem_mismatch (selected : nat) (values : list string) : result (list string) :=
  Raise (ValueError "Must have equal len keys and value when setting with an iterable").

(** [make_folder3d_dataset] over a given tree. *)
Definition make_folder3d_dataset (tree : list (string * list string)) :=
  Folder3D.make_folder3d_dataset (validate_and_resolve_path tree) (_prepare_files_labels tree)
    (is_dir tree) (path_exists tree) String.leb id id stem_in setitem_mismatch.

(** The same over a tree with dangling links. *)
Definition make_folder3d_dataset_but (dangling : list string)
    (tree : list (string * list string)) :=
  Folder3D.make_folder3d_dataset (validate_and_resolve_path tree) (_prepare_files_labels tree)
    (is_dir tree) (path_exists_but dangling tree) String.leb id id stem_in setitem_mismatch.

(** The whole tree, every directory given relative to the root "data". *)
Definition load_tree (split : option Folder3D.split_arg) :=
  make_folder3d_dataset tree (Folder3D.Str "normal") (Some (Folder3D.Str "data"))
    (Some (Folder3D.Str "abnormal")) (Some (Folder3D.Str "normal_test"))
    (Some (Folder3D.Str "mask")) (Some (Folder3D.Str "depth/normal"))
    (Some (Folder3D.Str "depth/abnormal")) (Some (Folder3D.Str "depth/normal_test"))
    split None.

(** The images only, without depth maps and masks. *)
Definition load_images (split : option Folder3D.split_arg) :=
  make_folder3d_dataset tree (Folder3D.Str "normal") (Some (Folder3D.Str "data"))
    (Some (Folder3D.Str "abnormal")) None None None None None split None.

Definition abnormal_000 : Folder3D.sample :=
  Folder3D.mkSample "data/abnormal/000.png" DirType.ABNORMAL (Some LabelName.ABNORMAL)
    (Some "data/depth/abnormal/000.tiff") "data/mask/000.png" (Some Split.TEST).

Definition normal_test_000 : Folder3D.sample :=
  Folder3D.mkSample "data/normal_test/000.png" DirType.NORMAL_TEST (Some LabelName.NORMAL)
    (Some "data/depth/normal_test/000.tiff") "" (Some Split.TEST).

Definition normal_000 : Folder3D.sample :=
  Folder3D.mkSample "data/normal/000.png" DirType.NORMAL (Some LabelName.NORMAL)
    (Some "data/depth/normal/000.tiff") "" (Some Split.TRAIN).

Definition normal_001 : Folder3D.sample :=
  Folder3D.mkSample "data/normal/001.png" DirType.NORMAL (Some LabelName.NORMAL)
    (Some "data/depth/normal/001.tiff") "" (Some Split.TRAIN).

(** The table that [load_tree] returns without a split. *)
Definition tree_table : list (nat * Folder3D.sample) :=
  [(0, abnormal_000); (6, normal_000); (7, normal_001); (8, normal_test_000)]%nat.

(** [Folder3D.__init__] over the whole tree; tasks and normalisation methods
    are their names, transforms are trivial. *)
Definition folder3d_datamodule :=
  Folder3D.Folder3D_init (Path := string) (Task := string) (Transform := unit)
    (Config := string)
    (ImageSize := nat * nat) (Ratio := nat)
    (λ task : string, Ok task) (λ normalization : string, Ok normalization)
    (λ _ _ _ (_ : string), tt)
    (Folder3D.Str "normal") (Some (Folder3D.Str "data"))
    (Some (Folder3D.Str "abnormal")) (Some (Folder3D.Str "normal_test"))
    (Some (Folder3D.Str "mask")) (Some (Folder3D.Str "depth/normal"))
    (Some (Folder3D.Str "depth/abnormal")) (Some (Folder3D.Str "depth/normal_test"))
    None (256, 256)%nat None "imagenet" 32 32 8 "segmentation" None None
    (Some TestSplitMode.FROM_DIR) 20%nat ValSplitMode.FROM_TEST 50%nat None.

(** [Folder3DDataset._setup] over the tree. *)
Definition folder3d_dataset_setup :=
  Folder3D.Folder3DDataset_setup (Task := string) (Transform := unit)
    (validate_and_resolve_path tree) (_prepare_files_labels tree)
    (is_dir tree) (path_exists tree) String.leb id id stem_in setitem_mismatch.

End Examples.
(** * Facts about the error monad *)

Lemma bind_Ok {A B : Type} (m : result A) (f : A → result B) (b : B) :
  m ≫= f = Ok b ↔ ∃ a, m = Ok a ∧ f a = Ok b.
Proof.
  destruct m as [a|e]; simpl.
  - split; [eauto | intros (a' & [= <-] & H); exact H].
  - split; [discriminate | intros (a' & [=] & _)].
Qed.

Lemma getitem_Ok {V : Type} (d : gmap string V) (key : string) (v : V) :
  getitem d key = Ok v ↔ d !! key = Some v.
Proof. unfold getitem. destruct (d !! key); split; congruence. Qed.

Lemma contains_true {V : Type} (d : gmap string V) (key : string) :
  contains d key = true ↔ is_Some (d !! key).
Proof. unfold contains. apply bool_decide_eq_true. Qed.

Lemma contains_false {V : Type} (d : gmap string V) (key : string) :
  contains d key = false ↔ d !! key = None.
Proof.
  unfold contains. rewrite bool_decide_eq_false. symmetry. apply eq_None_not_Some.
Qed.

Lemma assert_Ok (cond : bool) (msg : string) (u : unit) :
  assert cond msg = Ok u ↔ cond = true.
Proof. unfold assert. destruct cond; split; congruence || (destruct u; done). Qed.

Lemma bind_Raise {A B : Type} (m : result A) (f : A → result B) (e : exn) :
  m ≫= f = Raise e ↔ m = Raise e ∨ ∃ a, m = Ok a ∧ f a = Raise e.
Proof.
  destruct m as [a|e']; simpl.
  - split; [eauto | intros [[=] | (a' & [= <-] & H)]; exact H].
  - split; [intros [= <-]; eauto | intros [[= <-] | (a' & [=] & _)]; done].
Qed.

(** * The inference pipeline *)

Section predict_facts.
Import BaseInferencer.
Context {Self ndarray Tensor Any : Type}.
Context `{!Inferencer Self ndarray Tensor Any}.
Variable read_image : string → ndarray.
Variable shape : ndarray → list nat.
Variable of_shape : list nat → Any.

(** C1. [predict] is the fixed chain: with [image_arr] the array of the
    input image and [metadata] the dictionary bound to that name when
    [post_process] is called (the caller's, or the instance's default, with
    its "image_shape" entry set from [image_arr]),
    [output = post_process(forward(pre_process(image_arr)), metadata)],
    and [predict] returns exactly the [ImageResult] made of [image_arr] and
    of the six entries of [output]. *)
Theorem predict_chain (self : Self) (image : image_arg ndarray)
    (metadata : option (gmap string Any)) (res : ImageResult ndarray Any) :
  let image_arr := image_array read_image image in
  let metadata' :=
    <["image_shape" := of_shape (take 2 (shape image_arr))]> (resolve_metadata self metadata) in
  let output := post_process self (forward self (pre_process self image_arr)) metadata' in
  predict read_image shape of_shape self image metadata = Ok res ↔
    BaseInferencer.image res = image_arr
    ∧ output !! "pred_score" = Some (pred_score res)
    ∧ output !! "pred_label" = Some (pred_label res)
    ∧ output !! "anomaly_map" = Some (anomaly_map res)
    ∧ output !! "pred_mask" = Some (pred_mask res)
    ∧ output !! "pred_boxes" = Some (pred_boxes res)
    ∧ output !! "box_labels" = Some (box_labels res).
Proof.
  intros image_arr metadata' output. unfold predict.
  fold image_arr. fold metadata'. fold output.
  split.
  - intros Hp.
    apply bind_Ok in Hp as (v1 & H1%getitem_Ok & Hp).
    apply bind_Ok in Hp as (v2 & H2%getitem_Ok & Hp).
    apply bind_Ok in Hp as (v3 & H3%getitem_Ok & Hp).
    apply bind_Ok in Hp as (v4 & H4%getitem_Ok & Hp).
    apply bind_Ok in Hp as (v5 & H5%getitem_Ok & Hp).
    apply bind_Ok in Hp as (v6 & H6%getitem_Ok & Hp).
    injection Hp as <-. simpl. done.
  - intros (Hi & H1 & H2 & H3 & H4 & H5 & H6).
    apply getitem_Ok in H1, H2, H3, H4, H5, H6.
    rewrite H1; simpl. rewrite H2; simpl. rewrite H3; simpl.
    rewrite H4; simpl. rewrite H5; simpl. rewrite H6; simpl.
    destruct res; simpl in *. by rewrite Hi.
Qed.
End predict_facts.

(** The toy model on an image read from a path, without metadata. *)
Lemma predict_chain_witness :
  BaseInferencer.predict Examples.read_image Examples.shape Examples.AShape
    tt (BaseInferencer.ImagePath "good.png") None
  = Ok (BaseInferencer.mkImageResult [[0; 1]; [1; 0]]%Z
          (Examples.ANum 4) (Examples.ANum 0) (Examples.AMap [0; 2; 2; 0]%Z)
          (Examples.AMap [0; 1; 1; 0]%Z) (Examples.AShape [2; 2]) (Examples.AMap [])).
Proof.
  apply (predict_chain Examples.read_image Examples.shape Examples.AShape
           tt (BaseInferencer.ImagePath "good.png") None).
  vm_compute. repeat split; reflexivity.
Defined.

Section normalize_facts.
Import BaseInferencer.
Context {Any Float : Type}.
Variable normalize_min_max : Any → Any → Any → Any → Any.
Variable float : Any → Float.

(** C2. [_normalize] rescales exactly when both "min" and "max" are keys
    of the metadata: then the score is normalised with
    [metadata["image_threshold"]] and the anomaly map, unless it is [None],
    with [metadata["pixel_threshold"]]; when either key is missing the map
    comes back unchanged; the returned score is always [float] of the
    score as it stands after that. *)
Theorem _normalize_min_max_iff (pred_scores : Any) (metadata : gmap string Any) :
  (∀ min_val max_val image_threshold,
     metadata !! "min" = Some min_val →
     metadata !! "max" = Some max_val →
     metadata !! "image_threshold" = Some image_threshold →
     let score := float (normalize_min_max pred_scores image_threshold min_val max_val) in
     _normalize normalize_min_max float pred_scores metadata None = Ok (None, score)
     ∧ ∀ anomaly_maps pixel_threshold,
         metadata !! "pixel_threshold" = Some pixel_threshold →
         _normalize normalize_min_max float pred_scores metadata (Some anomaly_maps)
         = Ok (Some (normalize_min_max anomaly_maps pixel_threshold min_val max_val), score))
  ∧ (metadata !! "min" = None ∨ metadata !! "max" = None →
     ∀ anomaly_maps,
       _normalize normalize_min_max float pred_scores metadata anomaly_maps
       = Ok (anomaly_maps, float pred_scores)).
Proof.
  split.
  - intros min_val max_val image_threshold Hmin Hmax Hthr score.
    assert (Hc : contains metadata "min" && contains metadata "max" = true).
    { apply andb_true_iff; split; apply contains_true; eauto. }
    unfold _normalize, getitem. rewrite Hc.
    split.
    + by rewrite Hthr, Hmin, Hmax.
    + intros anomaly_maps pixel_threshold Hpix.
      by rewrite Hpix, Hthr, Hmin, Hmax.
  - intros Hnone anomaly_maps. unfold _normalize.
    assert (Hc : contains metadata "min" && contains metadata "max" = false).
    { apply andb_false_iff. destruct Hnone as [Hn|Hn]; [left|right];
        by apply contains_false. }
    by rewrite Hc.
Qed.
End normalize_facts.

(** With min 0, max 200 and thresholds 50 and 40, a score of 75 becomes
    0.62 and a map value of 20 becomes 0.40; without "max" nothing changes. *)
Lemma _normalize_min_max_iff_witness :
  BaseInferencer._normalize Examples.normalize_min_max id 75%Z
    {[ "min" := 0%Z; "max" := 200%Z; "image_threshold" := 50%Z; "pixel_threshold" := 40%Z ]}
    (Some 20%Z) = Ok (Some 40%Z, 62%Z)
  ∧ BaseInferencer._normalize Examples.normalize_min_max id 75%Z
      {[ "min" := 0%Z; "image_threshold" := 50%Z ]} (Some 20%Z) = Ok (Some 20%Z, 75%Z).
Proof.
  split.
  - pose proof (proj1 (_normalize_min_max_iff Examples.normalize_min_max id 75%Z
        {[ "min" := 0%Z; "max" := 200%Z; "image_threshold" := 50%Z;
           "pixel_threshold" := 40%Z ]}) 0%Z 200%Z 50%Z) as H.
    destruct H as [_ H]; [reflexivity..|].
    apply (H 20%Z 40%Z). reflexivity.
  - apply (proj2 (_normalize_min_max_iff Examples.normalize_min_max id 75%Z _)).
    right. reflexivity.
Defined.

(** * The datamodule *)

Section datamodule_facts.
Import DataModule.
Context {D Ratio : Type} `{!AnomalibDataset D Ratio}.
Local Abbreviation datamodule := (AnomalibDataModule D Ratio).

Lemma agree_set_train_data (self1 self2 : datamodule) (d : D) :
  agree self1 self2 → agree (set_train_data self1 d) (set_train_data self2 d).
Proof. intros []. by constructor. Qed.

Lemma agree_set_val_data (self1 self2 : datamodule) (d : D) :
  agree self1 self2 → agree (set_val_data self1 d) (set_val_data self2 d).
Proof. intros []. constructor; simpl; congruence. Qed.

Lemma agree_set_test_data (self1 self2 : datamodule) (d : D) :
  agree self1 self2 → agree (set_test_data self1 d) (set_test_data self2 d).
Proof. intros []. by constructor. Qed.

Lemma _create_test_split_sample_agree (ω1 ω2 : Entropy) (self1 self2 : datamodule) :
  (∀ d ratio label_aware,
     random_split ω1 d ratio label_aware (seed self2)
     = random_split ω2 d ratio label_aware (seed self2)) →
  agree self1 self2 →
  agree (_create_test_split_sample ω1 self1).1 (_create_test_split_sample ω2 self2).1
  ∧ (_create_test_split_sample ω1 self1).2 = (_create_test_split_sample ω2 self2).2.
Proof.
  intros Hsplit Ha. pose proof Ha as [Hm Hr _ _ Hs Htr _ Hte].
  unfold _create_test_split_sample. rewrite Hte, Hm, Hr, Htr, Hs.
  destruct (has_normal (test_data self2)).
  - destruct (split_by_label (test_data self2)) as [normal anomalous]; simpl.
    split; [by apply agree_set_test_data | done].
  - case_bool_decide; [|done].
    destruct (test_split_ratio self2) as [ratio|]; [|done].
    rewrite Hsplit.
    destruct (random_split ω2 (train_data self2) ratio false (seed self2)) as [train normal].
    simpl. split; [by apply agree_set_train_data | done].
Qed.

Lemma _create_test_split_assign_agree (ω1 ω2 : Entropy) (self1 self2 : datamodule)
    (normal : option D) :
  (test_split_mode self2 = TestSplitMode.SYNTHETIC →
   ∀ d, from_dataset ω1 d = from_dataset ω2 d) →
  agree self1 self2 →
  outcomes_agree (_create_test_split_assign ω1 self1 normal)
                 (_create_test_split_assign ω2 self2 normal).
Proof.
  intros Hsynth Ha. pose proof Ha as [Hm _ _ _ _ _ _ Hte].
  unfold _create_test_split_assign. rewrite Hm, Hte.
  repeat case_bool_decide; try by constructor.
  - destruct normal; simpl; constructor. by apply agree_set_test_data.
  - destruct normal as [normal|]; simpl; constructor.
    rewrite (Hsynth ltac:(done) normal). by apply agree_set_test_data.
Qed.

Lemma _create_test_split_sample_frame (ω : Entropy) (self : datamodule) :
  test_split_mode (_create_test_split_sample ω self).1 = test_split_mode self
  ∧ seed (_create_test_split_sample ω self).1 = seed self.
Proof.
  unfold _create_test_split_sample.
  repeat (case_match; simpl; try done).
Qed.

Lemma _create_test_split_agree (ω1 ω2 : Entropy) (self1 self2 : datamodule) :
  (∀ d ratio label_aware,
     random_split ω1 d ratio label_aware (seed self2)
     = random_split ω2 d ratio label_aware (seed self2)) →
  (test_split_mode self2 = TestSplitMode.SYNTHETIC →
   ∀ d, from_dataset ω1 d = from_dataset ω2 d) →
  agree self1 self2 →
  outcomes_agree (_create_test_split ω1 self1) (_create_test_split ω2 self2).
Proof.
  intros Hsplit Hsynth Ha.
  destruct (_create_test_split_sample_agree ω1 ω2 _ _ Hsplit Ha) as [Ha' Hn].
  destruct (_create_test_split_sample_frame ω2 self2) as [Hmode _].
  unfold _create_test_split.
  destruct (_create_test_split_sample ω1 self1) as [self1' n1],
           (_create_test_split_sample ω2 self2) as [self2' n2].
  simpl in *. subst n2. apply _create_test_split_assign_agree; [|done].
  by rewrite Hmode.
Qed.

Lemma _create_val_split_agree (ω1 ω2 : Entropy) (self1 self2 : datamodule) :
  (∀ d ratio label_aware,
     random_split ω1 d ratio label_aware (seed self2)
     = random_split ω2 d ratio label_aware (seed self2)) →
  (val_split_mode self2 = ValSplitMode.SYNTHETIC →
   ∀ d, from_dataset ω1 d = from_dataset ω2 d) →
  agree self1 self2 →
  outcomes_agree (_create_val_split ω1 self1) (_create_val_split ω2 self2).
Proof.
  intros Hsplit Hsynth Ha. pose proof Ha as [_ _ Hm Hr Hs Htr _ Hte].
  unfold _create_val_split. rewrite Hm, Hr, Hs, Htr, Hte, !Hsplit.
  repeat case_bool_decide; try by constructor.
  - destruct (random_split _ _ _ true _) as [test val]. constructor.
    by apply agree_set_val_data, agree_set_test_data.
  - constructor. by apply agree_set_val_data.
  - destruct (random_split _ _ _ false _) as [train val]. constructor.
    rewrite (Hsynth ltac:(done) val).
    by apply agree_set_val_data, agree_set_train_data.
Qed.

Lemma _create_test_split_frame (ω : Entropy) (self self' : datamodule) :
  _create_test_split ω self = Ok self' →
  train_batch_size self' = train_batch_size self
  ∧ eval_batch_size self' = eval_batch_size self
  ∧ num_workers self' = num_workers self
  ∧ test_split_mode self' = test_split_mode self
  ∧ test_split_ratio self' = test_split_ratio self
  ∧ val_split_mode self' = val_split_mode self
  ∧ val_split_ratio self' = val_split_ratio self
  ∧ seed self' = seed self
  ∧ val_data self' = val_data self.
Proof.
  unfold _create_test_split, _create_test_split_sample, _create_test_split_assign,
    local_normal_test_data.
  destruct self; simpl.
  repeat (case_match; simpl in *; simplify_eq; try done);
    repeat case_bool_decide; simplify_eq; try done;
    by intros [= <-].
Qed.

Lemma _setup_agree (ω1 ω2 : Entropy) (self1 self2 : datamodule)
    (stage1 stage2 : option string) :
  (∀ d ratio label_aware,
     random_split ω1 d ratio label_aware (seed self2)
     = random_split ω2 d ratio label_aware (seed self2)) →
  (test_split_mode self2 = TestSplitMode.SYNTHETIC
   ∨ val_split_mode self2 = ValSplitMode.SYNTHETIC →
   ∀ d, from_dataset ω1 d = from_dataset ω2 d) →
  agree self1 self2 →
  outcomes_agree (_setup ω1 self1 stage1) (_setup ω2 self2 stage2).
Proof.
  intros Hsplit Hsynth Ha. pose proof Ha as [_ _ _ _ _ Htr _ Hte].
  unfold _setup. rewrite Htr.
  destruct (ds_setup (train_data self2)) as [train|e]; simpl; [|constructor].
  rewrite Hte.
  destruct (ds_setup (test_data self2)) as [test|e]; simpl; [|constructor].
  pose proof (_create_test_split_agree ω1 ω2
                (set_test_data (set_train_data self1 train) test)
                (set_test_data (set_train_data self2 train) test)) as Hout.
  simpl in Hout. specialize (Hout Hsplit (λ Hm, Hsynth (or_introl Hm))
    (agree_set_test_data _ _ _ (agree_set_train_data _ _ _ Ha))).
  destruct (_create_test_split ω2 (set_test_data (set_train_data self2 train) test))
    as [split2|e2] eqn:Hsplit2;
    inversion Hout as [split1 split2' Ha' Hsplit1 Heq | e' He1 He2]; simpl;
    [|constructor].
  apply _create_test_split_frame in Hsplit2 as (_ & _ & _ & _ & _ & Hvm & _ & Hseed & _).
  simpl in Hvm, Hseed.
  apply _create_val_split_agree; [by rewrite Hseed | rewrite Hvm; auto | done].
Qed.

(** C4. The splitting policy is deterministic as far as the sampling
    utilities are: two runs of [_setup], each with its own random draws, on
    datamodules constructed with the same [train_data] and [test_data], the
    same split modes and split ratios and the same seed that is not [None],
    end alike, whatever the stage argument, batch sizes and worker counts
    of either run: both raise the same exception, or both return, with
    equal [train_data], [val_data] and [test_data].  This holds given that
    [random_split] returns the same split in both runs under that seed and,
    when a split mode is SYNTHETIC, that [from_dataset], which is passed no
    seed, returns the same dataset in both runs. *)
Theorem _setup_deterministic
    (val_split_mode : ValSplitMode.t) (val_split_ratio : Ratio)
    (test_split_mode : option TestSplitMode.t) (test_split_ratio : option Ratio)
    (seed : Z) (train_data test_data : D)
    (train_batch_size1 eval_batch_size1 num_workers1 : Z) (stage1 : option string)
    (ω1 : Entropy)
    (train_batch_size2 eval_batch_size2 num_workers2 : Z) (stage2 : option string)
    (ω2 : Entropy) :
  (∀ d ratio label_aware,
     random_split ω1 d ratio label_aware (Some seed)
     = random_split ω2 d ratio label_aware (Some seed)) →
  (test_split_mode = Some TestSplitMode.SYNTHETIC
   ∨ val_split_mode = ValSplitMode.SYNTHETIC →
   ∀ d, from_dataset ω1 d = from_dataset ω2 d) →
  let subsets (self : datamodule) :=
    (DataModule.train_data self, DataModule.val_data self, DataModule.test_data self) in
  subsets <$> _setup ω1 (init train_batch_size1 eval_batch_size1 num_workers1
                           val_split_mode val_split_ratio test_split_mode test_split_ratio
                           (Some seed) train_data test_data) stage1
  = subsets <$> _setup ω2 (init train_batch_size2 eval_batch_size2 num_workers2
                             val_split_mode val_split_ratio test_split_mode test_split_ratio
                             (Some seed) train_data test_data) stage2.
Proof.
  intros Hsplit Hsynth subsets.
  match goal with
  | |- _ <$> _setup _ ?self1 _ = _ <$> _setup _ ?self2 _ =>
      assert (Ha : agree self1 self2) by (by constructor);
      destruct (_setup_agree ω1 ω2 self1 self2 stage1 stage2) as [r1 r2 [] | e]
  end; simpl; try done.
  - intros [Hmode|Hmode]; apply Hsynth; [left|by right].
    by destruct test_split_mode as [mode|]; simplify_eq/=.
  - unfold subsets. congruence.
Qed.

Lemma _create_test_split_sample_mode (ω : Entropy) (self : datamodule) :
  test_split_mode (_create_test_split_sample ω self).1 = test_split_mode self.
Proof.
  unfold _create_test_split_sample.
  repeat (case_match; simpl; try done).
Qed.

(** C3. A test split mode other than NONE, FROM_DIR and SYNTHETIC makes
    [_create_test_split] raise its [ValueError], a validation split mode
    other than FROM_TEST, SAME_AS_TEST, SYNTHETIC and NONE makes
    [_create_val_split] raise its [ValueError]; with a supported mode
    neither method raises a [ValueError].  The exception is the outcome of
    the call: nothing is retried or recovered. *)
Theorem unsupported_split_mode_raises (ω : Entropy) (self : datamodule) :
  (test_split_mode self ∉ [TestSplitMode.NONE; TestSplitMode.FROM_DIR; TestSplitMode.SYNTHETIC] →
     ∃ mode, _create_test_split ω self
             = Raise (ValueError ("Unsupported Test Split Mode: " +:+ mode)))
  ∧ (val_split_mode self ∉ [ValSplitMode.FROM_TEST; ValSplitMode.SAME_AS_TEST;
                            ValSplitMode.SYNTHETIC; ValSplitMode.NONE] →
     ∃ mode, _create_val_split ω self
             = Raise (ValueError ("Unknown validation split mode: " +:+ mode)))
  ∧ (test_split_mode self ∈ [TestSplitMode.NONE; TestSplitMode.FROM_DIR; TestSplitMode.SYNTHETIC] →
     ∀ msg, _create_test_split ω self ≠ Raise (ValueError msg))
  ∧ (val_split_mode self ∈ [ValSplitMode.FROM_TEST; ValSplitMode.SAME_AS_TEST;
                            ValSplitMode.SYNTHETIC; ValSplitMode.NONE] →
     ∀ msg, _create_val_split ω self ≠ Raise (ValueError msg)).
Proof.
  split_and!.
  - intros Hmode. unfold _create_test_split.
    pose proof (_create_test_split_sample_mode ω self) as Hm.
    destruct (_create_test_split_sample ω self) as [self' normal]; simpl in Hm.
    unfold _create_test_split_assign. rewrite Hm.
    repeat case_bool_decide; try (by eexists); exfalso; apply Hmode;
      rewrite !elem_of_cons; auto.
  - intros Hmode. unfold _create_val_split.
    repeat case_bool_decide; try (by eexists); exfalso; apply Hmode;
      rewrite !elem_of_cons; auto.
  - intros Hmode msg. unfold _create_test_split.
    pose proof (_create_test_split_sample_mode ω self) as Hm.
    destruct (_create_test_split_sample ω self) as [self' normal]; simpl in Hm.
    unfold _create_test_split_assign. rewrite Hm.
    repeat case_bool_decide; try done.
    + by destruct normal.
    + by destruct normal.
    + rewrite !elem_of_cons, elem_of_nil in Hmode. intuition congruence.
  - intros Hmode msg. unfold _create_val_split.
    repeat case_bool_decide; try (repeat case_match; done).
    rewrite !elem_of_cons, elem_of_nil in Hmode. intuition congruence.
Qed.

(** C9. When the test set holds a normal sample, the first statement of
    [_create_test_split] replaces [test_data] by the anomalous part that
    [split_by_label] returns and binds the normal part to
    [normal_test_data], whatever the test split mode.  Under
    [TestSplitMode.NONE] nothing else happens: the normal test samples are
    dropped and [test_data] ends as the anomalous part, without a normal
    sample.  (Under [FROM_DIR] the normal part is added back, under
    [SYNTHETIC] the test set is synthesised from it.) *)
Theorem _create_test_split_drops_normal (ω : Entropy) (self : datamodule) :
  has_normal (test_data self) = true →
  has_normal (split_by_label (test_data self)).2 = false →
  let normal := (split_by_label (test_data self)).1 in
  let anomalous := (split_by_label (test_data self)).2 in
  _create_test_split_sample ω self = (set_test_data self anomalous, Some normal)
  ∧ (test_split_mode self = TestSplitMode.NONE →
     _create_test_split ω self = Ok (set_test_data self anomalous)
     ∧ has_normal (test_data (set_test_data self anomalous)) = false)
  ∧ (test_split_mode self = TestSplitMode.FROM_DIR →
     _create_test_split ω self = Ok (set_test_data self (ds_add anomalous normal)))
  ∧ (test_split_mode self = TestSplitMode.SYNTHETIC →
     _create_test_split ω self = Ok (set_test_data self (from_dataset ω normal))).
Proof.
  intros Hnormal Hanomalous normal anomalous.
  assert (Hs : _create_test_split_sample ω self = (set_test_data self anomalous, Some normal)).
  { unfold _create_test_split_sample, normal, anomalous. rewrite Hnormal.
    by destruct (split_by_label (test_data self)). }
  split; [exact Hs|].
  unfold _create_test_split. rewrite Hs. unfold _create_test_split_assign. simpl.
  split_and!; intros ->; simpl; done.
Qed.

(** C10. [setup] is idempotent: after a call that returns, [is_setup] holds,
    and a second call returns the same datamodule, [train_data], [val_data]
    and [test_data] included, without running [_setup], whichever
    implementation of [_setup] the instance has. *)
Theorem setup_idempotent
    (_setup1 _setup2 : datamodule → option string → result datamodule)
    (self self' : datamodule) (stage : option string) :
  setup_with _setup1 self stage = Ok self' →
  is_setup self' = true
  ∧ ∀ stage', setup_with _setup2 self' stage' = Ok self'.
Proof.
  unfold setup_with. intros Hsetup.
  apply bind_Ok in Hsetup as (self1 & _ & Hsetup).
  apply bind_Ok in Hsetup as (u & Hassert%assert_Ok & [= ->]).
  split; [exact Hassert|].
  intros stage'. rewrite Hassert. simpl. by rewrite Hassert.
Qed.
End datamodule_facts.

(** Two runs with seed 42, one with other batch sizes, worker count and
    stage and with other random draws, end with the same subsets. *)
Lemma _setup_deterministic_witness :
  let subsets (self : DataModule.AnomalibDataModule Examples.dataset nat) :=
    (DataModule.train_data self, DataModule.val_data self, DataModule.test_data self) in
  subsets <$> DataModule._setup Examples.run1
                (DataModule.init 32 32 8 ValSplitMode.FROM_TEST 50%nat
                   (Some TestSplitMode.FROM_DIR) (Some 20%nat) (Some 42%Z)
                   Examples.train_set Examples.test_set) None
  = subsets <$> DataModule._setup Examples.run2
                  (DataModule.init 64 16 0 ValSplitMode.FROM_TEST 50%nat
                     (Some TestSplitMode.FROM_DIR) (Some 20%nat) (Some 42%Z)
                     Examples.train_set Examples.test_set) (Some "fit").
Proof.
  apply (_setup_deterministic ValSplitMode.FROM_TEST 50%nat
           (Some TestSplitMode.FROM_DIR) (Some 20%nat) 42%Z
           Examples.train_set Examples.test_set
           32 32 8 None Examples.run1 64 16 0 (Some "fit") Examples.run2).
  - intros d ratio label_aware. reflexivity.
  - intros [Hmode|Hmode]; discriminate.
Defined.

(** C4 as stated covers every seed, also [None], the default, which is
    passed on to [random_split] as it is.  Then the split is drawn from the
    unseeded generator, and two runs from the same datasets and the same
    configuration end with different validation and test sets. *)
Lemma _setup_deterministic_counterexample :
  let self := DataModule.init 32 32 8 ValSplitMode.FROM_TEST 50%nat
                (Some TestSplitMode.FROM_DIR) (Some 20%nat) None
                Examples.train_set Examples.test_set in
  ∃ self1 self2,
    DataModule._setup Examples.run1 self None = Ok self1
    ∧ DataModule._setup Examples.run2 self None = Ok self2
    ∧ DataModule.test_data self1
      = Examples.mkDataset true [("t1", LabelName.NORMAL); ("a0", LabelName.ABNORMAL)]
    ∧ DataModule.test_data self2
      = Examples.mkDataset true [("a0", LabelName.ABNORMAL); ("a1", LabelName.ABNORMAL)]
    ∧ DataModule.val_data self1 ≠ DataModule.val_data self2.
Proof.
  intros self. eexists _, _.
  split; [vm_compute; reflexivity|].
  split; [vm_compute; reflexivity|].
  split_and!; [reflexivity | reflexivity | discriminate].
Qed.

(** Over the toy datasets: a mode named "k_fold" is refused by both
    methods, the default modes of [Folder3D] are not. *)
Lemma unsupported_split_mode_raises_witness :
  let self := DataModule.init 32 32 8 (ValSplitMode.Other "k_fold") 50%nat
                (Some (TestSplitMode.Other "k_fold")) (Some 20%nat) (Some 42%Z)
                Examples.train_set Examples.test_set in
  let self' := DataModule.init 32 32 8 ValSplitMode.FROM_TEST 50%nat
                 (Some TestSplitMode.FROM_DIR) (Some 20%nat) (Some 42%Z)
                 Examples.train_set Examples.test_set in
  (∃ mode, DataModule._create_test_split Examples.run1 self
           = Raise (ValueError ("Unsupported Test Split Mode: " +:+ mode)))
  ∧ (∃ mode, DataModule._create_val_split Examples.run1 self
             = Raise (ValueError ("Unknown validation split mode: " +:+ mode)))
  ∧ (∀ msg, DataModule._create_test_split Examples.run1 self' ≠ Raise (ValueError msg))
  ∧ (∀ msg, DataModule._create_val_split Examples.run1 self' ≠ Raise (ValueError msg)).
Proof.
  intros self self'.
  destruct (unsupported_split_mode_raises Examples.run1 self) as (Htest & Hval & _).
  destruct (unsupported_split_mode_raises Examples.run1 self') as (_ & _ & Htest' & Hval').
  split_and!.
  - apply Htest. simpl. rewrite !elem_of_cons, elem_of_nil. intuition discriminate.
  - apply Hval. simpl. rewrite !elem_of_cons, elem_of_nil. intuition discriminate.
  - apply Htest'. simpl. rewrite !elem_of_cons. auto.
  - apply Hval'. simpl. rewrite !elem_of_cons. auto.
Defined.

Lemma _create_test_split_drops_normal_witness :
  let self := DataModule.init 32 32 8 ValSplitMode.NONE 50%nat
                None (Some 20%nat) (Some 42%Z)
                Examples.train_set Examples.test_set in
  DataModule._create_test_split Examples.run1 self
  = Ok (DataModule.set_test_data self
          (Examples.mkDataset false [("a0", LabelName.ABNORMAL); ("a1", LabelName.ABNORMAL)])).
Proof.
  intros self.
  destruct (_create_test_split_drops_normal Examples.run1 self) as (_ & Hnone & _);
    [reflexivity | reflexivity |].
  apply Hnone. reflexivity.
Defined.

Lemma setup_idempotent_witness :
  let self := DataModule.init 32 32 8 ValSplitMode.FROM_TEST 50%nat
                (Some TestSplitMode.FROM_DIR) (Some 20%nat) (Some 42%Z)
                Examples.train_set Examples.test_set in
  ∃ self', DataModule.setup Examples.run1 self None = Ok self'
           ∧ DataModule.is_setup self' = true
           ∧ DataModule.setup Examples.run1 self' (Some "fit") = Ok self'.
Proof.
  intros self. eexists. split; [vm_compute; reflexivity|].
  match goal with
  | |- DataModule.is_setup ?self' = true ∧ _ =>
      destruct (setup_idempotent (DataModule._setup Examples.run1) (DataModule._setup Examples.run1) self self' None)
        as [Hset Hagain]; [vm_compute; reflexivity|]
  end.
  split; [exact Hset | apply Hagain].
Defined.

(** * Collation *)

Section collate_facts.
Import DataModule.
Context {Atom : Type}.
Local Abbreviation value := (pyval Atom).
Local Abbreviation dict := (gmap string value).
Local Abbreviation heap := (gmap loc dict).
Variable default_collate : heap → list value → value.

Lemma state_bind_Ok {A B : Type} (m : state heap A) (f : A → state heap B)
    (h h' : heap) (a : A) :
  m h = (Ok a, h') → (m ≫= f) h = f a h'.
Proof. intros Hm. unfold mbind, state_bind. by rewrite Hm. Qed.

Lemma state_bind_Raise {A B : Type} (m : state heap A) (f : A → state heap B)
    (h h' : heap) (e : exn) :
  m h = (Raise e, h') → (m ≫= f) h = (Raise e, h').
Proof. intros Hm. unfold mbind, state_bind. by rewrite Hm. Qed.

Lemma mapM_pop (items : list (loc * dict)) (h : heap) :
  NoDup items.*1 →
  (∀ l d, (l, d) ∈ items → h !! l = Some d) →
  (∀ l d, (l, d) ∈ items → is_Some (d !! "boxes")) →
  ∃ h', mapM (λ item, pop item "boxes") (VRef <$> items.*1) h
        = (Ok ((λ item, item.2 !!! "boxes") <$> items), h')
        ∧ popped items.*1 h h'.
Proof.
  revert h. induction items as [|[l d] items IH]; intros h Hnodup Hlocs Hboxes.
  - exists h. split; [done|]. intros l. by rewrite decide_False by apply not_elem_of_nil.
  - simpl in Hnodup. apply NoDup_cons in Hnodup as [Hnotin Hnodup].
    assert (Hl : h !! l = Some d) by (apply Hlocs; left).
    destruct (Hboxes l d) as [b Hb]; [left|].
    destruct (IH (<[l := delete "boxes" d]> h)) as (h' & Hmap & Hpop); [done| | |].
    { intros l' d' Hin. rewrite lookup_insert_ne; [apply Hlocs; by right|].
      intros ->. apply Hnotin. apply list_elem_of_fmap. by exists (l', d'). }
    { intros l' d' Hin. apply (Hboxes l' d'). by right. }
    exists h'. split.
    + simpl. erewrite state_bind_Ok; [|by (unfold pop; rewrite Hl, Hb)].
      erewrite state_bind_Ok; [|exact Hmap].
      simpl. unfold mret, state_ret. do 3 f_equal.
      by rewrite lookup_total_alt, Hb.
    + intros l'. rewrite (Hpop l'). simpl.
      destruct (decide (l' = l)) as [->|Hne].
      * rewrite decide_False by done. rewrite decide_True by left.
        by rewrite lookup_insert_eq, Hl.
      * rewrite lookup_insert_ne by done.
        destruct (decide (l' ∈ items.*1)).
        -- by rewrite decide_True by (by right).
        -- rewrite decide_False; [done|]. by intros [?|?]%elem_of_cons.
Qed.

Lemma mapM_subscript (items : list (loc * dict)) (h : heap) (key : string) :
  (∀ l d, (l, d) ∈ items → h !! l = Some d) →
  (∀ l d, (l, d) ∈ items → is_Some (d !! key)) →
  mapM (λ item, subscript item key) (VRef <$> items.*1) h
  = (Ok ((λ item, item.2 !!! key) <$> items), h).
Proof.
  induction items as [|[l d] items IH]; intros Hlocs Hkey; [done|].
  assert (Hl : h !! l = Some d) by (apply Hlocs; left).
  destruct (Hkey l d) as [v Hv]; [left|].
  simpl. erewrite state_bind_Ok;
    [|by (unfold subscript, getitem; rewrite Hl, Hv)].
  erewrite state_bind_Ok.
  2:{ apply IH; intros l' d' Hin; [apply Hlocs | apply (Hkey l' d')]; by right. }
  simpl. unfold mret, state_ret. do 3 f_equal.
  by rewrite lookup_total_alt, Hv.
Qed.

Lemma mapM_pure {A B : Type} (f : A → state heap B) (g : A → B) (xs : list A) (h : heap) :
  (∀ x, x ∈ xs → f x h = (Ok (g x), h)) →
  mapM f xs h = (Ok (g <$> xs), h).
Proof.
  induction xs as [|x xs IH]; intros Hf; [done|].
  simpl. erewrite state_bind_Ok; [|apply Hf; left].
  erewrite state_bind_Ok; [done|].
  apply IH. intros x' Hin. apply Hf. by right.
Qed.

Lemma list_to_map_tabulate (g : string → value) (ks : list string) (k : string) :
  (list_to_map ((λ key, (key, g key)) <$> ks) : dict) !! k
  = if decide (k ∈ ks) then Some (g k) else None.
Proof.
  induction ks as [|k' ks IH].
  - rewrite decide_False by apply not_elem_of_nil. apply lookup_empty.
  - cbn [fmap list_fmap list_to_map foldr uncurry].
    destruct (decide (k = k')) as [->|Hne].
    + rewrite lookup_insert_eq. by rewrite decide_True by left.
    + rewrite lookup_insert_ne by done. rewrite IH.
      destruct (decide (k ∈ ks)).
      * by rewrite decide_True by (by right).
      * rewrite decide_False; [done|]. by intros [?|?]%elem_of_cons.
Qed.
Lemma keys_popped (d0 : dict) (k : string) :
  k ∈ (map_to_list (delete "boxes" d0)).*1 ↔ k ≠ "boxes" ∧ is_Some (d0 !! k).
Proof.
  rewrite list_elem_of_fmap. split.
  - intros ([k' v] & -> & Hin%elem_of_map_to_list). simpl.
    apply lookup_delete_Some in Hin as [Hne Hin]. eauto.
  - intros [Hne [v Hv]]. exists (k, v). split; [done|].
    apply elem_of_map_to_list. by rewrite lookup_delete_ne.
Qed.

(** C8. For a batch of pairwise distinct dictionaries that all contain
    "boxes" and every other key of the first one, [collate_fn] returns a
    dictionary whose "boxes" entry is the list of the items' boxes in batch
    order, and which maps every other key of the first element, and only
    those, to [default_collate] of that key's values across the batch (as
    called once the boxes are popped); "boxes" is removed from every
    dictionary of the batch and nothing else is changed.  For a batch
    whose first element is not a dictionary, [collate_fn] returns
    [default_collate(batch)] and changes nothing. *)
Theorem collate_fn_boxes :
  (∀ (l0 : loc) (d0 : dict) (rest : list (loc * dict)) (h : heap),
     let items := (l0, d0) :: rest in
     NoDup items.*1 →
     (∀ l d, (l, d) ∈ items →
        h !! l = Some d ∧ is_Some (d !! "boxes")
        ∧ ∀ k, is_Some (d0 !! k) → is_Some (d !! k)) →
     ∃ out h',
       collate_fn default_collate (VRef <$> items.*1) h = (Ok (OutDict out), h')
       ∧ out !! "boxes" = Some (VList ((λ item, item.2 !!! "boxes") <$> items))
       ∧ (∀ k, k ≠ "boxes" →
            out !! k
            = (λ _, default_collate h' ((λ item, item.2 !!! k) <$> items)) <$> d0 !! k)
       ∧ popped items.*1 h h')
  ∧ (∀ (elem : value) (rest : list value) (h : heap),
       (∀ l, elem ≠ VRef l) →
       collate_fn default_collate (elem :: rest) h
       = (Ok (Collated (default_collate h (elem :: rest))), h)).
Proof.
  split.
  - intros l0 d0 rest h items Hnodup Hitems.
    assert (Hlocs : ∀ l d, (l, d) ∈ items → h !! l = Some d)
      by (intros l d Hin; by destruct (Hitems l d Hin) as (? & ? & ?)).
    assert (Hboxes : ∀ l d, (l, d) ∈ items → is_Some (d !! "boxes"))
      by (intros l d Hin; by destruct (Hitems l d Hin) as (? & ? & ?)).
    destruct (mapM_pop items h Hnodup Hlocs Hboxes) as (h' & Hpop & Hh').
    set (g := λ key : string,
           (key, default_collate h' ((λ item : loc * dict, item.2 !!! key) <$> items))).
    set (ks := (map_to_list (delete "boxes" d0)).*1).
    assert (Hh'l : ∀ l d, (l, d) ∈ items → h' !! l = Some (delete "boxes" d)).
    { intros l d Hin. rewrite (Hh' l), decide_True.
      - by rewrite (Hlocs l d Hin).
      - apply list_elem_of_fmap. by exists (l, d). }
    assert (Hothers : mapM (λ key,
              vals ← mapM (λ item, subscript item key) (VRef <$> items.*1);
              h ← get_heap;
              mret (key, default_collate h vals)) ks h' = (Ok (g <$> ks), h')).
    { apply mapM_pure. intros key Hin. apply keys_popped in Hin as [Hne Hkey].
      pose proof (mapM_subscript (prod_map id (delete "boxes") <$> items) h' key) as Hsub.
      assert (Hfst : (prod_map id (delete "boxes") <$> items).*1 = items.*1).
      { rewrite <- list_fmap_compose. apply list_fmap_ext. by intros i [??] _. }
      rewrite Hfst in Hsub.
      erewrite state_bind_Ok.
      2:{ apply Hsub.
          - intros l d Hin'.
            apply list_elem_of_fmap in Hin' as ([l' d'] & Heq & Hin).
            simpl in Heq. injection Heq as -> ->. by apply Hh'l.
          - intros l d Hin'.
            apply list_elem_of_fmap in Hin' as ([l' d'] & Heq & Hin).
            simpl in Heq. injection Heq as -> ->.
            rewrite lookup_delete_ne by done.
            destruct (Hitems l' d' Hin) as (_ & _ & Hk). by apply Hk. }
      erewrite state_bind_Ok; [|reflexivity].
      unfold g, mret, state_ret. do 3 f_equal.
      rewrite <- list_fmap_compose. f_equal.
      apply list_fmap_ext. intros i [l d] _. simpl.
      by rewrite !lookup_total_alt, lookup_delete_ne. }
    exists (list_to_map (g <$> ks) ∪ {["boxes" := VList ((λ item, item.2 !!! "boxes") <$> items)]}), h'.
    split_and!.
    + unfold collate_fn. cbn [fmap list_fmap items fst].
      erewrite state_bind_Ok;
        [|by (unfold as_dict; rewrite (Hlocs l0 d0) by left)].
      cbn beta iota.
      assert (Hc : contains d0 "boxes" = true)
        by (apply contains_true, (Hboxes l0 d0); left).
      rewrite Hc.
      erewrite state_bind_Ok.
      2:{ erewrite state_bind_Ok; [|exact Hpop]. reflexivity. }
      erewrite state_bind_Ok.
      2:{ unfold keys. erewrite state_bind_Ok; [reflexivity|].
          unfold as_dict. by rewrite (Hh'l l0 d0) by left. }
      erewrite state_bind_Ok; [|exact Hothers]. reflexivity.
    + rewrite lookup_union_r; [apply lookup_singleton_eq|].
      unfold g. rewrite list_to_map_tabulate, decide_False; [done|].
      intros Hin. by apply keys_popped in Hin as [Hne _].
    + intros k Hne. unfold g. rewrite lookup_union, list_to_map_tabulate.
      rewrite lookup_singleton_ne by done.
      destruct (d0 !! k) as [v|] eqn:Hk; simpl.
      * rewrite decide_True; [done|]. apply keys_popped. split; [done|]. by rewrite Hk.
      * rewrite decide_False; [done|]. intros Hin.
        apply keys_popped in Hin as [_ [v Hv]]. congruence.
    + exact Hh'.
  - intros elem rest h Hnodict. unfold collate_fn.
    erewrite state_bind_Ok with (a := None); [reflexivity|].
    unfold as_dict. destruct elem as [l| |]; [by destruct (Hnodict l)|done..].
Qed.
End collate_facts.

(** Two samples with a box and an image each. *)
Lemma collate_fn_boxes_witness :
  let d0 : gmap string (DataModule.pyval Z) :=
    {[ "boxes" := DataModule.VAtom 7%Z; "image" := DataModule.VAtom 1%Z ]} in
  let d1 : gmap string (DataModule.pyval Z) :=
    {[ "boxes" := DataModule.VAtom 8%Z; "image" := DataModule.VAtom 2%Z ]} in
  let h : gmap DataModule.loc (gmap string (DataModule.pyval Z)) :=
    {[ 0%nat := d0; 1%nat := d1 ]} in
  ∃ out h',
    DataModule.collate_fn Examples.default_collate [DataModule.VRef 0; DataModule.VRef 1] h
    = (Ok (DataModule.OutDict out), h')
    ∧ out !! "boxes" = Some (DataModule.VList [DataModule.VAtom 7%Z; DataModule.VAtom 8%Z])
    ∧ out !! "image" = Some (DataModule.VList [DataModule.VAtom 1%Z; DataModule.VAtom 2%Z])
    ∧ h' !! 0%nat = Some {[ "image" := DataModule.VAtom 1%Z ]}
    ∧ h' !! 1%nat = Some {[ "image" := DataModule.VAtom 2%Z ]}
    ∧ DataModule.collate_fn Examples.default_collate
        [DataModule.VAtom 1%Z; DataModule.VAtom 2%Z] h
      = (Ok (DataModule.Collated
               (DataModule.VList [DataModule.VAtom 1%Z; DataModule.VAtom 2%Z])), h).
Proof.
  intros d0 d1 h.
  destruct (proj1 (collate_fn_boxes Examples.default_collate) 0%nat d0 [(1%nat, d1)] h)
    as (out & h' & Hrun & Hboxes & Hother & Hpopped).
  - simpl. apply NoDup_cons. split; [|apply NoDup_singleton].
    rewrite list_elem_of_singleton. discriminate.
  - intros l d Hin.
    apply elem_of_cons in Hin as [[= -> ->]|Hin];
      [|apply list_elem_of_singleton in Hin as [= -> ->]].
    + split_and!; [reflexivity | by eexists | done].
    + split_and!; [reflexivity | by eexists |].
      intros k [v Hv]. unfold d0 in Hv.
      apply lookup_insert_Some in Hv as [[<- _]|[_ Hv]]; [by eexists|].
      apply lookup_singleton_Some in Hv as [<- _]. by eexists.
  - unfold DataModule.popped in Hpopped. exists out, h'. split_and!.
    + exact Hrun.
    + exact Hboxes.
    + by rewrite (Hother "image").
    + etrans; [exact (Hpopped 0%nat)|]. reflexivity.
    + etrans; [exact (Hpopped 1%nat)|]. reflexivity.
    + by apply (proj2 (collate_fn_boxes Examples.default_collate)).
Defined.

(** C8 as stated asks nothing of the elements after the first.  A second
    item without "boxes", or the first dictionary listed twice, makes the
    pop raise [KeyError]. *)
Lemma collate_fn_boxes_counterexample :
  let d0 : gmap string (DataModule.pyval Z) :=
    {[ "boxes" := DataModule.VAtom 7%Z; "image" := DataModule.VAtom 1%Z ]} in
  let d1 : gmap string (DataModule.pyval Z) := {[ "image" := DataModule.VAtom 2%Z ]} in
  let h : gmap DataModule.loc (gmap string (DataModule.pyval Z)) :=
    {[ 0%nat := d0; 1%nat := d1 ]} in
  h !! 0%nat = Some d0
  ∧ is_Some (d0 !! "boxes")
  ∧ (DataModule.collate_fn Examples.default_collate
       [DataModule.VRef 0; DataModule.VRef 1] h).1 = Raise (KeyError "boxes")
  ∧ (DataModule.collate_fn Examples.default_collate
       [DataModule.VRef 0; DataModule.VRef 0] h).1 = Raise (KeyError "boxes").
Proof.
  intros d0 d1 h. split_and!.
  - reflexivity.
  - by eexists.
  - vm_compute. reflexivity.
  - vm_compute. reflexivity.
Qed.

(** * The 3D folder dataset *)

Section folder3d_facts.
Import Folder3D.
Context {Path : Type}.
Variable validate_and_resolve_path : path_arg Path → option (path_arg Path) → result Path.
Variable _prepare_files_labels :
  Path → DirType.t → option (list string) → result (list Path * list DirType.t).
Variable is_dir : Path → bool.
Variable path_exists : Path → bool.
Variable path_leb : Path → Path → bool.
Variable path_str : Path → string.
Variable path_of_str : string → Path.
Variable stem_in : Path → Path → bool.
Variable setitem_mismatch : nat → list Path → result (list Path).

Local Abbreviation row := (Folder3D.row Path).
Local Abbreviation all_samples :=
  (Folder3D.all_samples validate_and_resolve_path _prepare_files_labels is_dir path_exists
     path_leb path_str path_of_str stem_in setitem_mismatch).
Local Abbreviation make_folder3d_dataset :=
  (Folder3D.make_folder3d_dataset validate_and_resolve_path _prepare_files_labels is_dir
     path_exists path_leb path_str path_of_str stem_in setitem_mismatch).
Local Abbreviation add_depth_paths :=
  (Folder3D.add_depth_paths path_exists stem_in setitem_mismatch).
Local Abbreviation add_mask_paths :=
  (Folder3D.add_mask_paths path_exists path_str path_of_str setitem_mismatch).

Lemma DataFrame_unindexed (filenames : list Path) (labels : list DirType.t) (rows : list row) :
  DataFrame filenames labels = Ok rows → Forall (λ r, r_label_index r = None) rows.
Proof.
  unfold DataFrame. case_bool_decide; [|done]. intros [= <-].
  clear. revert labels. induction filenames as [|f fs IH]; intros [|l ls]; simpl;
    constructor; auto.
Qed.

Lemma insert_by_path_Forall (P : row → Prop) (r : row) (rows : list row) :
  P r → Forall P rows → Forall P (insert_by_path path_leb r rows).
Proof.
  intros Hr. induction 1 as [|r' rows Hr' Hrows IH]; simpl.
  - by constructor.
  - destruct (path_leb _ _); repeat constructor; auto.
Qed.

Lemma sort_values_Forall (P : row → Prop) (rows : list row) :
  Forall P rows → Forall P (sort_values path_leb rows).
Proof.
  induction 1 as [|r rows Hr Hrows IH]; simpl; [constructor|].
  by apply insert_by_path_Forall.
Qed.

Lemma set_label_index_indexed (r : row) :
  r_label_index r = None → indexed (set_label_index r).
Proof.
  unfold indexed, set_label_index. intros Hnone.
  destruct r as [p l i d m]. simpl in *. subst i. by destruct l.
Qed.

Lemma assign_by_position_Forall (P : row → Prop) (sel : row → bool)
    (set : row → Path → row) (rows : list row) (values : list Path) :
  (∀ r v, P r → P (set r v)) →
  Forall P rows → Forall P (assign_by_position sel set rows values).
Proof.
  intros Hset Hrows. revert values.
  induction Hrows as [|r rows Hr Hrows IH]; intros values; simpl; [constructor|].
  destruct (sel r); [destruct values|]; constructor; auto.
Qed.

Lemma loc_setitem_Forall (P : row → Prop) (sel : row → bool)
    (set : row → Path → row) (rows rows' : list row) (values : list Path) :
  (∀ r v, P r → P (set r v)) →
  Forall P rows →
  loc_setitem setitem_mismatch sel set rows values = Ok rows' →
  Forall P rows'.
Proof.
  intros Hset Hrows. unfold loc_setitem. case_bool_decide.
  - intros [= <-]. by apply assign_by_position_Forall.
  - intros (values' & _ & [= <-])%bind_Ok. by apply assign_by_position_Forall.
Qed.

Lemma check_depth_paths_Ok (rows : list row) (u : unit) :
  check_depth_paths path_exists stem_in rows = Ok u →
  Forall (λ r, depth_path_exists path_exists r = true) rows.
Proof.
  unfold check_depth_paths.
  intros (matches & _ & Hrest)%bind_Ok.
  apply bind_Ok in Hrest as (? & _ & Hexists%assert_Ok).
  apply Forall_forall. intros r Hin.
  apply (proj1 (forallb_forall _ _) Hexists). by apply list_elem_of_In.
Qed.

Lemma check_mask_paths_Ok (mask_dir : Path) (rows : list row) (u : unit) :
  check_mask_paths path_exists path_str path_of_str mask_dir rows = Ok u →
  Forall (λ r, mask_path_exists path_exists path_of_str (mask_path_str path_str r) = true) rows.
Proof.
  unfold check_mask_paths. intros Hexists%assert_Ok.
  apply Forall_forall. intros r Hin.
  apply (proj1 (forallb_forall _ _) Hexists). by apply list_elem_of_In.
Qed.

Lemma forallb_false_of_elem (check : row → bool) (rows : list row) (r : row) :
  r ∈ rows → check r = false → forallb check rows = false.
Proof.
  intros Hin Hr. destruct (forallb check rows) eqn:Hall; [|done].
  rewrite forallb_forall in Hall. rewrite <- Hr. symmetry.
  apply Hall. by apply list_elem_of_In.
Qed.

Lemma assign_depth_paths_Forall (P : row → Prop) (normal_test_dir : option Path)
    (rows rows' : list row) :
  (∀ r v, P r → P (set_depth_path r v)) →
  Forall P rows →
  assign_depth_paths setitem_mismatch normal_test_dir rows = Ok rows' →
  Forall P rows'.
Proof.
  intros Hset Hrows. unfold assign_depth_paths.
  intros (rows1 & H1 & Hrest)%bind_Ok.
  apply bind_Ok in Hrest as (rows2 & H2 & H3).
  apply (loc_setitem_Forall P) in H1; [|done..].
  apply (loc_setitem_Forall P) in H2; [|done..].
  case_bool_decide.
  - by apply (loc_setitem_Forall P) in H3.
  - by injection H3 as <-.
Qed.

Lemma add_depth_paths_Ok (normal_test_dir : option Path) (rows rows' : list row) :
  add_depth_paths normal_test_dir rows = Ok rows' ↔
  assign_depth_paths setitem_mismatch normal_test_dir rows = Ok rows'
  ∧ check_depth_paths path_exists stem_in rows' = Ok tt.
Proof.
  unfold Folder3D.add_depth_paths. split.
  - intros (rows1 & H1 & Hrest)%bind_Ok.
    apply bind_Ok in Hrest as ([] & Hcheck & [= <-]). done.
  - intros [-> Hcheck]. simpl. by rewrite Hcheck.
Qed.

Lemma add_depth_paths_Forall (P : row → Prop) (normal_test_dir : option Path)
    (rows rows' : list row) :
  (∀ r v, P r → P (set_depth_path r v)) →
  Forall P rows →
  add_depth_paths normal_test_dir rows = Ok rows' →
  Forall P rows'.
Proof.
  intros Hset Hrows [Hassign _]%add_depth_paths_Ok.
  by eapply assign_depth_paths_Forall.
Qed.

Lemma add_depth_paths_exist (normal_test_dir : option Path) (rows rows' : list row) :
  add_depth_paths normal_test_dir rows = Ok rows' →
  Forall (λ r, depth_path_exists path_exists r = true) rows'.
Proof.
  intros [_ Hcheck]%add_depth_paths_Ok. by apply (check_depth_paths_Ok _ tt).
Qed.

Lemma add_mask_paths_Ok (mask_dir : Path) (rows rows' : list row) :
  add_mask_paths mask_dir rows = Ok rows' ↔
  assign_mask_paths setitem_mismatch rows = Ok rows'
  ∧ check_mask_paths path_exists path_str path_of_str mask_dir rows' = Ok tt.
Proof.
  unfold Folder3D.add_mask_paths. split.
  - intros (rows1 & H1 & Hrest)%bind_Ok.
    apply bind_Ok in Hrest as ([] & Hcheck & [= <-]). done.
  - intros [-> Hcheck]. simpl. by rewrite Hcheck.
Qed.

Lemma add_mask_paths_Forall (P : row → Prop) (mask_dir : Path) (rows rows' : list row) :
  (∀ r v, P r → P (set_mask_path r v)) →
  Forall P rows →
  add_mask_paths mask_dir rows = Ok rows' →
  Forall P rows'.
Proof.
  intros Hset Hrows [Hassign _]%add_mask_paths_Ok.
  by apply (loc_setitem_Forall P) in Hassign.
Qed.

Lemma add_mask_paths_exist (mask_dir : Path) (rows rows' : list row) :
  add_mask_paths mask_dir rows = Ok rows' →
  Forall (λ r, mask_path_exists path_exists path_of_str (mask_path_str path_str r) = true) rows'.
Proof.
  intros [_ Hcheck]%add_mask_paths_Ok. by apply (check_mask_paths_Ok mask_dir _ tt).
Qed.

Lemma resolve_optional_Ok (d root : option (path_arg Path)) (resolved : option Path) :
  resolve_optional validate_and_resolve_path d root = Ok resolved →
  bool_decide (is_Some resolved) = path_arg_truthy d.
Proof.
  unfold resolve_optional. destruct d as [d|]; [|by intros [= <-]].
  destruct (path_arg_truthy (Some d)); [|by intros [= <-]].
  destruct (validate_and_resolve_path d root); [|done]. by intros [= <-].
Qed.

(** Which of the resolved directories are there is decided by the truth
    value of the arguments. *)
Lemma resolve_dirs_Ok (normal_dir : path_arg Path)
    (root abnormal_dir normal_test_dir mask_dir normal_depth_dir abnormal_depth_dir
       normal_test_depth_dir : option (path_arg Path)) (dirs : resolved_dirs) :
  resolve_dirs validate_and_resolve_path normal_dir root abnormal_dir normal_test_dir mask_dir
    normal_depth_dir abnormal_depth_dir normal_test_depth_dir = Ok dirs →
  validate_and_resolve_path normal_dir root = Ok (d_normal dirs)
  ∧ bool_decide (is_Some (d_abnormal dirs)) = path_arg_truthy abnormal_dir
  ∧ bool_decide (is_Some (d_normal_test dirs)) = path_arg_truthy normal_test_dir
  ∧ bool_decide (is_Some (d_mask dirs)) = path_arg_truthy mask_dir
  ∧ bool_decide (is_Some (d_normal_depth dirs)) = path_arg_truthy normal_depth_dir.
Proof.
  unfold resolve_dirs.
  intros (normal & Hnormal & Hrest)%bind_Ok.
  apply bind_Ok in Hrest as (abnormal & Habnormal%resolve_optional_Ok & Hrest).
  apply bind_Ok in Hrest as (normal_test & Hnormal_test%resolve_optional_Ok & Hrest).
  apply bind_Ok in Hrest as (mask & Hmask%resolve_optional_Ok & Hrest).
  apply bind_Ok in Hrest as (normal_depth & Hnormal_depth%resolve_optional_Ok & Hrest).
  apply bind_Ok in Hrest as (abnormal_depth & _ & Hrest).
  apply bind_Ok in Hrest as (normal_test_depth & _ & [= <-]).
  done.
Qed.

Lemma labelled_table_Ok (normal_dir : path_arg Path)
    (root abnormal_dir normal_test_dir mask_dir normal_depth_dir abnormal_depth_dir
       normal_test_depth_dir : option (path_arg Path))
    (extensions : option (list string)) (dirs : resolved_dirs) (rows : list row) :
  labelled_table validate_and_resolve_path _prepare_files_labels is_dir path_leb
    normal_dir root abnormal_dir normal_test_dir mask_dir normal_depth_dir
    abnormal_depth_dir normal_test_depth_dir extensions = Ok (dirs, rows) ↔
  ∃ listing rows0,
    resolve_dirs validate_and_resolve_path normal_dir root abnormal_dir normal_test_dir
      mask_dir normal_depth_dir abnormal_depth_dir normal_test_depth_dir = Ok dirs
    ∧ list_files _prepare_files_labels is_dir dirs extensions = Ok listing
    ∧ DataFrame listing.1 listing.2 = Ok rows0
    ∧ rows = set_label_index <$> sort_values path_leb rows0.
Proof.
  unfold labelled_table. split.
  - intros (dirs' & Hdirs & Hrest)%bind_Ok.
    apply bind_Ok in Hrest as ([filenames labels] & Hlist & Hrest).
    apply bind_Ok in Hrest as (rows0 & Hframe & [= <- <-]).
    by exists (filenames, labels), rows0.
  - intros ([filenames labels] & rows0 & -> & Hlist & Hframe & ->). simpl.
    rewrite Hlist. simpl. simpl in Hframe. by rewrite Hframe.
Qed.

(** The stages a successful run of lines 71-176 went through. *)
Lemma all_samples_stages (normal_dir : path_arg Path)
    (root abnormal_dir normal_test_dir mask_dir normal_depth_dir abnormal_depth_dir
       normal_test_depth_dir : option (path_arg Path))
    (extensions : option (list string)) (samples : list (nat * sample)) :
  all_samples normal_dir root abnormal_dir normal_test_dir mask_dir normal_depth_dir
    abnormal_depth_dir normal_test_depth_dir extensions = Ok samples →
  let has_depth := path_arg_truthy normal_depth_dir in
  let has_mask := path_arg_truthy mask_dir && path_arg_truthy abnormal_dir in
  ∃ (dirs : resolved_dirs) (listing : list Path * list DirType.t)
    (rows0 rows1 rows2 : list row),
    resolve_dirs validate_and_resolve_path normal_dir root abnormal_dir normal_test_dir
      mask_dir normal_depth_dir abnormal_depth_dir normal_test_depth_dir = Ok dirs
    ∧ list_files _prepare_files_labels is_dir dirs extensions = Ok listing
    ∧ DataFrame listing.1 listing.2 = Ok rows0
    ∧ (if has_depth
       then add_depth_paths (d_normal_test dirs)
              (set_label_index <$> sort_values path_leb rows0) = Ok rows1
       else rows1 = set_label_index <$> sort_values path_leb rows0)
    ∧ (if has_mask then ∃ mask, add_mask_paths mask rows1 = Ok rows2 else rows2 = rows1)
    ∧ samples = prod_map id (to_sample path_str has_depth has_mask)
                  <$> List.filter (λ s, is_image_row s.2) (zip (seq 0 (length rows2)) rows2).
Proof.
  intros Hall has_depth has_mask. unfold Folder3D.all_samples in Hall.
  apply bind_Ok in Hall as ([dirs rows] & Htable & Hall).
  apply labelled_table_Ok in Htable as (listing & rows0 & Hdirs & Hlist & Hframe & ->).
  pose proof (resolve_dirs_Ok _ _ _ _ _ _ _ _ _ Hdirs) as (_ & Ha & _ & Hm & Hd).
  apply bind_Ok in Hall as (rows1 & Hdepth & Hall).
  apply bind_Ok in Hall as (rows2 & Hmask & [= <-]).
  unfold depth_stage in Hdepth. unfold mask_stage in Hmask.
  rewrite Hd in Hdepth. rewrite Hd, Hm, Ha. fold has_depth has_mask. fold has_depth in Hdepth.
  exists dirs, listing, rows0, rows1, rows2. split_and!; [done | done | done | | | done].
  - destruct has_depth; [done | by injection Hdepth as <-].
  - unfold has_mask. rewrite <- Hm, <- Ha.
    destruct (d_mask dirs) as [mask|], (d_abnormal dirs) as [abnormal|];
      simpl; first [by exists mask | by injection Hmask as <-].
Qed.

(** What a successful run of lines 71-176 has established about the
    assembled table [rows], of which the returned rows are the image rows. *)
Lemma all_samples_Ok (normal_dir : path_arg Path)
    (root abnormal_dir normal_test_dir mask_dir normal_depth_dir abnormal_depth_dir
       normal_test_depth_dir : option (path_arg Path))
    (extensions : option (list string)) (samples : list (nat * sample)) :
  all_samples normal_dir root abnormal_dir normal_test_dir mask_dir normal_depth_dir
    abnormal_depth_dir normal_test_depth_dir extensions = Ok samples →
  let has_depth := path_arg_truthy normal_depth_dir in
  let has_mask := path_arg_truthy mask_dir && path_arg_truthy abnormal_dir in
  ∃ rows : list row,
    samples = prod_map id (to_sample path_str has_depth has_mask)
                <$> List.filter (λ s, is_image_row s.2) (zip (seq 0 (length rows)) rows)
    ∧ Forall indexed rows
    ∧ (has_depth = true → Forall (λ r, depth_path_exists path_exists r = true) rows)
    ∧ (has_mask = true →
       Forall (λ r, mask_path_exists path_exists path_of_str (mask_path_str path_str r) = true)
         rows).
Proof.
  intros Hall has_depth has_mask.
  apply all_samples_stages in Hall
    as (dirs & listing & rows0 & rows1 & rows2 & _ & _ & Hframe%DataFrame_unindexed
        & Hdepth & Hmask & ->).
  fold has_depth in Hdepth. fold has_mask in Hmask.
  assert (Hindexed0 : Forall indexed (set_label_index <$> sort_values path_leb rows0)).
  { apply Forall_fmap. eapply Forall_impl; [by apply sort_values_Forall|].
    intros r Hr. by apply set_label_index_indexed. }
  assert (Hindexed1 : Forall indexed rows1).
  { destruct has_depth; [|by subst rows1].
    by eapply (add_depth_paths_Forall indexed). }
  assert (Hexists1 : has_depth = true →
                     Forall (λ r, depth_path_exists path_exists r = true) rows1).
  { intros Heq. rewrite Heq in Hdepth. by eapply add_depth_paths_exist. }
  exists rows2. split; [done|].
  destruct has_mask.
  - destruct Hmask as [m Hadd]. split_and!.
    + by eapply (add_mask_paths_Forall indexed).
    + intros Heq.
      by eapply (add_mask_paths_Forall (λ r, depth_path_exists path_exists r = true));
        [|apply Hexists1|].
    + intros _. by eapply add_mask_paths_exist.
  - subst rows2. split_and!; [done | done | discriminate].
Qed.

Lemma elem_of_image_rows (has_depth has_mask : bool) (rows : list row)
    (i : nat) (s : sample) :
  (i, s) ∈ prod_map id (to_sample path_str has_depth has_mask)
             <$> List.filter (λ s, is_image_row s.2) (zip (seq 0 (length rows)) rows) →
  ∃ r, r ∈ rows ∧ is_image_row r = true ∧ s = to_sample path_str has_depth has_mask r.
Proof.
  intros ([j r] & [= -> ->] & Hin)%list_elem_of_fmap.
  apply list_elem_of_In, filter_In in Hin as [Hin Himage].
  exists r. split_and!; [|done..].
  apply list_elem_of_In in Hin. by apply elem_of_zip_r in Hin.
Qed.

Lemma elem_of_select_split (wanted : option split_arg) (samples : list (nat * sample))
    (i : nat) (s : sample) :
  (i, s) ∈ select_split wanted samples → ∃ j, (j, s) ∈ samples.
Proof.
  unfold select_split. destruct wanted as [wanted|]; [|by exists i].
  destruct (split_arg_truthy (Some wanted)); [|by exists i].
  intros Hin%elem_of_zip_r.
  apply list_elem_of_fmap in Hin as ([j s'] & -> & Hin).
  apply list_elem_of_In, filter_In in Hin as [Hin _].
  exists j. by apply list_elem_of_In.
Qed.

(** Every returned row is the returned form of an image row of the
    assembled table. *)
Lemma make_folder3d_dataset_rows (normal_dir : path_arg Path)
    (root abnormal_dir normal_test_dir mask_dir normal_depth_dir abnormal_depth_dir
       normal_test_depth_dir : option (path_arg Path))
    (split : option split_arg) (extensions : option (list string))
    (samples : list (nat * sample)) (i : nat) (s : sample) :
  make_folder3d_dataset normal_dir root abnormal_dir normal_test_dir mask_dir normal_depth_dir
    abnormal_depth_dir normal_test_depth_dir split extensions = Ok samples →
  (i, s) ∈ samples →
  let has_depth := path_arg_truthy normal_depth_dir in
  let has_mask := path_arg_truthy mask_dir && path_arg_truthy abnormal_dir in
  ∃ r : row,
    s = to_sample path_str has_depth has_mask r
    ∧ is_image_row r = true
    ∧ indexed r
    ∧ (has_depth = true → depth_path_exists path_exists r = true)
    ∧ (has_mask = true →
       mask_path_exists path_exists path_of_str (mask_path_str path_str r) = true).
Proof.
  intros Hmake Hin has_depth has_mask. unfold Folder3D.make_folder3d_dataset in Hmake.
  apply bind_Ok in Hmake as (full & Hall & [= <-]).
  apply elem_of_select_split in Hin as [j Hin].
  apply all_samples_Ok in Hall as (rows & -> & Hindexed & Hdepth & Hmask).
  apply elem_of_image_rows in Hin as (r & Hr & Himage & ->).
  exists r. split_and!; [done | done | | |].
  - by eapply Forall_forall in Hindexed.
  - intros Heq. specialize (Hdepth Heq). by eapply Forall_forall in Hdepth.
  - intros Heq. specialize (Hmask Heq). by eapply Forall_forall in Hmask.
Qed.

(** C5. Every row of the returned table is labelled normal, abnormal or
    normal_test (the depth and mask rows are gone), with label index
    [LabelName.NORMAL] (0) for normal and normal_test and
    [LabelName.ABNORMAL] (1) for abnormal. *)
Theorem make_folder3d_dataset_labels (normal_dir : path_arg Path)
    (root abnormal_dir normal_test_dir mask_dir normal_depth_dir abnormal_depth_dir
       normal_test_depth_dir : option (path_arg Path))
    (split : option split_arg) (extensions : option (list string))
    (samples : list (nat * sample)) (i : nat) (s : sample) :
  make_folder3d_dataset normal_dir root abnormal_dir normal_test_dir mask_dir normal_depth_dir
    abnormal_depth_dir normal_test_depth_dir split extensions = Ok samples →
  (i, s) ∈ samples →
  label s ∈ [DirType.NORMAL; DirType.ABNORMAL; DirType.NORMAL_TEST]
  ∧ (label s = DirType.NORMAL ∨ label s = DirType.NORMAL_TEST →
     label_index s = Some LabelName.NORMAL ∧ LabelName.value LabelName.NORMAL = 0%Z)
  ∧ (label s = DirType.ABNORMAL →
     label_index s = Some LabelName.ABNORMAL ∧ LabelName.value LabelName.ABNORMAL = 1%Z).
Proof.
  intros Hmake Hin.
  destruct (make_folder3d_dataset_rows _ _ _ _ _ _ _ _ _ _ _ _ _ Hmake Hin)
    as (r & -> & Himage & Hindexed & _).
  unfold to_sample, indexed in *. simpl. rewrite Hindexed.
  unfold is_image_row, has_label in Himage.
  destruct (r_label r); simpl in Himage; try discriminate;
    (split_and!;
     [ rewrite !elem_of_cons; auto
     | intros [?|?]; done
     | intros ?; done ]).
Qed.
Lemma filter_snd {A B : Type} (p : B → bool) (xs : list (A * B)) :
  (List.filter (λ x, p x.2) xs).*2 = List.filter p xs.*2.
Proof.
  induction xs as [|[a b] xs IH]; [done|].
  cbn [List.filter fmap list_fmap snd]. destruct (p b); cbn [fmap list_fmap snd];
    [f_equal|]; exact IH.
Qed.

(** C6. Rows labelled normal are in the TRAIN split, rows labelled
    abnormal or normal_test in the TEST split.  When the [split] argument is
    true (neither [None] nor the empty string), the call returns, for
    whatever table the call without [split] returns, exactly its rows whose
    split equals the argument, in the same order and indexed from 0, and it
    raises whatever that call raises.  When [split] is [None] or the empty
    string the call is the call without [split]. *)
Theorem make_folder3d_dataset_split (normal_dir : path_arg Path)
    (root abnormal_dir normal_test_dir mask_dir normal_depth_dir abnormal_depth_dir
       normal_test_depth_dir : option (path_arg Path))
    (extensions : option (list string)) :
  let make := λ split,
    make_folder3d_dataset normal_dir root abnormal_dir normal_test_dir mask_dir
      normal_depth_dir abnormal_depth_dir normal_test_depth_dir split extensions in
  (∀ split samples i s,
     make split = Ok samples → (i, s) ∈ samples →
     (label s = DirType.NORMAL → Folder3D.split s = Some Split.TRAIN)
     ∧ (label s = DirType.ABNORMAL ∨ label s = DirType.NORMAL_TEST →
        Folder3D.split s = Some Split.TEST))
  ∧ (∀ split full,
       split_arg_truthy (Some split) = true →
       make None = Ok full →
       ∃ samples,
         make (Some split) = Ok samples
         ∧ samples.*2 = List.filter (λ s, split_eqb (Folder3D.split s) split) full.*2
         ∧ samples.*1 = seq 0 (length samples))
  ∧ (∀ split e, make None = Raise e → make split = Raise e)
  ∧ (∀ split, split_arg_truthy split = false → make split = make None).
Proof.
  intros make. split_and!.
  - intros split samples i s Hmake Hin.
    destruct (make_folder3d_dataset_rows _ _ _ _ _ _ _ _ _ _ _ _ _ Hmake Hin)
      as (r & -> & _).
    unfold to_sample, split_of_label. simpl.
    split; [by intros -> | by intros [-> | ->]].
  - intros split full Htruthy Hmake.
    unfold make, Folder3D.make_folder3d_dataset in *.
    apply bind_Ok in Hmake as (full' & Hall & [= <-]).
    rewrite Hall. exists (select_split (Some split) full'). split; [reflexivity|].
    change (select_split None full') with full'.
    unfold select_split. rewrite Htruthy.
    split.
    + rewrite snd_zip by (by rewrite length_seq, length_fmap).
      apply (filter_snd (λ s, split_eqb (Folder3D.split s) split)).
    + rewrite fst_zip by (by rewrite length_seq, length_fmap).
      by rewrite length_zip, length_seq, length_fmap, Nat.min_id.
  - intros split e Hmake. unfold make, Folder3D.make_folder3d_dataset in *.
    apply bind_Raise in Hmake as [Hall | (full & _ & [=])]. by rewrite Hall.
  - intros split Hfalsy. unfold make, Folder3D.make_folder3d_dataset.
    destruct (all_samples _ _ _ _ _ _ _ _ _) as [full|e]; [|done]. simpl.
    unfold select_split. destruct split as [split|]; [|done]. by rewrite Hfalsy.
Qed.

Lemma all_rows_true (check : row → result bool) (rows : list row) :
  Forall (λ r, check r = Ok true) rows → all_rows check rows = Ok true.
Proof.
  induction 1 as [|r rows Hr _ IH]; [done|]. simpl. rewrite Hr. simpl. by rewrite IH.
Qed.

Lemma stems_match_true (anomalous : list row) :
  anomalous ≠ [] →
  Forall (λ r, ∃ depth, r_depth_path r = Some depth
                        ∧ stem_in (r_image_path r) depth = true) anomalous →
  stems_match stem_in anomalous = Ok true.
Proof.
  intros Hne Hstems. unfold stems_match. destruct anomalous as [|r rows]; [done|].
  apply all_rows_true. eapply Forall_impl; [exact Hstems|].
  intros a (depth & Hdepth & Hstem). unfold depth_stem_matches. by rewrite Hdepth, Hstem.
Qed.

(** C7. The preconditions are enforced in two ways.  The directories are
    resolved first, and when [validate_and_resolve_path] refuses
    [normal_dir] the call fails with the exception of that helper, not with
    an assertion error.  When every directory given resolves and the
    resolved [normal_dir] is not a directory, the call raises the assertion
    error of line 79.  A returned table has a resolved [normal_dir] that is
    a directory; when [normal_depth_dir] was given, the depth path of every
    row is the path of an existing file (or the row has none, which reads
    "nan"); when both [mask_dir] and [abnormal_dir] were given, every
    non-empty mask path exists.  The last two are enforced by assertions of
    the call itself: when the table with its depth paths has an anomalous
    row, the stems of the anomalous rows match and an assigned depth path
    does not exist, the call raises the assertion error
    "missing depth image files"; when the table with its mask paths has a
    non-empty mask path that does not exist, it raises the assertion error
    "missing mask files, mask_dir=...". *)
Theorem make_folder3d_dataset_asserts (normal_dir : path_arg Path)
    (root abnormal_dir normal_test_dir mask_dir normal_depth_dir abnormal_depth_dir
       normal_test_depth_dir : option (path_arg Path))
    (split : option split_arg) (extensions : option (list string)) :
  let result :=
    make_folder3d_dataset normal_dir root abnormal_dir normal_test_dir mask_dir
      normal_depth_dir abnormal_depth_dir normal_test_depth_dir split extensions in
  let table :=
    labelled_table validate_and_resolve_path _prepare_files_labels is_dir path_leb
      normal_dir root abnormal_dir normal_test_dir mask_dir normal_depth_dir
      abnormal_depth_dir normal_test_depth_dir extensions in
  (∀ e, validate_and_resolve_path normal_dir root = Raise e → result = Raise e)
  ∧ (∀ dirs,
       resolve_dirs validate_and_resolve_path normal_dir root abnormal_dir normal_test_dir
         mask_dir normal_depth_dir abnormal_depth_dir normal_test_depth_dir = Ok dirs →
       is_dir (d_normal dirs) = false →
       result = Raise (AssertionError "A folder location must be provided in normal_dir."))
  ∧ (∀ samples i s,
       result = Ok samples → (i, s) ∈ samples →
       (∃ normal, validate_and_resolve_path normal_dir root = Ok normal
                  ∧ is_dir normal = true)
       ∧ (path_arg_truthy normal_depth_dir = true →
          ∃ x, depth_path s = Some x
               ∧ (x = "nan" ∨ ∃ p, x = path_str p ∧ path_exists p = true))
       ∧ (path_arg_truthy mask_dir = true → path_arg_truthy abnormal_dir = true →
          mask_path s ≠ "" → path_exists (path_of_str (mask_path s)) = true))
  ∧ (∀ dirs rows rows1 anomalous r depth,
       table = Ok (dirs, rows) →
       path_arg_truthy normal_depth_dir = true →
       assign_depth_paths setitem_mismatch (d_normal_test dirs) rows = Ok rows1 →
       anomalous ∈ rows1 → r_label_index anomalous = Some LabelName.ABNORMAL →
       (∀ a, a ∈ rows1 → r_label_index a = Some LabelName.ABNORMAL →
             ∃ depth, r_depth_path a = Some depth
                      ∧ stem_in (r_image_path a) depth = true) →
       r ∈ rows1 → r_depth_path r = Some depth → path_exists depth = false →
       result = Raise (AssertionError "missing depth image files"))
  ∧ (∀ dirs rows rows1 rows2 mask_dir' r mask,
       table = Ok (dirs, rows) →
       depth_stage path_exists stem_in setitem_mismatch dirs rows = Ok rows1 →
       d_mask dirs = Some mask_dir' →
       path_arg_truthy abnormal_dir = true →
       assign_mask_paths setitem_mismatch rows1 = Ok rows2 →
       r ∈ rows2 → r_mask_path r = Some mask → path_str mask ≠ "" →
       path_exists (path_of_str (path_str mask)) = false →
       result = Raise (AssertionError ("missing mask files, mask_dir=" +:+ path_str mask_dir'))).
Proof.
  intros result table. split_and!.
  - intros e Hraise.
    unfold result, Folder3D.make_folder3d_dataset, Folder3D.all_samples, labelled_table,
      resolve_dirs.
    by rewrite Hraise.
  - intros dirs Hdirs Hdir.
    unfold result, Folder3D.make_folder3d_dataset, Folder3D.all_samples, labelled_table.
    rewrite Hdirs. simpl. unfold list_files. by rewrite Hdir.
  - intros samples i s Hmake Hin. split_and!.
    + unfold result, Folder3D.make_folder3d_dataset in Hmake.
      apply bind_Ok in Hmake as (full & Hall & _).
      apply all_samples_stages in Hall
        as (dirs & listing & _ & _ & _ & Hdirs & Hlist & _).
      apply resolve_dirs_Ok in Hdirs as (Hnormal & _).
      exists (d_normal dirs). split; [done|].
      unfold list_files in Hlist. by apply bind_Ok in Hlist as (? & Hdir%assert_Ok & _).
    + intros Hdepth.
      destruct (make_folder3d_dataset_rows _ _ _ _ _ _ _ _ _ _ _ _ _ Hmake Hin)
        as (r & -> & _ & _ & Hexists & _).
      specialize (Hexists Hdepth). unfold to_sample. simpl. rewrite Hdepth.
      eexists. split; [reflexivity|].
      unfold depth_path_exists in Hexists.
      destruct (r_depth_path r) as [p|]; [right; by exists p | by left].
    + intros Hmask Habnormal.
      destruct (make_folder3d_dataset_rows _ _ _ _ _ _ _ _ _ _ _ _ _ Hmake Hin)
        as (r & -> & _ & _ & _ & Hexists).
      rewrite Hmask, Habnormal in Hexists. specialize (Hexists eq_refl).
      unfold to_sample. simpl. rewrite Hmask, Habnormal. simpl.
      intros Hne. unfold mask_path_exists in Hexists.
      destruct (String.eqb_spec (mask_path_str path_str r) ""); [done|].
      exact Hexists.
  - intros dirs rows rows1 anomalous r depth Htable Hdepth Hassign Hanomalous Hindex
      Hstems Hin Hr Hmissing.
    pose proof Htable as (_ & _ & Hdirs & _)%labelled_table_Ok.
    apply resolve_dirs_Ok in Hdirs as (_ & _ & _ & _ & Hd).
    unfold result, Folder3D.make_folder3d_dataset, Folder3D.all_samples.
    fold table. rewrite Htable. simpl.
    unfold depth_stage, Folder3D.add_depth_paths. rewrite Hd, Hdepth, Hassign. simpl.
    unfold check_depth_paths. rewrite stems_match_true; simpl.
    + rewrite (forallb_false_of_elem _ rows1 r Hin); [done|].
      unfold depth_path_exists. by rewrite Hr.
    + intros Hnil.
      assert (Hfiltered : anomalous ∈ List.filter
                (λ r, bool_decide (r_label_index r = Some LabelName.ABNORMAL)) rows1).
      { apply list_elem_of_In, filter_In. split; [by apply list_elem_of_In|].
        by apply bool_decide_eq_true. }
      rewrite Hnil in Hfiltered. by apply elem_of_nil in Hfiltered.
    + apply Forall_forall. intros a [Ha Hindex']%list_elem_of_In%filter_In.
      apply Hstems; [by apply list_elem_of_In | by apply bool_decide_eq_true in Hindex'].
  - intros dirs rows rows1 rows2 mask_dir' r mask Htable Hstage Hmask Habnormal Hassign
      Hin Hr Hne Hmissing.
    pose proof Htable as (_ & _ & Hdirs & _)%labelled_table_Ok.
    apply resolve_dirs_Ok in Hdirs as (_ & Ha & _).
    unfold result, Folder3D.make_folder3d_dataset, Folder3D.all_samples.
    fold table. rewrite Htable. simpl. rewrite Hstage. simpl.
    unfold mask_stage. rewrite Hmask.
    destruct (d_abnormal dirs) as [abnormal|];
      [|rewrite Habnormal in Ha; by apply bool_decide_eq_true, is_Some_None in Ha].
    unfold Folder3D.add_mask_paths. rewrite Hassign. simpl.
    unfold check_mask_paths.
    rewrite (forallb_false_of_elem _ rows2 r Hin); [done|].
    unfold mask_path_exists, mask_path_str. rewrite Hr.
    destruct (String.eqb_spec (path_str mask) ""); [done|]. exact Hmissing.
Qed.
End folder3d_facts.

Lemma load_tree_full :
  Examples.load_tree None
  = Ok [(0, Examples.abnormal_000); (6, Examples.normal_000); (7, Examples.normal_001);
        (8, Examples.normal_test_000)]%nat.
Proof. vm_compute. reflexivity. Qed.

Lemma make_folder3d_dataset_labels_witness :
  Folder3D.label Examples.abnormal_000
    ∈ [DirType.NORMAL; DirType.ABNORMAL; DirType.NORMAL_TEST]
  ∧ (Folder3D.label Examples.abnormal_000 = DirType.NORMAL
     ∨ Folder3D.label Examples.abnormal_000 = DirType.NORMAL_TEST →
     Folder3D.label_index Examples.abnormal_000 = Some LabelName.NORMAL
     ∧ LabelName.value LabelName.NORMAL = 0%Z)
  ∧ (Folder3D.label Examples.abnormal_000 = DirType.ABNORMAL →
     Folder3D.label_index Examples.abnormal_000 = Some LabelName.ABNORMAL
     ∧ LabelName.value LabelName.ABNORMAL = 1%Z).
Proof.
  eapply (make_folder3d_dataset_labels _ _ _ _ _ _ _ _ _ _ _ _ _ _ _ _ _ _ _ _ 0%nat).
  - exact load_tree_full.
  - left.
Defined.

Lemma make_folder3d_dataset_split_witness :
  (∃ samples,
     Examples.load_tree (Some (Folder3D.SplitStr "test")) = Ok samples
     ∧ samples.*2 = [Examples.abnormal_000; Examples.normal_test_000]
     ∧ samples.*1 = seq 0 (length samples))
  ∧ (Folder3D.label Examples.normal_000 = DirType.NORMAL →
     Folder3D.split Examples.normal_000 = Some Split.TRAIN)
  ∧ Examples.load_tree (Some (Folder3D.SplitStr "")) = Examples.load_tree None.
Proof.
  pose proof (make_folder3d_dataset_split (Examples.validate_and_resolve_path Examples.tree)
    (Examples._prepare_files_labels Examples.tree) (Examples.is_dir Examples.tree)
    (Examples.path_exists Examples.tree) String.leb id id Examples.stem_in
    Examples.setitem_mismatch
    (Folder3D.Str "normal") (Some (Folder3D.Str "data"))
    (Some (Folder3D.Str "abnormal")) (Some (Folder3D.Str "normal_test"))
    (Some (Folder3D.Str "mask")) (Some (Folder3D.Str "depth/normal"))
    (Some (Folder3D.Str "depth/abnormal")) (Some (Folder3D.Str "depth/normal_test"))
    None) as (Hlabel & Hsplit & _ & Hfalsy).
  split_and!.
  - destruct (Hsplit (Folder3D.SplitStr "test") _ eq_refl load_tree_full)
      as (samples & Hmake & Hrows & Hindex).
    exists samples. split_and!; [exact Hmake | exact Hrows | exact Hindex].
  - apply (Hlabel None _ 6%nat Examples.normal_000 load_tree_full).
    right. left.
  - apply (Hfalsy (Some (Folder3D.SplitStr ""))). reflexivity.
Defined.

(** C6 as stated covers every [split] other than [None].  With the empty
    string the guard [if split:] is false, and the whole table comes back:
    three rows, none of which has a split equal to the argument. *)
Lemma make_folder3d_dataset_split_counterexample :
  ∃ samples,
    Examples.load_images (Some (Folder3D.SplitStr "")) = Ok samples
    ∧ length samples = 3%nat
    ∧ Forall (λ s, Folder3D.split_eqb (Folder3D.split s.2) (Folder3D.SplitStr "") = false)
        samples.
Proof.
  eexists. split; [vm_compute; reflexivity|].
  split; [reflexivity|]. repeat constructor.
Qed.

(** Over the tree: a [normal_dir] that is a file fails the assertion of
    line 79; with the depth map of normal/001 a dangling link the depth
    assertion fails, with the mask of abnormal/000 a dangling link the mask
    assertion; the table of the intact tree has existing depth maps and
    masks. *)
Lemma make_folder3d_dataset_asserts_witness :
  Examples.make_folder3d_dataset Examples.tree (Folder3D.Str "normal/000.png")
    (Some (Folder3D.Str "data")) None None None None None None None None
  = Raise (AssertionError "A folder location must be provided in normal_dir.")
  ∧ Examples.make_folder3d_dataset_but ["data/depth/normal/001.tiff"] Examples.tree
      (Folder3D.Str "normal") (Some (Folder3D.Str "data"))
      (Some (Folder3D.Str "abnormal")) (Some (Folder3D.Str "normal_test"))
      (Some (Folder3D.Str "mask")) (Some (Folder3D.Str "depth/normal"))
      (Some (Folder3D.Str "depth/abnormal")) (Some (Folder3D.Str "depth/normal_test"))
      None None
    = Raise (AssertionError "missing depth image files")
  ∧ Examples.make_folder3d_dataset_but ["data/mask/000.png"] Examples.tree
      (Folder3D.Str "normal") (Some (Folder3D.Str "data"))
      (Some (Folder3D.Str "abnormal")) (Some (Folder3D.Str "normal_test"))
      (Some (Folder3D.Str "mask")) (Some (Folder3D.Str "depth/normal"))
      (Some (Folder3D.Str "depth/abnormal")) (Some (Folder3D.Str "depth/normal_test"))
      None None
    = Raise (AssertionError "missing mask files, mask_dir=data/mask")
  ∧ (∃ x, Folder3D.depth_path Examples.abnormal_000 = Some x
          ∧ (x = "nan" ∨ ∃ p, x = id p ∧ Examples.path_exists Examples.tree p = true))
  ∧ Examples.path_exists Examples.tree (id (Folder3D.mask_path Examples.abnormal_000)) = true.
Proof.
  split_and!.
  - eapply (proj1 (proj2 (make_folder3d_dataset_asserts
        (Examples.validate_and_resolve_path Examples.tree)
        (Examples._prepare_files_labels Examples.tree) (Examples.is_dir Examples.tree)
        (Examples.path_exists Examples.tree) String.leb id id Examples.stem_in
        Examples.setitem_mismatch
        (Folder3D.Str "normal/000.png") (Some (Folder3D.Str "data"))
        None None None None None None None None))).
    + vm_compute. reflexivity.
    + reflexivity.
  - pose proof (make_folder3d_dataset_asserts
        (Examples.validate_and_resolve_path Examples.tree)
        (Examples._prepare_files_labels Examples.tree) (Examples.is_dir Examples.tree)
        (Examples.path_exists_but ["data/depth/normal/001.tiff"] Examples.tree)
        String.leb id id Examples.stem_in Examples.setitem_mismatch
        (Folder3D.Str "normal") (Some (Folder3D.Str "data"))
        (Some (Folder3D.Str "abnormal")) (Some (Folder3D.Str "normal_test"))
        (Some (Folder3D.Str "mask")) (Some (Folder3D.Str "depth/normal"))
        (Some (Folder3D.Str "depth/abnormal")) (Some (Folder3D.Str "depth/normal_test"))
        None None) as (_ & _ & _ & Hdepth & _).
    eapply (Hdepth _ _ _
              (Folder3D.mkRow "data/abnormal/000.png" DirType.ABNORMAL
                 (Some LabelName.ABNORMAL) (Some "data/depth/abnormal/000.tiff") None)
              (Folder3D.mkRow "data/normal/001.png" DirType.NORMAL
                 (Some LabelName.NORMAL) (Some "data/depth/normal/001.tiff") None)
              "data/depth/normal/001.tiff").
    + vm_compute. reflexivity.
    + reflexivity.
    + vm_compute. reflexivity.
    + left.
    + reflexivity.
    + intros a Hin Hindex.
      repeat (apply elem_of_cons in Hin as [-> | Hin]; [try discriminate Hindex|]).
      * eexists. split; reflexivity.
      * by apply elem_of_nil in Hin.
    + repeat constructor.
    + reflexivity.
    + reflexivity.
  - pose proof (make_folder3d_dataset_asserts
        (Examples.validate_and_resolve_path Examples.tree)
        (Examples._prepare_files_labels Examples.tree) (Examples.is_dir Examples.tree)
        (Examples.path_exists_but ["data/mask/000.png"] Examples.tree)
        String.leb id id Examples.stem_in Examples.setitem_mismatch
        (Folder3D.Str "normal") (Some (Folder3D.Str "data"))
        (Some (Folder3D.Str "abnormal")) (Some (Folder3D.Str "normal_test"))
        (Some (Folder3D.Str "mask")) (Some (Folder3D.Str "depth/normal"))
        (Some (Folder3D.Str "depth/abnormal")) (Some (Folder3D.Str "depth/normal_test"))
        None None) as (_ & _ & _ & _ & Hmask).
    eapply (Hmask _ _ _ _ "data/mask"
              (Folder3D.mkRow "data/abnormal/000.png" DirType.ABNORMAL
                 (Some LabelName.ABNORMAL) (Some "data/depth/abnormal/000.tiff")
                 (Some "data/mask/000.png"))
              "data/mask/000.png").
    + vm_compute. reflexivity.
    + vm_compute. reflexivity.
    + reflexivity.
    + reflexivity.
    + vm_compute. reflexivity.
    + left.
    + reflexivity.
    + discriminate.
    + reflexivity.
  - pose proof (make_folder3d_dataset_asserts
      (Examples.validate_and_resolve_path Examples.tree)
      (Examples._prepare_files_labels Examples.tree) (Examples.is_dir Examples.tree)
      (Examples.path_exists Examples.tree) String.leb id id Examples.stem_in
      Examples.setitem_mismatch
      (Folder3D.Str "normal") (Some (Folder3D.Str "data"))
      (Some (Folder3D.Str "abnormal")) (Some (Folder3D.Str "normal_test"))
      (Some (Folder3D.Str "mask")) (Some (Folder3D.Str "depth/normal"))
      (Some (Folder3D.Str "depth/abnormal")) (Some (Folder3D.Str "depth/normal_test"))
      None None) as (_ & _ & Hok & _).
    destruct (Hok _ 0%nat Examples.abnormal_000 load_tree_full) as (_ & Hdepth & _);
      [left|].
    by apply Hdepth.
  - pose proof (make_folder3d_dataset_asserts
      (Examples.validate_and_resolve_path Examples.tree)
      (Examples._prepare_files_labels Examples.tree) (Examples.is_dir Examples.tree)
      (Examples.path_exists Examples.tree) String.leb id id Examples.stem_in
      Examples.setitem_mismatch
      (Folder3D.Str "normal") (Some (Folder3D.Str "data"))
      (Some (Folder3D.Str "abnormal")) (Some (Folder3D.Str "normal_test"))
      (Some (Folder3D.Str "mask")) (Some (Folder3D.Str "depth/normal"))
      (Some (Folder3D.Str "depth/abnormal")) (Some (Folder3D.Str "depth/normal_test"))
      None None) as (_ & _ & Hok & _).
    destruct (Hok _ 0%nat Examples.abnormal_000 load_tree_full) as (_ & _ & Hmask);
      [left|].
    by apply Hmask.
Defined.

(** C7 as stated promises an assertion error whenever [normal_dir] is not
    an existing directory.  A [normal_dir] that does not exist is refused
    by [validate_and_resolve_path] at line 71, before the assertion of
    line 79 is reached, and the call fails with that helper's
    [FileNotFoundError]. *)
Lemma make_folder3d_dataset_asserts_counterexample :
  Examples.path_exists Examples.tree "data/nowhere" = false
  ∧ Examples.make_folder3d_dataset Examples.tree (Folder3D.Str "nowhere")
      (Some (Folder3D.Str "data")) None None None None None None None None
    = Raise (FileNotFoundError "Folder does not exist: data/nowhere").
Proof. split; reflexivity. Qed.

(** * Further properties of the inference pipeline *)

Section predict_more_facts.
Import BaseInferencer.
Context {Self ndarray Tensor Any : Type}.
Context `{!Inferencer Self ndarray Tensor Any}.
Variable read_image : string → ndarray.
Variable shape : ndarray → list nat.
Variable of_shape : list nat → Any.

Lemma getitem_Raise {V : Type} (d : gmap string V) (key : string) (e : exn) :
  getitem d key = Raise e ↔ d !! key = None ∧ e = KeyError key.
Proof.
  unfold getitem. destruct (d !! key); split; try done.
  - by intros [? _].
  - by intros [= <-].
  - by intros [_ ->].
Qed.

(** X1. [predict] reads the six entries of the post-processing output in
    the order pred_score, pred_label, anomaly_map, pred_mask, pred_boxes,
    box_labels: when an entry is missing from the output and every entry
    before it in that order is there, [predict] raises the [KeyError] of
    that entry, whatever else is missing after it. *)
Theorem predict_raises_first_missing (self : Self) (image : image_arg ndarray)
    (metadata : option (gmap string Any)) (before : list string) (key : string)
    (after : list string) :
  let image_arr := image_array read_image image in
  let metadata' :=
    <["image_shape" := of_shape (take 2 (shape image_arr))]> (resolve_metadata self metadata) in
  let output := post_process self (forward self (pre_process self image_arr)) metadata' in
  ["pred_score"; "pred_label"; "anomaly_map"; "pred_mask"; "pred_boxes"; "box_labels"]
  = before ++ key :: after →
  (∀ k, k ∈ before → is_Some (output !! k)) →
  output !! key = None →
  predict read_image shape of_shape self image metadata = Raise (KeyError key).
Proof.
  intros image_arr metadata' output Hentries Hbefore Hkey. unfold predict.
  fold image_arr. fold metadata'. fold output.
  assert (Hget : ∀ k, k ∈ before → ∃ v, getitem output k = Ok v).
  { intros k [v Hv]%Hbefore. exists v. by apply getitem_Ok. }
  assert (Hraise : getitem output key = Raise (KeyError key))
    by (by apply getitem_Raise).
  clear Hbefore Hkey.
  repeat (destruct before as [|k before]; simpl in Hentries;
          [ injection Hentries as <- _; by rewrite Hraise
          | injection Hentries as Hk Hentries;
            destruct (Hget k) as [? Hv]; [left|]; rewrite <- Hk in Hv; rewrite Hv; simpl;
            assert (Hget' : ∀ k', k' ∈ before → ∃ v, getitem output k' = Ok v)
              by (intros k' Hin; apply Hget; by right);
            clear Hget Hk Hv; clear k; rename Hget' into Hget ]).
  by destruct before.
Qed.

(** X2. An "image_shape" entry supplied by the caller is overwritten: the
    outcome of [predict] does not depend on it. *)
Theorem predict_image_shape_overwritten (self : Self) (image : image_arg ndarray)
    (metadata : gmap string Any) (image_shape : Any) :
  predict read_image shape of_shape self image (Some (<["image_shape" := image_shape]> metadata))
  = predict read_image shape of_shape self image (Some metadata).
Proof. unfold predict, resolve_metadata. by rewrite insert_insert_eq. Qed.
End predict_more_facts.

Lemma predict_raises_first_missing_witness :
  BaseInferencer.predict (Inferencer0 := Examples.incomplete_inferencer)
    Examples.read_image Examples.shape Examples.AShape
    tt (BaseInferencer.ImagePath "good.png") None
  = Raise (KeyError "anomaly_map").
Proof.
  eapply (predict_raises_first_missing (Inferencer0 := Examples.incomplete_inferencer)
            _ _ _ _ _ _
            ["pred_score"; "pred_label"] "anomaly_map"
            ["pred_mask"; "pred_boxes"; "box_labels"]).
  - reflexivity.
  - intros k Hin.
    apply elem_of_cons in Hin as [->|Hin]; [by eexists|].
    apply list_elem_of_singleton in Hin as ->. by eexists.
  - reflexivity.
Defined.

Section normalize_more_facts.
Import BaseInferencer.
Context {Any Float : Type}.
Variable normalize_min_max : Any → Any → Any → Any → Any.
Variable float : Any → Float.
Variable OmegaConf_load : string → result (gmap string Any).

(** X3. With both "min" and "max" in the metadata, a missing threshold
    makes [_normalize] raise, and the pixel threshold is read first: with
    an anomaly map and no "pixel_threshold" it raises that [KeyError],
    whether or not "image_threshold" is there; without a map the pixel
    threshold is not read, and a missing "image_threshold" raises its
    [KeyError], whether or not "pixel_threshold" is there. *)
Theorem _normalize_raises (pred_scores : Any) (metadata : gmap string Any)
    (anomaly_maps : option Any) :
  is_Some (metadata !! "min") → is_Some (metadata !! "max") →
  (is_Some anomaly_maps → metadata !! "pixel_threshold" = None →
   _normalize normalize_min_max float pred_scores metadata anomaly_maps
   = Raise (KeyError "pixel_threshold"))
  ∧ (anomaly_maps = None →
     metadata !! "image_threshold" = None →
     _normalize normalize_min_max float pred_scores metadata anomaly_maps
     = Raise (KeyError "image_threshold")).
Proof.
  intros [min_val Hmin] [max_val Hmax].
  assert (Hc : contains metadata "min" && contains metadata "max" = true).
  { apply andb_true_iff; split; apply contains_true; eauto. }
  unfold _normalize, getitem. rewrite Hc, Hmin, Hmax. split.
  - intros [maps ->] Hpix. by rewrite Hpix.
  - intros -> Hthr. by rewrite Hthr.
Qed.

(** X4. Without a metadata file there is nothing to normalise with:
    for the dictionary [_load_metadata(None)] returns, also after [predict]
    has stored the image shape in it, [_normalize] hands back the anomaly
    map unchanged and the score as a float. *)
Theorem _normalize_without_metadata_file (metadata : gmap string Any)
    (pred_scores image_shape : Any) (anomaly_maps : option Any) :
  _load_metadata OmegaConf_load None = Ok metadata →
  _normalize normalize_min_max float pred_scores metadata anomaly_maps
  = Ok (anomaly_maps, float pred_scores)
  ∧ _normalize normalize_min_max float pred_scores
      (<["image_shape" := image_shape]> metadata) anomaly_maps
    = Ok (anomaly_maps, float pred_scores).
Proof.
  intros [= <-]. split; unfold _normalize.
  - by replace (contains (∅ : gmap string Any) "min") with false
      by (symmetry; by apply contains_false).
  - replace (contains (<["image_shape" := image_shape]> (∅ : gmap string Any)) "min")
      with false; [done|].
    symmetry. apply contains_false. by rewrite lookup_insert_ne.
Qed.
End normalize_more_facts.

Lemma _normalize_raises_witness :
  BaseInferencer._normalize Examples.normalize_min_max id 75%Z
    {[ "min" := 0%Z; "max" := 200%Z ]} (Some 20%Z) = Raise (KeyError "pixel_threshold")
  ∧ BaseInferencer._normalize Examples.normalize_min_max id 75%Z
      {[ "min" := 0%Z; "max" := 200%Z; "pixel_threshold" := 40%Z ]} None
    = Raise (KeyError "image_threshold").
Proof.
  split.
  - apply (_normalize_raises Examples.normalize_min_max id 75%Z _ _);
      [by eexists | by eexists | by eexists | reflexivity].
  - apply (_normalize_raises Examples.normalize_min_max id 75%Z _ _);
      [by eexists | by eexists | reflexivity | reflexivity].
Defined.

Lemma _normalize_without_metadata_file_witness :
  BaseInferencer._normalize Examples.normalize_min_max id 75%Z
    {[ "image_shape" := 2%Z ]} (Some 20%Z) = Ok (Some 20%Z, 75%Z).
Proof.
  apply (_normalize_without_metadata_file Examples.normalize_min_max id
           (λ _, Raise (ValueError "no file")) ∅ 75%Z 2%Z (Some 20%Z)).
  reflexivity.
Defined.

(** * Further properties of collation *)

Section collate_more_facts.
Import DataModule.
Context {Atom : Type}.
Local Abbreviation value := (pyval Atom).
Local Abbreviation dict := (gmap string value).
Local Abbreviation heap := (gmap loc dict).
Variable default_collate : heap → list value → value.

Lemma state_bind_Ok_inv {A B : Type} (m : state heap A) (f : A → state heap B)
    (h h' : heap) (b : B) :
  (m ≫= f) h = (Ok b, h') → ∃ a h1, m h = (Ok a, h1) ∧ f a h1 = (Ok b, h').
Proof.
  unfold mbind, state_bind. destruct (m h) as [[a|e] h1]; [eauto | done].
Qed.

Lemma mapM_app_Raise {A B : Type} (f : A → state heap B) (xs : list A) (y : A)
    (rest : list A) (ys : list B) (h h' h'' : heap) (e : exn) :
  mapM f xs h = (Ok ys, h') →
  f y h' = (Raise e, h'') →
  mapM f (xs ++ y :: rest) h = (Raise e, h'').
Proof.
  revert ys h. induction xs as [|x xs IH]; intros ys h Hxs Hy.
  - injection Hxs as _ <-. simpl. by erewrite state_bind_Raise.
  - simpl in Hxs. apply state_bind_Ok_inv in Hxs as (b & h1 & Hx & Hxs).
    apply state_bind_Ok_inv in Hxs as (bs & h2 & Hxs & [= _ <-]).
    simpl. erewrite state_bind_Ok; [|exact Hx].
    erewrite state_bind_Raise; [done|]. by eapply IH.
Qed.

Lemma keys_dict (d0 : dict) (k : string) :
  k ∈ (map_to_list d0).*1 ↔ is_Some (d0 !! k).
Proof.
  rewrite list_elem_of_fmap. split.
  - intros ([k' v] & -> & Hin%elem_of_map_to_list). by eexists.
  - intros [v Hv]. exists (k, v). split; [done|]. by apply elem_of_map_to_list.
Qed.

(** X5. When the first element is a dictionary without "boxes", nothing is
    popped, whatever the later items hold: for a batch of dictionaries that
    have every key of the first one, [collate_fn] returns a dictionary with
    exactly the keys of the first element, each mapped to [default_collate]
    of that key's values across the batch, and the batch is left as it
    was. *)
Theorem collate_fn_no_boxes (l0 : loc) (d0 : dict) (rest : list (loc * dict)) (h : heap) :
  let items := (l0, d0) :: rest in
  (∀ l d, (l, d) ∈ items →
     h !! l = Some d ∧ ∀ k, is_Some (d0 !! k) → is_Some (d !! k)) →
  d0 !! "boxes" = None →
  ∃ out,
    collate_fn default_collate (VRef <$> items.*1) h = (Ok (OutDict out), h)
    ∧ ∀ k, out !! k
           = (λ _, default_collate h ((λ item, item.2 !!! k) <$> items)) <$> d0 !! k.
Proof.
  intros items Hitems Hnoboxes.
  assert (Hlocs : ∀ l d, (l, d) ∈ items → h !! l = Some d)
    by (intros l d Hin; by destruct (Hitems l d Hin)).
  set (g := λ key : string,
         (key, default_collate h ((λ item : loc * dict, item.2 !!! key) <$> items))).
  set (ks := (map_to_list d0).*1).
  assert (Hothers : mapM (λ key,
            vals ← mapM (λ item, subscript item key) (VRef <$> items.*1);
            h ← get_heap;
            mret (key, default_collate h vals)) ks h = (Ok (g <$> ks), h)).
  { apply mapM_pure. intros key Hin. apply keys_dict in Hin.
    erewrite state_bind_Ok.
    2:{ apply mapM_subscript; [exact Hlocs|].
        intros l d Hin'. destruct (Hitems l d Hin') as [_ Hk]. by apply Hk. }
    by erewrite state_bind_Ok. }
  exists (list_to_map (g <$> ks) ∪ ∅). split.
  - unfold collate_fn. cbn [fmap list_fmap items fst].
    erewrite state_bind_Ok;
      [|by (unfold as_dict; rewrite (Hlocs l0 d0) by left)].
    cbn beta iota.
    assert (Hc : contains d0 "boxes" = false) by (by apply contains_false).
    rewrite Hc.
    erewrite state_bind_Ok; [|reflexivity].
    erewrite state_bind_Ok.
    2:{ unfold keys. erewrite state_bind_Ok; [reflexivity|].
        unfold as_dict. by rewrite (Hlocs l0 d0) by left. }
    erewrite state_bind_Ok; [|exact Hothers]. reflexivity.
  - intros k. rewrite (right_id_L ∅ (∪)). unfold g. rewrite list_to_map_tabulate.
    destruct (d0 !! k) as [v|] eqn:Hk; simpl.
    + rewrite decide_True; [done|]. apply keys_dict. by rewrite Hk.
    + rewrite decide_False; [done|]. intros Hin. apply keys_dict in Hin as [v Hv].
      congruence.
Qed.

(** X6. A failing pop leaves the batch half changed.  When the leading
    items are distinct dictionaries with "boxes" and the next item is one
    of them again, or a dictionary without "boxes", [collate_fn] raises
    [KeyError("boxes")], and by then "boxes" has been removed from every
    leading item. *)
Theorem collate_fn_failed_pop (l0 : loc) (d0 : dict) (leading : list (loc * dict))
    (bad : loc) (rest : list value) (h : heap) :
  let items := (l0, d0) :: leading in
  NoDup items.*1 →
  (∀ l d, (l, d) ∈ items → h !! l = Some d ∧ is_Some (d !! "boxes")) →
  (bad ∈ items.*1 ∨ ∃ d, h !! bad = Some d ∧ d !! "boxes" = None) →
  ∃ h',
    collate_fn default_collate ((VRef <$> items.*1) ++ VRef bad :: rest) h
    = (Raise (KeyError "boxes"), h')
    ∧ popped items.*1 h h'.
Proof.
  intros items Hnodup Hitems Hbad.
  assert (Hlocs : ∀ l d, (l, d) ∈ items → h !! l = Some d)
    by (intros l d Hin; by destruct (Hitems l d Hin)).
  assert (Hboxes : ∀ l d, (l, d) ∈ items → is_Some (d !! "boxes"))
    by (intros l d Hin; by destruct (Hitems l d Hin)).
  destruct (mapM_pop items h Hnodup Hlocs Hboxes) as (h' & Hpop & Hh').
  exists h'. split; [|exact Hh'].
  assert (Hfail : pop (VRef bad) "boxes" h' = (Raise (KeyError "boxes"), h')).
  { unfold pop. rewrite (Hh' bad).
    destruct Hbad as [Hin | (d & Hd & Hnone)].
    - rewrite decide_True by done.
      apply list_elem_of_fmap in Hin as ([l d] & -> & Hin). simpl.
      rewrite (Hlocs l d Hin). simpl. by rewrite lookup_delete_eq.
    - rewrite Hd. destruct (decide (bad ∈ items.*1)); simpl.
      + by rewrite lookup_delete_eq.
      + by rewrite Hnone. }
  unfold collate_fn. cbn [fmap list_fmap items fst app].
  erewrite state_bind_Ok;
    [|by (unfold as_dict; rewrite (Hlocs l0 d0) by left)].
  cbn beta iota.
  assert (Hc : contains d0 "boxes" = true)
    by (apply contains_true, (Hboxes l0 d0); left).
  rewrite Hc.
  erewrite state_bind_Raise; [done|].
  erewrite state_bind_Raise; [done|].
  by apply (mapM_app_Raise (λ item, pop item "boxes") (VRef <$> items.*1) (VRef bad) rest
              _ h h' h' _ Hpop).
Qed.
End collate_more_facts.

Lemma collate_fn_no_boxes_witness :
  let d0 : gmap string (DataModule.pyval Z) := {[ "image" := DataModule.VAtom 1%Z ]} in
  let d1 : gmap string (DataModule.pyval Z) :=
    {[ "boxes" := DataModule.VAtom 8%Z; "image" := DataModule.VAtom 2%Z ]} in
  let h : gmap DataModule.loc (gmap string (DataModule.pyval Z)) :=
    {[ 0%nat := d0; 1%nat := d1 ]} in
  ∃ out,
    DataModule.collate_fn Examples.default_collate [DataModule.VRef 0; DataModule.VRef 1] h
    = (Ok (DataModule.OutDict out), h)
    ∧ out !! "boxes" = None
    ∧ out !! "image" = Some (DataModule.VList [DataModule.VAtom 1%Z; DataModule.VAtom 2%Z]).
Proof.
  intros d0 d1 h.
  destruct (collate_fn_no_boxes Examples.default_collate 0%nat d0 [(1%nat, d1)] h)
    as (out & Hrun & Hout).
  - intros l d Hin.
    apply elem_of_cons in Hin as [[= -> ->]|Hin];
      [|apply list_elem_of_singleton in Hin as [= -> ->]].
    + split; [reflexivity | done].
    + split; [reflexivity|]. intros k [v Hv]. unfold d0 in Hv.
      apply lookup_singleton_Some in Hv as [<- _]. by eexists.
  - reflexivity.
  - exists out. split_and!; [exact Hrun | by rewrite (Hout "boxes") | by rewrite (Hout "image")].
Defined.

Lemma collate_fn_failed_pop_witness :
  let d0 : gmap string (DataModule.pyval Z) :=
    {[ "boxes" := DataModule.VAtom 7%Z; "image" := DataModule.VAtom 1%Z ]} in
  let d1 : gmap string (DataModule.pyval Z) := {[ "image" := DataModule.VAtom 2%Z ]} in
  let h : gmap DataModule.loc (gmap string (DataModule.pyval Z)) :=
    {[ 0%nat := d0; 1%nat := d1 ]} in
  ∃ h',
    DataModule.collate_fn Examples.default_collate [DataModule.VRef 0; DataModule.VRef 1] h
    = (Raise (KeyError "boxes"), h')
    ∧ h' !! 0%nat = Some {[ "image" := DataModule.VAtom 1%Z ]}.
Proof.
  intros d0 d1 h.
  destruct (collate_fn_failed_pop Examples.default_collate 0%nat d0 [] 1%nat [] h)
    as (h' & Hrun & Hpopped).
  - simpl. apply NoDup_singleton.
  - intros l d Hin. apply list_elem_of_singleton in Hin as [= -> ->].
    split; [reflexivity | by eexists].
  - right. exists d1. split; reflexivity.
  - exists h'. split; [exact Hrun|].
    etrans; [exact (Hpopped 0%nat)|]. reflexivity.
Defined.

(** * Further properties of the datamodule *)

Section datamodule_more_facts.
Import DataModule.
Context {D Ratio : Type} `{!AnomalibDataset D Ratio}.
Context {Loader : Type}.
Variable new_DataLoader : DataLoader D → result Loader.
Local Abbreviation datamodule := (AnomalibDataModule D Ratio).

(** X7. What [_create_test_split] does when the test set holds no normal
    sample.  Under NONE nothing changes.  Under FROM_DIR and SYNTHETIC the
    normal test samples are split off the training set with
    [test_split_ratio] and the seed, and are added to the test set,
    respectively turned into the synthetic test set; but when
    [test_split_ratio] is [None] nothing was sampled and both modes fail
    with an [UnboundLocalError] on [normal_test_data]. *)
Theorem _create_test_split_without_normal (ω : Entropy) (self : datamodule) :
  has_normal (test_data self) = false →
  (test_split_mode self = TestSplitMode.NONE → _create_test_split ω self = Ok self)
  ∧ (test_split_mode self = TestSplitMode.FROM_DIR
     ∨ test_split_mode self = TestSplitMode.SYNTHETIC →
     test_split_ratio self = None →
     _create_test_split ω self = Raise (UnboundLocalError "normal_test_data"))
  ∧ (∀ ratio,
       test_split_ratio self = Some ratio →
       let sampled := random_split ω (train_data self) ratio false (seed self) in
       (test_split_mode self = TestSplitMode.FROM_DIR →
        _create_test_split ω self
        = Ok (set_test_data (set_train_data self sampled.1)
                (ds_add (test_data self) sampled.2)))
       ∧ (test_split_mode self = TestSplitMode.SYNTHETIC →
          _create_test_split ω self
          = Ok (set_test_data (set_train_data self sampled.1) (from_dataset ω sampled.2)))).
Proof.
  intros Hnormal. unfold _create_test_split, _create_test_split_sample.
  rewrite Hnormal. split_and!.
  - intros Hmode. rewrite Hmode. simpl.
    unfold _create_test_split_assign. by rewrite Hmode.
  - intros Hmode Hratio. rewrite Hratio.
    destruct Hmode as [Hmode|Hmode]; rewrite Hmode; simpl;
      unfold _create_test_split_assign; by rewrite Hmode.
  - intros ratio Hratio. rewrite Hratio.
    destruct (random_split ω (train_data self) ratio false (seed self)) as [train normal].
    split; intros Hmode; rewrite Hmode; simpl;
      unfold _create_test_split_assign; simpl; by rewrite Hmode.
Qed.

Lemma _create_val_split_frame (ω : Entropy) (self self' : datamodule) :
  _create_val_split ω self = Ok self' →
  train_batch_size self' = train_batch_size self
  ∧ eval_batch_size self' = eval_batch_size self
  ∧ num_workers self' = num_workers self
  ∧ test_split_mode self' = test_split_mode self
  ∧ test_split_ratio self' = test_split_ratio self
  ∧ val_split_mode self' = val_split_mode self
  ∧ val_split_ratio self' = val_split_ratio self
  ∧ seed self' = seed self.
Proof.
  unfold _create_val_split. destruct self; simpl.
  repeat (case_match; simpl in *; simplify_eq; try done);
    repeat case_bool_decide; simplify_eq; try done;
    by intros [= <-].
Qed.
Lemma _setup_Ok (ω : Entropy) (self self' : datamodule) (stage : option string) :
  _setup ω self stage = Ok self' →
  ∃ train test split,
    ds_setup (train_data self) = Ok train
    ∧ ds_setup (test_data self) = Ok test
    ∧ _create_test_split ω (set_test_data (set_train_data self train) test) = Ok split
    ∧ _create_val_split ω split = Ok self'.
Proof.
  unfold _setup.
  intros (train & Htrain & Hrest)%bind_Ok.
  apply bind_Ok in Hrest as (test & Htest & Hrest).
  apply bind_Ok in Hrest as (split & Hsplit & Hval).
  by exists train, test, split.
Qed.

(** X8. [setup] never touches the configuration: after a call that
    returns, the batch sizes, the worker count, both split modes, both
    split ratios and the seed are what they were. *)
Theorem setup_keeps_configuration (ω : Entropy) (self self' : datamodule)
    (stage : option string) :
  setup ω self stage = Ok self' →
  train_batch_size self' = train_batch_size self
  ∧ eval_batch_size self' = eval_batch_size self
  ∧ num_workers self' = num_workers self
  ∧ test_split_mode self' = test_split_mode self
  ∧ test_split_ratio self' = test_split_ratio self
  ∧ val_split_mode self' = val_split_mode self
  ∧ val_split_ratio self' = val_split_ratio self
  ∧ seed self' = seed self.
Proof.
  unfold setup, setup_with.
  intros (self1 & Hrun & Hrest)%bind_Ok.
  apply bind_Ok in Hrest as (? & _ & [= ->]).
  destruct (is_setup self); simpl in Hrun; [by injection Hrun as <-|].
  apply _setup_Ok in Hrun as (train & test & split & _ & _ & Hsplit & Hval).
  apply _create_test_split_frame in Hsplit
    as (H1 & H2 & H3 & H4 & H5 & H6 & H7 & H8 & _).
  apply _create_val_split_frame in Hval
    as (H1' & H2' & H3' & H4' & H5' & H6' & H7' & H8').
  simpl in *. split_and!; congruence.
Qed.

Lemma _create_val_split_val_data (ω : Entropy) (self self' : datamodule) :
  _create_val_split ω self = Ok self' →
  (val_split_mode self = ValSplitMode.NONE →
   val_data self' = val_data self ∧ test_data self' = test_data self)
  ∧ (val_split_mode self ≠ ValSplitMode.NONE → is_Some (val_data self'))
  ∧ (val_split_mode self = ValSplitMode.SAME_AS_TEST →
     val_data self' = Some (test_data self'))
  ∧ (val_split_mode self ≠ ValSplitMode.SYNTHETIC → train_data self' = train_data self).
Proof.
  unfold _create_val_split.
  repeat case_bool_decide; try done;
    repeat (destruct (random_split _ _ _ _ _));
    intros [= <-]; simpl; split_and!; try done; try congruence; by eexists.
Qed.

(** X9. After [_setup] of a freshly constructed datamodule, the validation
    set exists exactly when the validation split mode is not NONE: under
    NONE [val_dataloader] fails with an [AttributeError] before any loader
    is built; under every other mode its outcome is that of the
    [DataLoader] constructor on [val_data], without shuffling, with the
    evaluation batch size, the worker count and [collate_fn]. *)
Theorem val_dataloader_after_setup (ω : Entropy)
    (train_batch_size eval_batch_size num_workers : Z)
    (val_split_mode : ValSplitMode.t) (val_split_ratio : Ratio)
    (test_split_mode : option TestSplitMode.t) (test_split_ratio : option Ratio)
    (seed : option Z) (train_data test_data : D)
    (stage : option string) (self' : datamodule) :
  _setup ω (init train_batch_size eval_batch_size num_workers val_split_mode val_split_ratio
              test_split_mode test_split_ratio seed train_data test_data) stage = Ok self' →
  (val_split_mode = ValSplitMode.NONE →
   val_dataloader new_DataLoader self' = Raise AttributeError)
  ∧ (val_split_mode ≠ ValSplitMode.NONE →
     ∃ val, val_data self' = Some val
            ∧ val_dataloader new_DataLoader self'
              = new_DataLoader (mkDataLoader val false eval_batch_size num_workers true)).
Proof.
  intros Hsetup.
  apply _setup_Ok in Hsetup as (train & test & split & _ & _ & Hsplit & Hval).
  pose proof (_create_test_split_frame _ _ _ Hsplit)
    as (_ & H2 & H3 & _ & _ & H6 & _ & _ & H9).
  pose proof (_create_val_split_frame _ _ _ Hval) as (_ & H2' & H3' & _).
  apply _create_val_split_val_data in Hval as (Hnone & Hsome & _).
  simpl in *. rewrite H6 in Hnone, Hsome. unfold val_dataloader, get_val_data. split.
  - intros Hmode. destruct (Hnone Hmode) as [-> _]. by rewrite H9.
  - intros Hmode. destruct (Hsome Hmode) as [val Hv]. exists val.
    rewrite Hv. simpl. split; [done|]. by rewrite H2', H3', H2, H3.
Qed.

(** X10. Under SAME_AS_TEST the validation set is the test set as it
    stands after the test split, and the validation loader is the test
    loader. *)
Theorem same_as_test_shares_dataset (ω : Entropy) (self self' : datamodule)
    (stage : option string) :
  _setup ω self stage = Ok self' →
  val_split_mode self = ValSplitMode.SAME_AS_TEST →
  val_data self' = Some (test_data self')
  ∧ val_dataloader new_DataLoader self' = test_dataloader new_DataLoader self'.
Proof.
  intros Hsetup Hmode.
  apply _setup_Ok in Hsetup as (train & test & split & _ & _ & Hsplit & Hval).
  apply _create_test_split_frame in Hsplit as (_ & _ & _ & _ & _ & H6 & _).
  apply _create_val_split_val_data in Hval as (_ & _ & Hsame & _).
  simpl in H6. rewrite H6 in Hsame. specialize (Hsame Hmode).
  split; [done|]. unfold val_dataloader, test_dataloader, get_val_data. by rewrite Hsame.
Qed.

(** X11. [is_setup] holds as soon as one of the datasets present is set
    up, and [setup] then returns the datamodule as it is, whatever [_setup]
    would do: a test set that is not set up stays so, and no split is
    made. *)
Theorem setup_skips_when_any_is_setup
    (_setup_method : datamodule → option string → result datamodule)
    (self : datamodule) (stage : option string) :
  ds_is_setup (train_data self) = true
  ∨ (∃ val, val_data self = Some val ∧ ds_is_setup val = true)
  ∨ ds_is_setup (test_data self) = true →
  is_setup self = true ∧ setup_with _setup_method self stage = Ok self.
Proof.
  intros Hany.
  assert (Hset : is_setup self = true).
  { unfold is_setup. simpl.
    destruct Hany as [Htrain | [(val & Hval & Hv) | Htest]].
    - rewrite Htrain. destruct (val_data self) as [val|]; [destruct (ds_is_setup val)|];
        by destruct (ds_is_setup (test_data self)).
    - rewrite Hval, Hv. destruct (ds_is_setup (train_data self));
        by destruct (ds_is_setup (test_data self)).
    - by rewrite Htest. }
  split; [done|]. unfold setup_with. rewrite Hset. simpl. by rewrite Hset.
Qed.

(** X12. [_setup] takes samples from the training set only to make up for
    missing normal test samples or to synthesise a validation set: when
    the test set, once set up, holds a normal sample and the validation
    split mode is not SYNTHETIC, [train_data] ends as [setup()] left it. *)
Theorem _setup_keeps_train_data (ω : Entropy) (self self' : datamodule)
    (stage : option string) (test : D) :
  _setup ω self stage = Ok self' →
  ds_setup (test_data self) = Ok test →
  has_normal test = true →
  val_split_mode self ≠ ValSplitMode.SYNTHETIC →
  ds_setup (train_data self) = Ok (train_data self').
Proof.
  intros Hsetup Htest Hnormal Hmode.
  apply _setup_Ok in Hsetup as (train & test' & split & Htrain & Htest' & Hsplit & Hval).
  rewrite Htest in Htest'. injection Htest' as <-.
  pose proof (_create_test_split_frame _ _ _ Hsplit) as (_ & _ & _ & _ & _ & H6 & _).
  apply _create_val_split_val_data in Hval as (_ & _ & _ & Hkeep).
  simpl in H6. rewrite H6 in Hkeep. rewrite (Hkeep Hmode), Htrain. f_equal.
  unfold _create_test_split, _create_test_split_sample in Hsplit. simpl in Hsplit.
  rewrite Hnormal in Hsplit.
  destruct (split_by_label test) as [normal anomalous].
  unfold _create_test_split_assign, local_normal_test_data in Hsplit. simpl in Hsplit.
  repeat case_bool_decide; simplify_eq; by simpl.
Qed.
End datamodule_more_facts.

Lemma _create_test_split_without_normal_witness :
  let self := DataModule.init 32 32 8 ValSplitMode.NONE 50%nat
                (Some TestSplitMode.FROM_DIR) None (Some 42%Z)
                Examples.train_set (Examples.mkDataset true [("a0", LabelName.ABNORMAL)]) in
  DataModule._create_test_split Examples.run1 self = Raise (UnboundLocalError "normal_test_data").
Proof.
  intros self.
  destruct (_create_test_split_without_normal Examples.run1 self) as (_ & Hunbound & _); [reflexivity|].
  apply Hunbound; [by left | reflexivity].
Defined.

Lemma setup_keeps_configuration_witness :
  let self := DataModule.init 32 16 8 ValSplitMode.FROM_TEST 50%nat
                (Some TestSplitMode.FROM_DIR) (Some 20%nat) (Some 42%Z)
                Examples.train_set Examples.test_set in
  ∃ self', DataModule.setup Examples.run1 self None = Ok self'
           ∧ DataModule.eval_batch_size self' = 16%Z
           ∧ DataModule.seed self' = Some 42%Z.
Proof.
  intros self. eexists. split; [vm_compute; reflexivity|].
  match goal with
  | |- DataModule.eval_batch_size ?self' = _ ∧ _ =>
      destruct (setup_keeps_configuration Examples.run1 self self' None)
        as (_ & Heval & _ & _ & _ & _ & _ & Hseed); [vm_compute; reflexivity|]
  end.
  split; [exact Heval | exact Hseed].
Defined.

Lemma val_dataloader_after_setup_witness :
  ∃ self',
    DataModule._setup Examples.run1 (DataModule.init 32 16 8 ValSplitMode.NONE 50%nat
                         (Some TestSplitMode.FROM_DIR) (Some 20%nat) (Some 42%Z)
                         Examples.train_set Examples.test_set) None = Ok self'
    ∧ DataModule.val_dataloader Examples.new_DataLoader self' = Raise AttributeError.
Proof.
  eexists. split; [vm_compute; reflexivity|].
  eapply (val_dataloader_after_setup Examples.new_DataLoader Examples.run1 32 16 8 ValSplitMode.NONE 50%nat
            (Some TestSplitMode.FROM_DIR) (Some 20%nat) (Some 42%Z)
            Examples.train_set Examples.test_set None).
  - vm_compute. reflexivity.
  - reflexivity.
Defined.

Lemma same_as_test_shares_dataset_witness :
  let self := DataModule.init 32 16 8 ValSplitMode.SAME_AS_TEST 50%nat
                (Some TestSplitMode.FROM_DIR) (Some 20%nat) (Some 42%Z)
                Examples.train_set Examples.test_set in
  ∃ self', DataModule._setup Examples.run1 self None = Ok self'
           ∧ DataModule.val_data self' = Some (DataModule.test_data self')
           ∧ DataModule.val_dataloader Examples.new_DataLoader self'
             = DataModule.test_dataloader Examples.new_DataLoader self'.
Proof.
  intros self. eexists. split; [vm_compute; reflexivity|].
  eapply (same_as_test_shares_dataset Examples.new_DataLoader Examples.run1 self _ None); [vm_compute; reflexivity | reflexivity].
Defined.

Lemma setup_skips_when_any_is_setup_witness :
  let self := DataModule.init 32 16 8 ValSplitMode.FROM_TEST 50%nat
                (Some TestSplitMode.FROM_DIR) (Some 20%nat) (Some 42%Z)
                (Examples.mkDataset true [("n0", LabelName.NORMAL)]) Examples.test_set in
  DataModule.is_setup self = true
  ∧ DataModule.setup Examples.run1 self None = Ok self
  ∧ DataModule.ds_is_setup (DataModule.test_data self) = false.
Proof.
  intros self.
  destruct (setup_skips_when_any_is_setup (DataModule._setup Examples.run1) self None) as [Hset Hskip].
  - left. reflexivity.
  - split_and!; [exact Hset | exact Hskip | reflexivity].
Defined.

Lemma _setup_keeps_train_data_witness :
  let self := DataModule.init 32 16 8 ValSplitMode.FROM_TEST 50%nat
                (Some TestSplitMode.FROM_DIR) (Some 20%nat) (Some 42%Z)
                Examples.train_set Examples.test_set in
  ∃ self', DataModule._setup Examples.run1 self None = Ok self'
           ∧ DataModule.ds_setup Examples.train_set = Ok (DataModule.train_data self').
Proof.
  intros self. eexists. split; [vm_compute; reflexivity|].
  eapply (_setup_keeps_train_data Examples.run1 self _ None).
  - vm_compute. reflexivity.
  - reflexivity.
  - reflexivity.
  - discriminate.
Defined.

(** * Further properties of the 3D folder dataset *)

Section folder3d_more_facts.
Import Folder3D.
Context {Path : Type}.
Variable validate_and_resolve_path : path_arg Path → option (path_arg Path) → result Path.
Variable _prepare_files_labels :
  Path → DirType.t → option (list string) → result (list Path * list DirType.t).
Variable is_dir : Path → bool.
Variable path_exists : Path → bool.
Variable path_leb : Path → Path → bool.
Variable path_str : Path → string.
Variable path_of_str : string → Path.
Variable stem_in : Path → Path → bool.
Variable setitem_mismatch : nat → list Path → result (list Path).

Local Abbreviation row := (Folder3D.row Path).
Local Abbreviation all_samples :=
  (Folder3D.all_samples validate_and_resolve_path _prepare_files_labels is_dir path_exists
     path_leb path_str path_of_str stem_in setitem_mismatch).
Local Abbreviation make_folder3d_dataset :=
  (Folder3D.make_folder3d_dataset validate_and_resolve_path _prepare_files_labels is_dir
     path_exists path_leb path_str path_of_str stem_in setitem_mismatch).
Local Abbreviation add_depth_paths :=
  (Folder3D.add_depth_paths path_exists stem_in setitem_mismatch).
Local Abbreviation add_mask_paths :=
  (Folder3D.add_mask_paths path_exists path_str path_of_str setitem_mismatch).

(** Stage by stage, a column that the setters leave alone is unchanged. *)
Lemma assign_by_position_fmap {B : Type} (f : row → B) (sel : row → bool)
    (set : row → Path → row) (rows : list row) (values : list Path) :
  (∀ r v, f (set r v) = f r) →
  f <$> assign_by_position sel set rows values = f <$> rows.
Proof.
  intros Hset. revert values. induction rows as [|r rows IH]; intros values; [done|].
  simpl. destruct (sel r); [destruct values|]; simpl; by rewrite ?Hset, IH.
Qed.

Lemma loc_setitem_fmap {B : Type} (f : row → B) (sel : row → bool)
    (set : row → Path → row) (rows rows' : list row) (values : list Path) :
  (∀ r v, f (set r v) = f r) →
  loc_setitem setitem_mismatch sel set rows values = Ok rows' →
  f <$> rows' = f <$> rows.
Proof.
  intros Hset. unfold loc_setitem. case_bool_decide.
  - intros [= <-]. by apply assign_by_position_fmap.
  - intros (values' & _ & [= <-])%bind_Ok. by apply assign_by_position_fmap.
Qed.

Lemma add_depth_paths_fmap {B : Type} (f : row → B) (normal_test_dir : option Path)
    (rows rows' : list row) :
  (∀ r v, f (set_depth_path r v) = f r) →
  add_depth_paths normal_test_dir rows = Ok rows' →
  f <$> rows' = f <$> rows.
Proof.
  intros Hset [Hassign _]%add_depth_paths_Ok. unfold assign_depth_paths in Hassign.
  apply bind_Ok in Hassign as (rows1 & H1 & Hrest).
  apply bind_Ok in Hrest as (rows2 & H2 & H3).
  apply (loc_setitem_fmap f) in H1, H2; [|done..].
  case_bool_decide.
  - apply (loc_setitem_fmap f) in H3; [|done]. congruence.
  - injection H3 as <-. congruence.
Qed.

Lemma add_mask_paths_fmap {B : Type} (f : row → B) (mask_dir : Path)
    (rows rows' : list row) :
  (∀ r v, f (set_mask_path r v) = f r) →
  add_mask_paths mask_dir rows = Ok rows' →
  f <$> rows' = f <$> rows.
Proof.
  intros Hset [Hassign _]%add_mask_paths_Ok.
  by apply (loc_setitem_fmap f) in Hassign.
Qed.

(** The columns set at line 108 come through the later stages unchanged,
    in the sorted order. *)
Lemma all_samples_columns {B : Type} (f : row → B) (resolved_normal_test : option Path)
    (mask_dir normal_depth_dir abnormal_dir : option (path_arg Path))
    (rows0 rows1 rows2 : list row) :
  (∀ r, f (set_label_index r) = f r) →
  (∀ r v, f (set_depth_path r v) = f r) →
  (∀ r v, f (set_mask_path r v) = f r) →
  (if path_arg_truthy normal_depth_dir
   then add_depth_paths resolved_normal_test
          (set_label_index <$> sort_values path_leb rows0) = Ok rows1
   else rows1 = set_label_index <$> sort_values path_leb rows0) →
  (if path_arg_truthy mask_dir && path_arg_truthy abnormal_dir
   then ∃ mask, add_mask_paths mask rows1 = Ok rows2 else rows2 = rows1) →
  f <$> rows2 = f <$> sort_values path_leb rows0.
Proof.
  intros Hindex Hdepth Hmask Hrows1 Hrows2.
  assert (H1 : f <$> rows1 = f <$> sort_values path_leb rows0).
  { destruct (path_arg_truthy normal_depth_dir).
    - apply (add_depth_paths_fmap f) in Hrows1; [|done]. rewrite Hrows1.
      rewrite <- list_fmap_compose. apply list_fmap_ext. intros i r _. apply Hindex.
    - subst rows1. rewrite <- list_fmap_compose. apply list_fmap_ext.
      intros i r _. apply Hindex. }
  destruct (path_arg_truthy mask_dir && path_arg_truthy abnormal_dir).
  - destruct Hrows2 as [mask Hrows2].
    apply (add_mask_paths_fmap f) in Hrows2; [|done]. congruence.
  - by subst rows2.
Qed.
Lemma seq_strictly_increasing (a n : nat) :
  StronglySorted lt (seq a n) ∧ Forall (λ i, (a ≤ i)%nat) (seq a n).
Proof.
  revert a. induction n as [|n IH]; intros a; simpl.
  - split; constructor.
  - destruct (IH (S a)) as [Hsorted Hbound]. split.
    + constructor; [done|]. eapply Forall_impl; [exact Hbound|]. simpl. lia.
    + constructor; [done|]. eapply Forall_impl; [exact Hbound|]. simpl. lia.
Qed.

Lemma filter_zip_seq_index {B : Type} (p : nat * B → bool) (xs : list B) (a : nat) :
  StronglySorted lt (List.filter p (zip (seq a (length xs)) xs)).*1
  ∧ Forall (λ i, (a ≤ i)%nat) (List.filter p (zip (seq a (length xs)) xs)).*1.
Proof.
  revert a. induction xs as [|x xs IH]; intros a; simpl.
  - split; constructor.
  - destruct (IH (S a)) as [Hsorted Hbound].
    assert (Hbound' : Forall (λ i, (a ≤ i)%nat)
                        (List.filter p (zip (seq (S a) (length xs)) xs)).*1).
    { eapply Forall_impl; [exact Hbound|]. simpl. lia. }
    destruct (p (a, x)); simpl; [|done].
    split; constructor; [done| |done|done].
    eapply Forall_impl; [exact Hbound|]. simpl. lia.
Qed.

Lemma strictly_increasing_NoDup (xs : list nat) : StronglySorted lt xs → NoDup xs.
Proof.
  induction 1 as [|x xs Hsorted IH Hlt]; constructor; [|done].
  intros Hin. eapply Forall_forall in Hlt; [|exact Hin]. lia.
Qed.

Lemma prod_map_id_fst {B C : Type} (f : B → C) (xs : list (nat * B)) :
  (prod_map id f <$> xs).*1 = xs.*1.
Proof. rewrite <- list_fmap_compose. apply list_fmap_ext. by intros i [??] _. Qed.

Lemma prod_map_id_snd {B C : Type} (f : B → C) (xs : list (nat * B)) :
  (prod_map id f <$> xs).*2 = f <$> xs.*2.
Proof. rewrite <- !list_fmap_compose. apply list_fmap_ext. by intros i [??] _. Qed.

(** X13. The index of the returned table is strictly increasing, so no two
    rows share an index label, whether the index was reset or still holds
    the positions in the sorted table. *)
Theorem make_folder3d_dataset_index (normal_dir : path_arg Path)
    (root abnormal_dir normal_test_dir mask_dir normal_depth_dir abnormal_depth_dir
       normal_test_depth_dir : option (path_arg Path))
    (split : option split_arg) (extensions : option (list string))
    (samples : list (nat * sample)) :
  make_folder3d_dataset normal_dir root abnormal_dir normal_test_dir mask_dir normal_depth_dir
    abnormal_depth_dir normal_test_depth_dir split extensions = Ok samples →
  StronglySorted lt samples.*1 ∧ NoDup samples.*1.
Proof.
  intros Hmake.
  assert (Hsorted : StronglySorted lt samples.*1); [|by split; [|apply strictly_increasing_NoDup]].
  unfold Folder3D.make_folder3d_dataset in Hmake.
  apply bind_Ok in Hmake as (full & Hall & [= <-]).
  apply all_samples_stages in Hall
    as (dirs & listing & rows0 & rows1 & rows2 & Hdirs & Hlist & _ & _ & _ & ->).
  unfold select_split.
  destruct split as [wanted|]; [destruct (split_arg_truthy (Some wanted))|].
  - rewrite fst_zip by (by rewrite length_seq, length_fmap).
    apply seq_strictly_increasing.
  - rewrite prod_map_id_fst. apply filter_zip_seq_index.
  - rewrite prod_map_id_fst. apply filter_zip_seq_index.
Qed.
Lemma DataFrame_zip (filenames : list Path) (labels : list DirType.t) (rows : list row) :
  DataFrame filenames labels = Ok rows →
  (λ r, (r_image_path r, r_label r)) <$> rows = zip filenames labels
  ∧ Forall (λ r, r_depth_path r = None ∧ r_mask_path r = None) rows.
Proof.
  unfold DataFrame. case_bool_decide; [|done]. intros [= <-]. clear.
  revert labels. induction filenames as [|f fs IH]; intros [|l ls]; simpl;
    try (split; [done | constructor]).
  destruct (IH ls) as [Hzip Hfresh]. split; [f_equal; exact Hzip | by constructor].
Qed.

Lemma insert_by_path_Permutation (r : row) (rows : list row) :
  insert_by_path path_leb r rows ≡ₚ r :: rows.
Proof.
  induction rows as [|r' rows IH]; simpl; [done|].
  destruct (path_leb _ _); [done|]. rewrite IH. apply Permutation_swap.
Qed.

Lemma sort_values_Permutation (rows : list row) : sort_values path_leb rows ≡ₚ rows.
Proof.
  induction rows as [|r rows IH]; simpl; [done|].
  rewrite insert_by_path_Permutation. by rewrite IH.
Qed.

Lemma List_filter_Permutation {B : Type} (p : B → bool) (xs ys : list B) :
  xs ≡ₚ ys → List.filter p xs ≡ₚ List.filter p ys.
Proof.
  induction 1 as [|x xs ys _ IH|x y xs|xs ys zs _ IH1 _ IH2]; simpl.
  - done.
  - destruct (p x); by rewrite IH.
  - destruct (p x), (p y); try done. apply Permutation_swap.
  - by rewrite IH1.
Qed.

Lemma List_filter_fmap {B C : Type} (f : B → C) (p : C → bool) (xs : list B) :
  List.filter p (f <$> xs) = f <$> List.filter (λ x, p (f x)) xs.
Proof.
  induction xs as [|x xs IH]; [done|]. cbn [fmap list_fmap List.filter].
  destruct (p (f x)); cbn [fmap list_fmap]; [f_equal|]; exact IH.
Qed.

(** The rows of the table before the split is selected, without their
    index. *)
Lemma image_rows_snd (has_depth has_mask : bool) (rows : list row) :
  (prod_map id (to_sample path_str has_depth has_mask)
     <$> List.filter (λ s, is_image_row s.2) (zip (seq 0 (length rows)) rows)).*2
  = to_sample path_str has_depth has_mask <$> List.filter is_image_row rows.
Proof.
  rewrite prod_map_id_snd. f_equal.
  rewrite (filter_snd is_image_row). f_equal.
  apply snd_zip. by rewrite length_seq.
Qed.

(** X14. Without a [split], the returned table lists exactly the image
    files found: its (image_path, label) pairs are, up to the order, the
    files that [_prepare_files_labels] reported with label normal, abnormal
    or normal_test, each as often as it was reported. *)
Theorem make_folder3d_dataset_lists_images (normal_dir : path_arg Path)
    (root abnormal_dir normal_test_dir mask_dir normal_depth_dir abnormal_depth_dir
       normal_test_depth_dir : option (path_arg Path))
    (extensions : option (list string)) (samples : list (nat * sample)) :
  make_folder3d_dataset normal_dir root abnormal_dir normal_test_dir mask_dir normal_depth_dir
    abnormal_depth_dir normal_test_depth_dir None extensions = Ok samples →
  ∃ (dirs : resolved_dirs) (listing : list Path * list DirType.t),
    resolve_dirs validate_and_resolve_path normal_dir root abnormal_dir normal_test_dir
      mask_dir normal_depth_dir abnormal_depth_dir normal_test_depth_dir = Ok dirs
    ∧ list_files _prepare_files_labels is_dir dirs extensions = Ok listing
    ∧ (λ s, (image_path s, label s)) <$> samples.*2
      ≡ₚ (λ file, (path_str file.1, file.2))
           <$> List.filter (λ file, bool_decide (file.2 = DirType.NORMAL)
                                    || bool_decide (file.2 = DirType.ABNORMAL)
                                    || bool_decide (file.2 = DirType.NORMAL_TEST))
                 (zip listing.1 listing.2).
Proof.
  intros Hmake. unfold Folder3D.make_folder3d_dataset in Hmake.
  apply bind_Ok in Hmake as (full & Hall & [= <-]).
  apply all_samples_stages in Hall
    as (dirs & listing & rows0 & rows1 & rows2 & Hdirs & Hlist & Hframe & H1 & H2 & ->).
  exists dirs, listing. split; [done|]. split; [done|].
  apply DataFrame_zip in Hframe as [Hzip _].
  pose proof (all_samples_columns (λ r, (r_image_path r, r_label r))
                (d_normal_test dirs) mask_dir normal_depth_dir abnormal_dir
                rows0 rows1 rows2)
    as Hcolumns.
  assert (Hkeys : (λ r, (r_image_path r, r_label r)) <$> rows2
                  = (λ r, (r_image_path r, r_label r)) <$> sort_values path_leb rows0).
  { apply Hcolumns; try done.
    intros r. unfold set_label_index. by repeat case_match. }
  unfold select_split. rewrite image_rows_snd.
  trans ((λ file : Path * DirType.t, (path_str file.1, file.2))
           <$> List.filter (λ file, bool_decide (file.2 = DirType.NORMAL)
                                    || bool_decide (file.2 = DirType.ABNORMAL)
                                    || bool_decide (file.2 = DirType.NORMAL_TEST))
                 ((λ r, (r_image_path r, r_label r)) <$> rows2)).
  { rewrite List_filter_fmap, <- !list_fmap_compose. done. }
  apply fmap_Permutation, List_filter_Permutation.
  rewrite Hkeys, <- Hzip. apply fmap_Permutation, sort_values_Permutation.
Qed.
Lemma insert_by_path_sorted (r : row) (rows : list row) :
  (∀ a b, path_leb a b = true ∨ path_leb b a = true) →
  (∀ a b c, path_leb a b = true → path_leb b c = true → path_leb a c = true) →
  StronglySorted (λ a b, path_leb a b = true) (r_image_path <$> rows) →
  StronglySorted (λ a b, path_leb a b = true)
    (r_image_path <$> insert_by_path path_leb r rows).
Proof.
  intros Htotal Htrans. induction rows as [|r' rows IH]; intros Hsorted; simpl.
  - repeat constructor.
  - apply StronglySorted_inv in Hsorted as [Hsorted Hall].
    destruct (path_leb (r_image_path r) (r_image_path r')) eqn:Hle.
    + cbn [fmap list_fmap]. constructor; [by constructor|].
      constructor; [done|]. eapply Forall_impl; [exact Hall|].
      intros p Hp. by eapply Htrans.
    + cbn [fmap list_fmap]. constructor; [by apply IH|].
      assert (Hle' : path_leb (r_image_path r') (r_image_path r) = true)
        by (destruct (Htotal (r_image_path r) (r_image_path r')); congruence).
      apply Forall_forall. intros p Hin.
      apply list_elem_of_fmap in Hin as (x & -> & Hin).
      rewrite insert_by_path_Permutation in Hin.
      apply elem_of_cons in Hin as [->|Hin]; [exact Hle'|].
      eapply Forall_forall in Hall; [exact Hall|].
      apply list_elem_of_fmap. by exists x.
Qed.

Lemma sort_values_sorted (rows : list row) :
  (∀ a b, path_leb a b = true ∨ path_leb b a = true) →
  (∀ a b c, path_leb a b = true → path_leb b c = true → path_leb a c = true) →
  StronglySorted (λ a b, path_leb a b = true) (r_image_path <$> sort_values path_leb rows).
Proof.
  intros Htotal Htrans. induction rows as [|r rows IH]; simpl; [constructor|].
  by apply insert_by_path_sorted.
Qed.

Lemma List_filter_sorted {B C : Type} (R : relation C) (f : B → C) (p : B → bool)
    (xs : list B) :
  StronglySorted R (f <$> xs) → StronglySorted R (f <$> List.filter p xs).
Proof.
  induction xs as [|x xs IH]; [done|]. cbn [fmap list_fmap List.filter].
  intros [Hsorted Hall]%StronglySorted_inv.
  destruct (p x); cbn [fmap list_fmap]; [|by apply IH].
  constructor; [by apply IH|].
  apply Forall_forall. intros c Hin.
  apply list_elem_of_fmap in Hin as (y & -> & Hin).
  apply list_elem_of_In, filter_In in Hin as [Hin _].
  eapply Forall_forall in Hall; [exact Hall|].
  apply list_elem_of_fmap. exists y. split; [done|]. by apply list_elem_of_In.
Qed.

Lemma List_filter_filter {B : Type} (p q : B → bool) (xs : list B) :
  List.filter q (List.filter p xs) = List.filter (λ x, p x && q x) xs.
Proof.
  induction xs as [|x xs IH]; [done|]. cbn [List.filter].
  destruct (p x); cbn [List.filter andb]; [destruct (q x); [f_equal|]|]; exact IH.
Qed.

(** X15. When the order on paths is total and transitive, the rows of the
    returned table are in ascending order of their image path, with or
    without a [split]. *)
Theorem make_folder3d_dataset_sorted (normal_dir : path_arg Path)
    (root abnormal_dir normal_test_dir mask_dir normal_depth_dir abnormal_depth_dir
       normal_test_depth_dir : option (path_arg Path))
    (split : option split_arg) (extensions : option (list string))
    (samples : list (nat * sample)) :
  (∀ a b, path_leb a b = true ∨ path_leb b a = true) →
  (∀ a b c, path_leb a b = true → path_leb b c = true → path_leb a c = true) →
  make_folder3d_dataset normal_dir root abnormal_dir normal_test_dir mask_dir normal_depth_dir
    abnormal_depth_dir normal_test_depth_dir split extensions = Ok samples →
  ∃ paths : list Path,
    image_path <$> samples.*2 = path_str <$> paths
    ∧ StronglySorted (λ a b, path_leb a b = true) paths.
Proof.
  intros Htotal Htrans Hmake. unfold Folder3D.make_folder3d_dataset in Hmake.
  apply bind_Ok in Hmake as (full & Hall & [= <-]).
  apply all_samples_stages in Hall
    as (dirs & listing & rows0 & rows1 & rows2 & Hdirs & Hlist & _ & H1 & H2 & ->).
  pose proof (all_samples_columns r_image_path
                (d_normal_test dirs) mask_dir normal_depth_dir abnormal_dir
                rows0 rows1 rows2)
    as Hcolumns.
  assert (Hpaths : r_image_path <$> rows2 = r_image_path <$> sort_values path_leb rows0).
  { apply Hcolumns; try done.
    intros r. unfold set_label_index. by repeat case_match. }
  assert (Hsorted : StronglySorted (λ a b, path_leb a b = true) (r_image_path <$> rows2))
    by (rewrite Hpaths; by apply sort_values_sorted).
  set (has_depth := path_arg_truthy normal_depth_dir).
  set (has_mask := path_arg_truthy mask_dir && path_arg_truthy abnormal_dir).
  assert (Hselect : ∃ p : row → bool,
            (select_split split
               (prod_map id (to_sample path_str has_depth has_mask)
                  <$> List.filter (λ s, is_image_row s.2)
                        (zip (seq 0 (length rows2)) rows2))).*2
            = to_sample path_str has_depth has_mask <$> List.filter p rows2).
  { unfold select_split.
    destruct split as [wanted|]; [destruct (split_arg_truthy (Some wanted))|];
      [|exists is_image_row; apply image_rows_snd..].
    exists (λ r, is_image_row r
                 && split_eqb (Folder3D.split (to_sample path_str has_depth has_mask r)) wanted).
    rewrite snd_zip by (by rewrite length_seq, length_fmap).
    rewrite (filter_snd (λ s, split_eqb (Folder3D.split s) wanted)), image_rows_snd.
    rewrite List_filter_fmap. f_equal. apply List_filter_filter. }
  destruct Hselect as [p ->].
  exists (r_image_path <$> List.filter p rows2). split.
  - rewrite <- !list_fmap_compose. done.
  - by apply List_filter_sorted.
Qed.
Lemma assign_by_position_Forall_selected (P : row → Prop) (sel : row → bool)
    (set : row → Path → row) (rows : list row) (values : list Path) :
  (∀ r v, sel r = true → P (set r v)) →
  Forall P rows → Forall P (assign_by_position sel set rows values).
Proof.
  intros Hset Hrows. revert values.
  induction Hrows as [|r rows Hr Hrows IH]; intros values; simpl; [constructor|].
  destruct (sel r) eqn:Hsel; [destruct values|]; constructor; auto.
Qed.

Lemma add_mask_paths_Forall_selected (P : row → Prop) (mask_dir : Path)
    (rows rows' : list row) :
  (∀ r v, has_label DirType.ABNORMAL r = true → P (set_mask_path r v)) →
  Forall P rows →
  add_mask_paths mask_dir rows = Ok rows' →
  Forall P rows'.
Proof.
  intros Hset Hrows [H1 _]%add_mask_paths_Ok.
  unfold assign_mask_paths, loc_setitem in H1. case_bool_decide.
  - injection H1 as <-. by apply assign_by_position_Forall_selected.
  - apply bind_Ok in H1 as (values' & _ & [= <-]).
    by apply assign_by_position_Forall_selected.
Qed.

(** A property that line 108 establishes for the fresh rows with their
    label index, that the depth assignment keeps and that the mask
    assignment keeps on the rows it writes to, holds of the assembled
    table. *)
Lemma stages_Forall (P : row → Prop) (normal_test_dir : option Path)
    (has_depth has_mask : bool) (filenames : list Path) (labels : list DirType.t)
    (rows0 rows1 rows2 : list row) :
  (∀ r, r_depth_path r = None ∧ r_mask_path r = None → P (set_label_index r)) →
  (∀ r v, P r → P (set_depth_path r v)) →
  (∀ r v, has_label DirType.ABNORMAL r = true → P r → P (set_mask_path r v)) →
  DataFrame filenames labels = Ok rows0 →
  (if has_depth
   then add_depth_paths normal_test_dir (set_label_index <$> sort_values path_leb rows0)
        = Ok rows1
   else rows1 = set_label_index <$> sort_values path_leb rows0) →
  (if has_mask then ∃ mask, add_mask_paths mask rows1 = Ok rows2 else rows2 = rows1) →
  Forall P rows1 ∧ Forall P rows2.
Proof.
  intros Hfresh Hdepth Hmask Hframe H1 H2.
  apply DataFrame_zip in Hframe as [_ Hrows0].
  assert (Hsorted : Forall P (set_label_index <$> sort_values path_leb rows0)).
  { apply Forall_fmap. eapply Forall_impl; [by apply sort_values_Forall|]. exact Hfresh. }
  assert (Hrows1 : Forall P rows1).
  { destruct has_depth; [|by subst rows1].
    by eapply (add_depth_paths_Forall path_exists stem_in setitem_mismatch P). }
  split; [done|]. destruct has_mask; [|by subst rows2].
  destruct H2 as [mask H2].
  assert (Hboth : Forall (λ r, P r ∧ True) rows2); [|by eapply Forall_impl; [exact Hboth|intros ? []]].
  clear Hsorted H1. apply add_mask_paths_Ok in H2 as [Hset _].
  unfold assign_mask_paths, loc_setitem in Hset.
  assert (Hassign : ∀ values,
            Forall (λ r, P r ∧ True)
              (assign_by_position (has_label DirType.ABNORMAL) set_mask_path rows1 values)).
  { clear Hset. induction Hrows1 as [|r rows1 Hr Hrows1 IH]; intros values; simpl;
      [constructor|].
    destruct (has_label DirType.ABNORMAL r) eqn:Hsel; [destruct values|];
      constructor; auto. }
  case_bool_decide.
  - injection Hset as <-. apply Hassign.
  - apply bind_Ok in Hset as (values' & _ & [= <-]). apply Hassign.
Qed.

(** X16. Only anomalous rows carry a mask: a returned row whose label is
    not abnormal has the empty mask path, and so has every row when
    [mask_dir] or [abnormal_dir] was not given. *)
Theorem make_folder3d_dataset_mask_paths (normal_dir : path_arg Path)
    (root abnormal_dir normal_test_dir mask_dir normal_depth_dir abnormal_depth_dir
       normal_test_depth_dir : option (path_arg Path))
    (split : option split_arg) (extensions : option (list string))
    (samples : list (nat * sample)) (i : nat) (s : sample) :
  make_folder3d_dataset normal_dir root abnormal_dir normal_test_dir mask_dir normal_depth_dir
    abnormal_depth_dir normal_test_depth_dir split extensions = Ok samples →
  (i, s) ∈ samples →
  (label s ≠ DirType.ABNORMAL → mask_path s = "")
  ∧ (path_arg_truthy mask_dir = false ∨ path_arg_truthy abnormal_dir = false →
     mask_path s = "").
Proof.
  intros Hmake Hin. unfold Folder3D.make_folder3d_dataset in Hmake.
  apply bind_Ok in Hmake as (full & Hall & [= <-]).
  apply elem_of_select_split in Hin as [j Hin].
  apply all_samples_stages in Hall
    as (dirs & listing & rows0 & rows1 & rows2 & Hdirs & Hlist & Hframe & H1 & H2 & ->).
  apply elem_of_image_rows in Hin as (r & Hr & _ & ->).
  split.
  - simpl. intros Hlabel.
    destruct (path_arg_truthy mask_dir && path_arg_truthy abnormal_dir) eqn:Hmask; [|done].
    assert (Hrows2 : Forall (λ r, r_label r ≠ DirType.ABNORMAL → r_mask_path r = None) rows2).
    { eapply (stages_Forall _ (d_normal_test dirs)
                (path_arg_truthy normal_depth_dir) true _ _ rows0 rows1 rows2);
        [| | |exact Hframe|exact H1|exact H2].
      - intros r' [_ Hnone] _. unfold set_label_index. by repeat case_match.
      - done.
      - intros r' v Hsel _ Hne. unfold has_label in Hsel.
        by apply bool_decide_eq_true in Hsel. }
    eapply Forall_forall in Hrows2; [|exact Hr].
    unfold mask_path_str. by rewrite (Hrows2 Hlabel).
  - simpl. intros Hfalsy.
    by destruct Hfalsy as [-> | ->]; [|rewrite andb_false_r].
Qed.

Lemma all_rows_Ok_true (check : row → result bool) (rows : list row) :
  all_rows check rows = Ok true → Forall (λ r, check r = Ok true) rows.
Proof.
  induction rows as [|r rows IH]; simpl; [constructor|].
  intros (b & Hb & Hrest)%bind_Ok.
  apply bind_Ok in Hrest as (bs & Hbs & [= Hand]).
  apply andb_true_iff in Hand as [-> ->]. constructor; auto.
Qed.

Lemma check_depth_paths_stems (rows : list row) (u : unit) :
  check_depth_paths path_exists stem_in rows = Ok u →
  Forall (λ r, r_label_index r = Some LabelName.ABNORMAL →
               ∃ depth, r_depth_path r = Some depth
                        ∧ stem_in (r_image_path r) depth = true
                        ∧ path_exists depth = true) rows.
Proof.
  intros Hcheck. pose proof (check_depth_paths_Ok path_exists stem_in _ _ Hcheck) as Hexists.
  unfold check_depth_paths in Hcheck.
  apply bind_Ok in Hcheck as (matches & Hstems & Hrest).
  apply bind_Ok in Hrest as (? & ->%assert_Ok & _).
  assert (Hall : all_rows (depth_stem_matches stem_in)
                   (List.filter (λ r, bool_decide (r_label_index r = Some LabelName.ABNORMAL))
                      rows) = Ok true).
  { unfold stems_match in Hstems. by destruct (List.filter _ rows). }
  clear Hstems. rename Hall into Hstems.
  apply all_rows_Ok_true in Hstems.
  apply Forall_forall. intros r Hin Hindex.
  eapply Forall_forall in Hexists; [|exact Hin].
  assert (Hfiltered : In r (List.filter
            (λ r, bool_decide (r_label_index r = Some LabelName.ABNORMAL)) rows)).
  { apply filter_In. split; [by apply list_elem_of_In | by apply bool_decide_eq_true]. }
  apply list_elem_of_In in Hfiltered.
  eapply Forall_forall in Hstems; [|exact Hfiltered].
  unfold depth_stem_matches in Hstems. unfold depth_path_exists in Hexists.
  destruct (r_depth_path r) as [depth|]; [|done].
  exists depth. split_and!; [done | by injection Hstems | done].
Qed.

(** X17. With depth maps, every anomalous row of the returned table is
    paired with an existing depth file whose stem contains the stem of the
    image. *)
Theorem make_folder3d_dataset_depth_stems (normal_dir : path_arg Path)
    (root abnormal_dir normal_test_dir mask_dir normal_depth_dir abnormal_depth_dir
       normal_test_depth_dir : option (path_arg Path))
    (split : option split_arg) (extensions : option (list string))
    (samples : list (nat * sample)) (i : nat) (s : sample) :
  make_folder3d_dataset normal_dir root abnormal_dir normal_test_dir mask_dir normal_depth_dir
    abnormal_depth_dir normal_test_depth_dir split extensions = Ok samples →
  path_arg_truthy normal_depth_dir = true →
  (i, s) ∈ samples →
  label s = DirType.ABNORMAL →
  ∃ image depth,
    image_path s = path_str image
    ∧ depth_path s = Some (path_str depth)
    ∧ stem_in image depth = true
    ∧ path_exists depth = true.
Proof.
  intros Hmake Hdepth Hin Hlabel. unfold Folder3D.make_folder3d_dataset in Hmake.
  apply bind_Ok in Hmake as (full & Hall & [= <-]).
  apply elem_of_select_split in Hin as [j Hin].
  apply all_samples_stages in Hall
    as (dirs & listing & rows0 & rows1 & rows2 & Hdirs & Hlist & Hframe & H1 & H2 & ->).
  apply elem_of_image_rows in Hin as (r & Hr & _ & ->).
  rewrite Hdepth in H1 |- *. simpl in Hlabel.
  set (Q := λ r : row,
         r_label_index r = Some LabelName.ABNORMAL →
         ∃ depth, r_depth_path r = Some depth
                  ∧ stem_in (r_image_path r) depth = true
                  ∧ path_exists depth = true).
  assert (Hrows1 : Forall (λ r, indexed r ∧ Q r) rows1).
  { apply Forall_and. split.
    - apply (add_depth_paths_Forall path_exists stem_in setitem_mismatch indexed) in H1;
        [done | done |].
      apply DataFrame_unindexed in Hframe.
      apply Forall_fmap. eapply Forall_impl; [by apply sort_values_Forall|].
      intros r' Hr'. by apply set_label_index_indexed.
    - apply add_depth_paths_Ok in H1 as [_ Hcheck].
      by apply (check_depth_paths_stems _ tt). }
  assert (Hrows2 : Forall (λ r, indexed r ∧ Q r) rows2).
  { destruct (path_arg_truthy mask_dir && path_arg_truthy abnormal_dir); [|by subst rows2].
    destruct H2 as [mask H2].
    by eapply (add_mask_paths_Forall path_exists path_str path_of_str setitem_mismatch
                 (λ r, indexed r ∧ Q r)). }
  eapply Forall_forall in Hrows2 as [Hindexed HQ]; [|exact Hr].
  unfold indexed in Hindexed. rewrite Hlabel in Hindexed.
  destruct (HQ Hindexed) as (depth & Hd & Hstem & Hexists).
  exists (r_image_path r), depth. simpl. by rewrite Hd.
Qed.

Lemma split_eqb_train_test (wanted : split_arg) :
  split_eqb (Some Split.TRAIN) wanted = true →
  split_eqb (Some Split.TEST) wanted = true → False.
Proof.
  destruct wanted as [member|str]; unfold split_eqb, Split.value.
  - intros <-%bool_decide_eq_true. by intros ?%bool_decide_eq_true.
  - intros Htrain%String.eqb_eq Htest%String.eqb_eq. congruence.
Qed.

Lemma List_filter_nil {B : Type} (p : B → bool) (xs : list B) :
  Forall (λ x, p x = false) xs → List.filter p xs = [].
Proof. induction 1 as [|x xs Hx _ IH]; simpl; [done|]. by rewrite Hx. Qed.

(** X18. A [split] that equals TRAIN, as the member or as the string
    "train", returns normal rows only; one that equals neither TRAIN nor
    TEST (the validation split, or any other non-empty string) returns the
    empty table. *)
Theorem make_folder3d_dataset_train_is_normal (normal_dir : path_arg Path)
    (root abnormal_dir normal_test_dir mask_dir normal_depth_dir abnormal_depth_dir
       normal_test_depth_dir : option (path_arg Path))
    (wanted : split_arg) (extensions : option (list string))
    (samples : list (nat * sample)) :
  make_folder3d_dataset normal_dir root abnormal_dir normal_test_dir mask_dir normal_depth_dir
    abnormal_depth_dir normal_test_depth_dir (Some wanted) extensions = Ok samples →
  split_arg_truthy (Some wanted) = true →
  (split_eqb (Some Split.TRAIN) wanted = true →
   ∀ i s, (i, s) ∈ samples →
          label s = DirType.NORMAL ∧ label_index s = Some LabelName.NORMAL)
  ∧ (split_eqb (Some Split.TRAIN) wanted = false →
     split_eqb (Some Split.TEST) wanted = false →
     samples = []).
Proof.
  intros Hmake Htruthy. unfold Folder3D.make_folder3d_dataset in Hmake.
  apply bind_Ok in Hmake as (full & Hall & [= <-]).
  apply all_samples_Ok in Hall as (rows & -> & Hindexed & _).
  unfold select_split. unfold split_arg_truthy in Htruthy. rewrite Htruthy. split.
  - intros Htrain i s Hin%elem_of_zip_r.
    apply list_elem_of_fmap in Hin as ([j s'] & -> & Hin).
    apply list_elem_of_In, filter_In in Hin as [Hin Hsplit].
    apply list_elem_of_In, elem_of_image_rows in Hin as (r & Hr & Himage & ->).
    eapply Forall_forall in Hindexed; [|exact Hr].
    simpl in *. unfold indexed in Hindexed. rewrite Hindexed.
    unfold is_image_row, has_label in Himage.
    destruct (r_label r); simpl in *; try done;
      by destruct (split_eqb_train_test wanted).
  - intros Htrain Htest. rewrite List_filter_nil; [done|].
    apply Forall_forall. intros [j s] Hin.
    apply elem_of_image_rows in Hin as (r & _ & Himage & ->). simpl.
    unfold is_image_row, has_label in Himage.
    by destruct (r_label r).
Qed.
Lemma elem_of_zip_seq {B : Type} (a : nat) (xs : list B) (x : B) :
  x ∈ xs → ∃ i, (i, x) ∈ zip (seq a (length xs)) xs.
Proof.
  revert a. induction xs as [|y xs IH]; intros a Hin; [by apply elem_of_nil in Hin|].
  apply elem_of_cons in Hin as [-> | Hin].
  - exists a. left.
  - destruct (IH (S a) Hin) as [i Hi]. exists i. by right.
Qed.

Lemma anomalous_label_index (r : row) :
  indexed r → (r_label_index r = Some LabelName.ABNORMAL ↔ r_label r = DirType.ABNORMAL).
Proof. unfold indexed. intros ->. by destruct (r_label r). Qed.

(** X20. Depth maps need an anomalous image.  The stem check of line 134
    is made on the anomalous rows, and on a table without one it raises a
    [ValueError] instead of passing: with [normal_depth_dir] given, a call
    whose table has no row labelled abnormal when the depth paths have been
    written fails with a [ValueError], and whenever a call returns, with
    any [split], the table without a [split] has a row labelled abnormal. *)
Theorem make_folder3d_dataset_depth_needs_anomalous (normal_dir : path_arg Path)
    (root abnormal_dir normal_test_dir mask_dir normal_depth_dir abnormal_depth_dir
       normal_test_depth_dir : option (path_arg Path))
    (split : option split_arg) (extensions : option (list string)) :
  path_arg_truthy normal_depth_dir = true →
  let make := λ split,
    make_folder3d_dataset normal_dir root abnormal_dir normal_test_dir mask_dir
      normal_depth_dir abnormal_depth_dir normal_test_depth_dir split extensions in
  (∀ dirs rows rows1,
     labelled_table validate_and_resolve_path _prepare_files_labels is_dir path_leb
       normal_dir root abnormal_dir normal_test_dir mask_dir normal_depth_dir
       abnormal_depth_dir normal_test_depth_dir extensions = Ok (dirs, rows) →
     assign_depth_paths setitem_mismatch (d_normal_test dirs) rows = Ok rows1 →
     Forall (λ r, r_label r ≠ DirType.ABNORMAL) rows →
     ∃ msg, make split = Raise (ValueError msg))
  ∧ (∀ samples,
       make split = Ok samples →
       ∃ full i s, make None = Ok full ∧ (i, s) ∈ full ∧ label s = DirType.ABNORMAL).
Proof.
  intros Hdepth make. split.
  - intros dirs rows rows1 Htable Hassign Hnone.
    pose proof Htable as (listing & rows0 & Hdirs & _ & Hframe & Hrows)%labelled_table_Ok.
    apply resolve_dirs_Ok in Hdirs as (_ & _ & _ & _ & Hd).
    assert (Hrows0 : Forall (λ r, indexed r ∧ r_label r ≠ DirType.ABNORMAL) rows).
    { apply Forall_and. split; [|done]. subst rows.
      apply DataFrame_unindexed in Hframe.
      apply Forall_fmap. eapply Forall_impl; [by apply sort_values_Forall|].
      intros r Hr. by apply set_label_index_indexed. }
    apply (assign_depth_paths_Forall setitem_mismatch
             (λ r, indexed r ∧ r_label r ≠ DirType.ABNORMAL)) in Hassign as Hrows1;
      [|done..].
    assert (Hfilter : List.filter
              (λ r, bool_decide (r_label_index r = Some LabelName.ABNORMAL)) rows1 = []).
    { apply List_filter_nil. eapply Forall_impl; [exact Hrows1|].
      intros r [Hindexed Hlabel]. apply bool_decide_eq_false.
      by rewrite anomalous_label_index. }
    unfold make, Folder3D.make_folder3d_dataset, Folder3D.all_samples.
    rewrite Htable. simpl.
    unfold depth_stage, Folder3D.add_depth_paths. rewrite Hd, Hdepth, Hassign. simpl.
    unfold check_depth_paths. rewrite Hfilter. simpl. by eexists.
  - intros samples Hmake. unfold make, Folder3D.make_folder3d_dataset in *.
    apply bind_Ok in Hmake as (full & Hall & _).
    rewrite Hall. simpl. exists full.
    apply all_samples_stages in Hall
      as (dirs & listing & rows0 & rows1 & rows2 & _ & _ & Hframe & H1 & H2 & ->).
    rewrite Hdepth in H1 |- *.
    assert (Hindexed : Forall indexed rows1).
    { apply (add_depth_paths_Forall path_exists stem_in setitem_mismatch indexed) in H1;
        [done | done |].
      apply DataFrame_unindexed in Hframe.
      apply Forall_fmap. eapply Forall_impl; [by apply sort_values_Forall|].
      intros r Hr. by apply set_label_index_indexed. }
    apply add_depth_paths_Ok in H1 as [_ Hcheck].
    unfold check_depth_paths in Hcheck.
    apply bind_Ok in Hcheck as (matches & Hstems & _).
    assert (Hanomalous : ∃ r1, r1 ∈ rows1 ∧ r_label r1 = DirType.ABNORMAL).
    { unfold stems_match in Hstems.
      destruct (List.filter _ rows1) as [|r1 anomalous] eqn:Hfilter; [done|].
      assert (Hin : In r1 (List.filter
                (λ r, bool_decide (r_label_index r = Some LabelName.ABNORMAL)) rows1))
        by (rewrite Hfilter; by left).
      apply filter_In in Hin as [Hin Hindex%bool_decide_eq_true].
      apply list_elem_of_In in Hin. exists r1. split; [done|].
      eapply Forall_forall in Hindexed; [|exact Hin].
      by apply anomalous_label_index. }
    destruct Hanomalous as (r1 & Hr1 & Hlabel1).
    assert (Hlabels : r_label <$> rows2 = r_label <$> rows1).
    { destruct (path_arg_truthy mask_dir && path_arg_truthy abnormal_dir); [|by subst rows2].
      destruct H2 as [mask H2]. by apply (add_mask_paths_fmap r_label) in H2. }
    assert (Hr2 : ∃ r2, r2 ∈ rows2 ∧ r_label r2 = DirType.ABNORMAL).
    { assert (Hl : DirType.ABNORMAL ∈ r_label <$> rows2).
      { rewrite Hlabels, <- Hlabel1. by apply list_elem_of_fmap_2. }
      apply list_elem_of_fmap in Hl as (r2 & Hl & Hin). by exists r2. }
    destruct Hr2 as (r2 & Hr2 & Hlabel2).
    destruct (elem_of_zip_seq 0 rows2 r2 Hr2) as [i Hi].
    exists i, (to_sample path_str true
                 (path_arg_truthy mask_dir && path_arg_truthy abnormal_dir) r2).
    split; [done|]. split; [|done].
    apply list_elem_of_fmap. exists (i, r2). split; [done|].
    apply list_elem_of_In, filter_In. split; [by apply list_elem_of_In|].
    simpl. unfold is_image_row, has_label. rewrite Hlabel2. done.
Qed.

Lemma List_filter_partition {B : Type} (p q : B → bool) (xs : list B) :
  Forall (λ x, p x = negb (q x)) xs → xs ≡ₚ List.filter p xs ++ List.filter q xs.
Proof.
  induction 1 as [|x xs Hx _ IH]; simpl; [done|].
  rewrite Hx. destruct (q x); simpl.
  - rewrite <- Permutation_middle. by constructor.
  - by constructor.
Qed.

Context {Task Transform TaskArg NormArg Norm Config ImageSize Ratio : Type}.
Variable TaskType : TaskArg → result Task.
Variable InputNormalizationMethod : NormArg → result Norm.
Variable get_transforms : option Config → ImageSize → option ImageSize → Norm → Transform.

Local Abbreviation Folder3DDataset_setup :=
  (Folder3D.Folder3DDataset_setup (Task := Task) (Transform := Transform)
     validate_and_resolve_path _prepare_files_labels is_dir
     path_exists path_leb path_str path_of_str stem_in setitem_mismatch).

(** X19. The two datasets of a [Folder3D] datamodule split the folder
    between them: when the training dataset sets up, so does the test
    dataset, the training table holds the normal rows, the test table the
    abnormal and normal_test rows, and together they hold every row of the
    unsplit table exactly once. *)
Theorem Folder3D_train_test_partition (normal_dir : path_arg Path)
    (root abnormal_dir normal_test_dir mask_dir normal_depth_dir abnormal_depth_dir
       normal_test_depth_dir : option (path_arg Path))
    (extensions : option (list string))
    (image_size : ImageSize) (center_crop : option ImageSize) (normalization : NormArg)
    (train_batch_size eval_batch_size num_workers : Z) (task : TaskArg)
    (transform_config_train transform_config_eval : option Config)
    (test_split_mode : option TestSplitMode.t) (test_split_ratio : Ratio)
    (val_split_mode : ValSplitMode.t) (val_split_ratio : Ratio) (seed : option Z)
    (self : DataModule.AnomalibDataModule Folder3DDataset Ratio)
    (train : Folder3DDataset) :
  Folder3D_init TaskType InputNormalizationMethod get_transforms
    normal_dir root abnormal_dir normal_test_dir mask_dir normal_depth_dir
    abnormal_depth_dir normal_test_depth_dir extensions image_size center_crop
    normalization train_batch_size eval_batch_size num_workers task
    transform_config_train transform_config_eval test_split_mode test_split_ratio
    val_split_mode val_split_ratio seed = Ok self →
  Folder3DDataset_setup (DataModule.train_data self) = Ok train →
  ∃ test full train_samples test_samples,
    Folder3DDataset_setup (DataModule.test_data self) = Ok test
    ∧ make_folder3d_dataset normal_dir root abnormal_dir normal_test_dir mask_dir
        normal_depth_dir abnormal_depth_dir normal_test_depth_dir None extensions = Ok full
    ∧ fd_samples train = Some train_samples
    ∧ fd_samples test = Some test_samples
    ∧ full.*2 ≡ₚ train_samples.*2 ++ test_samples.*2
    ∧ Forall (λ s, label s = DirType.NORMAL) train_samples.*2
    ∧ Forall (λ s, label s ≠ DirType.NORMAL) test_samples.*2.
Proof.
  unfold Folder3D_init. intros (task' & _ & Hinit)%bind_Ok.
  apply bind_Ok in Hinit as (norm_train & _ & Hinit).
  apply bind_Ok in Hinit as (norm_eval & _ & [= <-]).
  unfold Folder3D.Folder3DDataset_setup, Folder3D.make_folder3d_dataset. simpl.
  intros (train_samples & Htrain & [= <-])%bind_Ok.
  apply bind_Ok in Htrain as (full & Hall & [= <-]).
  rewrite Hall. simpl.
  eexists _, full, _, _. split_and!; [reflexivity..| | |].
  - rewrite !snd_zip by (by rewrite length_seq, length_fmap).
    rewrite !(filter_snd (λ s, split_eqb (Folder3D.split s) _)).
    apply List_filter_partition.
    apply all_samples_Ok in Hall as (rows & -> & _).
    rewrite image_rows_snd. apply Forall_fmap, Forall_forall. intros r Hr.
    apply list_elem_of_In, filter_In in Hr as [_ Himage]. simpl.
    unfold is_image_row, has_label in Himage. by destruct (r_label r).
  - rewrite snd_zip by (by rewrite length_seq, length_fmap).
    rewrite (filter_snd (λ s, split_eqb (Folder3D.split s) _)).
    apply all_samples_Ok in Hall as (rows & -> & _).
    rewrite image_rows_snd, List_filter_fmap. apply Forall_fmap, Forall_forall.
    intros r Hr. apply list_elem_of_In, filter_In in Hr as [_ Hsplit]. simpl in *.
    by destruct (r_label r).
  - rewrite snd_zip by (by rewrite length_seq, length_fmap).
    rewrite (filter_snd (λ s, split_eqb (Folder3D.split s) _)).
    apply all_samples_Ok in Hall as (rows & -> & _).
    rewrite image_rows_snd, List_filter_fmap. apply Forall_fmap, Forall_forall.
    intros r Hr. apply list_elem_of_In, filter_In in Hr as [_ Hsplit]. simpl in *.
    by destruct (r_label r).
Qed.
End folder3d_more_facts.

Lemma load_tree_table : Examples.load_tree None = Ok Examples.tree_table.
Proof. vm_compute. reflexivity. Qed.

Lemma string_leb_trans (a b c : string) :
  String.leb a b = true → String.leb b c = true → String.leb a c = true.
Proof.
  unfold String.leb. intros Hab Hbc.
  destruct (String.compare a b) eqn:Eab; [|clear Hab|done].
  - apply String.compare_eq_iff in Eab as ->. exact Hbc.
  - destruct (String.compare b c) eqn:Ebc; [|clear Hbc|done].
    + apply String.compare_eq_iff in Ebc as <-. by rewrite Eab.
    + apply OrderedTypeEx.String_as_OT.cmp_lt in Eab, Ebc.
      pose proof (OrderedTypeEx.String_as_OT.lt_trans _ _ _ Eab Ebc) as Hac.
      apply OrderedTypeEx.String_as_OT.cmp_lt in Hac.
      unfold OrderedTypeEx.String_as_OT.cmp in Hac. by rewrite Hac.
Qed.

Lemma make_folder3d_dataset_index_witness :
  StronglySorted lt Examples.tree_table.*1 ∧ NoDup Examples.tree_table.*1.
Proof.
  exact (make_folder3d_dataset_index _ _ _ _ _ _ _ _ _ _ _ _ _ _ _ _ _ _ _ _
           load_tree_table).
Defined.

Lemma make_folder3d_dataset_lists_images_witness :
  (λ s, (Folder3D.image_path s, Folder3D.label s)) <$> Examples.tree_table.*2
  ≡ₚ [ ("data/normal/000.png", DirType.NORMAL); ("data/normal/001.png", DirType.NORMAL);
       ("data/abnormal/000.png", DirType.ABNORMAL);
       ("data/normal_test/000.png", DirType.NORMAL_TEST) ].
Proof.
  destruct (make_folder3d_dataset_lists_images _ _ _ _ _ _ _ _ _ _ _ _ _ _ _ _ _ _ _
              load_tree_table) as (dirs & listing & Hdirs & Hlist & Hperm).
  injection Hdirs as <-. injection Hlist as <-. exact Hperm.
Defined.

Lemma make_folder3d_dataset_sorted_witness :
  ∃ paths : list string,
    Folder3D.image_path <$> Examples.tree_table.*2 = id <$> paths
    ∧ StronglySorted (λ a b, String.leb a b = true) paths.
Proof.
  exact (make_folder3d_dataset_sorted _ _ _ _ _ _ _ _ _ _ _ _ _ _ _ _ _ _ _ _
           String.leb_total string_leb_trans load_tree_table).
Defined.

Lemma make_folder3d_dataset_mask_paths_witness :
  Folder3D.mask_path Examples.normal_000 = "".
Proof.
  refine (proj1 (make_folder3d_dataset_mask_paths _ _ _ _ _ _ _ _ _ _ _ _ _ _ _ _ _ _ _ _
                   6%nat Examples.normal_000 load_tree_table _) _).
  - right. left.
  - discriminate.
Defined.

Lemma make_folder3d_dataset_depth_stems_witness :
  ∃ image depth,
    Folder3D.image_path Examples.abnormal_000 = id image
    ∧ Folder3D.depth_path Examples.abnormal_000 = Some (id depth)
    ∧ Examples.stem_in image depth = true
    ∧ Examples.path_exists Examples.tree depth = true.
Proof.
  refine (make_folder3d_dataset_depth_stems _ _ _ _ _ _ _ _ _ _ _ _ _ _ _ _ _ _ _ _
            0%nat Examples.abnormal_000 load_tree_table _ _ _).
  - reflexivity.
  - left.
  - reflexivity.
Defined.

Lemma load_tree_train :
  Examples.load_tree (Some (Folder3D.SplitMember Split.TRAIN))
  = Ok [(0, Examples.normal_000); (1, Examples.normal_001)]%nat.
Proof. vm_compute. reflexivity. Qed.

Lemma make_folder3d_dataset_train_is_normal_witness :
  Folder3D.label Examples.normal_001 = DirType.NORMAL
  ∧ Folder3D.label_index Examples.normal_001 = Some LabelName.NORMAL.
Proof.
  refine (proj1 (make_folder3d_dataset_train_is_normal _ _ _ _ _ _ _ _ _ _ _ _ _ _ _ _ _ _ _ _
                   load_tree_train _) _ 1%nat Examples.normal_001 _).
  - reflexivity.
  - reflexivity.
  - right. left.
Defined.

(** Normal images with their depth maps and nothing else: the call fails
    with the [ValueError]; the table of the whole tree has its anomalous
    row. *)
Lemma make_folder3d_dataset_depth_needs_anomalous_witness :
  (∃ msg,
     Examples.make_folder3d_dataset Examples.tree (Folder3D.Str "normal")
       (Some (Folder3D.Str "data")) None None None (Some (Folder3D.Str "depth/normal"))
       None None None None = Raise (ValueError msg))
  ∧ (∃ i s, (i, s) ∈ Examples.tree_table ∧ Folder3D.label s = DirType.ABNORMAL).
Proof.
  split.
  - pose proof (make_folder3d_dataset_depth_needs_anomalous
        (Examples.validate_and_resolve_path Examples.tree)
        (Examples._prepare_files_labels Examples.tree) (Examples.is_dir Examples.tree)
        (Examples.path_exists Examples.tree) String.leb id id Examples.stem_in
        Examples.setitem_mismatch
        (Folder3D.Str "normal") (Some (Folder3D.Str "data")) None None None
        (Some (Folder3D.Str "depth/normal")) None None None None eq_refl) as [Hraise _].
    eapply Hraise.
    + vm_compute. reflexivity.
    + vm_compute. reflexivity.
    + repeat constructor; by simpl.
  - pose proof (make_folder3d_dataset_depth_needs_anomalous
        (Examples.validate_and_resolve_path Examples.tree)
        (Examples._prepare_files_labels Examples.tree) (Examples.is_dir Examples.tree)
        (Examples.path_exists Examples.tree) String.leb id id Examples.stem_in
        Examples.setitem_mismatch
        (Folder3D.Str "normal") (Some (Folder3D.Str "data"))
        (Some (Folder3D.Str "abnormal")) (Some (Folder3D.Str "normal_test"))
        (Some (Folder3D.Str "mask")) (Some (Folder3D.Str "depth/normal"))
        (Some (Folder3D.Str "depth/abnormal")) (Some (Folder3D.Str "depth/normal_test"))
        None None eq_refl) as [_ Hreturned].
    destruct (Hreturned _ load_tree_table) as (full & i & s & Hfull & Hin & Hlabel).
    assert (Heq : Ok full = Ok Examples.tree_table)
      by (rewrite <- Hfull; exact load_tree_table).
    injection Heq as ->. by exists i, s.
Defined.

Lemma Folder3D_train_test_partition_witness :
  ∃ self train test full train_samples test_samples,
    Examples.folder3d_datamodule = Ok self
    ∧ Examples.folder3d_dataset_setup (DataModule.train_data self) = Ok train
    ∧ Examples.folder3d_dataset_setup (DataModule.test_data self) = Ok test
    ∧ Examples.load_tree None = Ok full
    ∧ Folder3D.fd_samples train = Some train_samples
    ∧ Folder3D.fd_samples test = Some test_samples
    ∧ full.*2 ≡ₚ train_samples.*2 ++ test_samples.*2
    ∧ Forall (λ s, Folder3D.label s = DirType.NORMAL) train_samples.*2
    ∧ Forall (λ s, Folder3D.label s ≠ DirType.NORMAL) test_samples.*2.
Proof.
  eexists _, _.
  edestruct (Folder3D_train_test_partition (Examples.validate_and_resolve_path Examples.tree)
    (Examples._prepare_files_labels Examples.tree) (Examples.is_dir Examples.tree)
    (Examples.path_exists Examples.tree) String.leb id id Examples.stem_in
    Examples.setitem_mismatch
    (Task := string) (Transform := unit) (Config := string) (ImageSize := nat * nat)
    (Ratio := nat)
    (λ task : string, Ok task) (λ normalization : string, Ok normalization)
    (λ _ _ _ (_ : string), tt)
    (Folder3D.Str "normal") (Some (Folder3D.Str "data"))
    (Some (Folder3D.Str "abnormal")) (Some (Folder3D.Str "normal_test"))
    (Some (Folder3D.Str "mask")) (Some (Folder3D.Str "depth/normal"))
    (Some (Folder3D.Str "depth/abnormal")) (Some (Folder3D.Str "depth/normal_test"))
    None (256, 256)%nat None "imagenet" 32%Z 32%Z 8%Z "segmentation" None None
    (Some TestSplitMode.FROM_DIR) 20%nat ValSplitMode.FROM_TEST 50%nat None)
    as (test & full & train_samples & test_samples & Htest & Hfull & Htr & Hte & Hperm & Hn & Ha).
  - reflexivity.
  - vm_compute. reflexivity.
  - exists test, full, train_samples, test_samples.
    split_and!; [reflexivity | vm_compute; reflexivity | exact Htest | exact Hfull
                | exact Htr | exact Hte | exact Hperm | exact Hn | exact Ha].
Defined.
